(** * HurricaneDNS: a session-backed scrape/mutate client

    Shallow embedding of [he_dns_manager.py] (class [HurricaneDNS]) and the
    properties of its login, zone listing, record listing, add and delete
    operations.

    Conventions of the embedding.
    - A Python [str] is a [string]; its characters are read as the code
      points U+0000..U+00FF.
    - A Python dict with string keys is a [gmap string scalar]; the values the
      program stores are [None], integers and strings.
    - A parsed page (what [BeautifulSoup(text, 'html.parser')] returns) is a
      [node] tree; the parser itself is a parameter of the development.
    - The remote provider, the [requests] session and the terminal are a
      parameter too: an abstract world with a transition for one HTTP
      exchange, and a list of pending input lines.
    - The cookie jar of the session is the list of its cookies, name and
      value. [dict(self.session.cookies)], which the methods evaluate for
      their debug lines whatever the debug flag is, raises on a cookie with
      an empty value and on two cookies of one name.
    - A method is a function from the client state to an outcome (a value or
      a raised exception), the next state and the events it emitted, in
      order: HTTP requests, printed lines and prompts. *)

From Stdlib Require Import ZArith Ascii String List Bool Lia.
From stdpp Require Import base option list gmap strings pretty.

Local Open Scope string_scope.
Local Open Scope list_scope.

(** ** Python strings *)

Module PyStr.

Definition code (c : ascii) : N := N_of_ascii c.

(** [0-9]: what [\d] matches below U+0100. *)
Definition is_decimal (c : ascii) : bool :=
  ((48 <=? code c) && (code c <=? 57))%N.

(** [str.isdigit] on one character: the decimal digits and the
    superscripts U+00B2, U+00B3, U+00B9. *)
Definition isdigit_char (c : ascii) : bool :=
  is_decimal c || (code c =? 178)%N || (code c =? 179)%N || (code c =? 185)%N.

(** [str.isspace] on one character. *)
Definition isspace_char (c : ascii) : bool :=
  ((9 <=? code c) && (code c <=? 13))%N
  || ((28 <=? code c) && (code c <=? 32))%N
  || (code c =? 133)%N || (code c =? 160)%N.

(** [str.lower] on one character. *)
Definition lower_char (c : ascii) : ascii :=
  if ((65 <=? code c) && (code c <=? 90))%N
     || ((192 <=? code c) && (code c <=? 222) && negb (code c =? 215))%N
  then ascii_of_N (code c + 32)
  else c.

Fixpoint all_chars (p : ascii -> bool) (s : string) : bool :=
  match s with
  | EmptyString => true
  | String c s' => p c && all_chars p s'
  end.

(** [s.isdigit()]: false on the empty string. *)
Definition isdigit (s : string) : bool :=
  match s with
  | EmptyString => false
  | _ => all_chars isdigit_char s
  end.

Fixpoint lower (s : string) : string :=
  match s with
  | EmptyString => EmptyString
  | String c s' => String (lower_char c) (lower s')
  end.

Fixpoint lstrip (s : string) : string :=
  match s with
  | EmptyString => EmptyString
  | String c s' => if isspace_char c then lstrip s' else s
  end.

(** [rstrip]: a trailing character is kept when something is kept after
    it or when it is not white space. *)
Fixpoint rstrip (s : string) : string :=
  match s with
  | EmptyString => EmptyString
  | String c s' =>
      match rstrip s' with
      | EmptyString => if isspace_char c then EmptyString else String c EmptyString
      | t => String c t
      end
  end.

(** [s.strip()] *)
Definition strip (s : string) : string := rstrip (lstrip s).

(** [s.startswith(p)], returning what follows the prefix. *)
Fixpoint drop_prefix (p s : string) : option string :=
  match p, s with
  | EmptyString, _ => Some s
  | String a p', String b s' => if Ascii.eqb a b then drop_prefix p' s' else None
  | String _ _, EmptyString => None
  end.

(** [sub in s] *)
Fixpoint contains (sub s : string) : bool :=
  match drop_prefix sub s with
  | Some _ => true
  | None =>
      match s with
      | EmptyString => false
      | String _ s' => contains sub s'
      end
  end.

(** [s[:n]] *)
Fixpoint take (n : nat) (s : string) : string :=
  match n, s with
  | S n', String c s' => String c (take n' s')
  | _, _ => EmptyString
  end.

(** The longest run of decimal digits at the head of [s], and the rest. *)
Fixpoint span_digits (s : string) : string * string :=
  match s with
  | String c s' =>
      if is_decimal c
      then let '(d, r) := span_digits s' in (String c d, r)
      else (EmptyString, s)
  | EmptyString => (EmptyString, EmptyString)
  end.

(** [re.search]: the match of an anchored matcher at the leftmost position
    where it succeeds; the result is group 1. *)
Fixpoint re_search (match_here : string -> option string) (s : string)
  : option string :=
  match match_here s with
  | Some g => Some g
  | None =>
      match s with
      | EmptyString => None
      | String _ s' => re_search match_here s'
      end
  end.

(** [hosted_dns_zoneid=(\d+)] anchored at the head of [s]. *)
Definition match_zoneid (s : string) : option string :=
  match drop_prefix "hosted_dns_zoneid=" s with
  | Some r =>
      match span_digits r with
      | (EmptyString, _) => None
      | (d, _) => Some d
      end
  | None => None
  end.

(** [\((\d+)\)] anchored at the head of [s]: the digits are greedy, and
    giving digits back cannot help since the next character must be the
    closing parenthesis. *)
Definition match_call_arg (s : string) : option string :=
  match drop_prefix "(" s with
  | Some r =>
      match span_digits r with
      | (EmptyString, _) => None
      | (d, r') =>
          match drop_prefix ")" r' with
          | Some _ => Some d
          | None => None
          end
      end
  | None => None
  end.

(** [(?:delete|edit)_record\((\d+)\)] anchored at the head of [s]. *)
Definition match_record_call (s : string) : option string :=
  match drop_prefix "delete" s with
  | Some r =>
      match drop_prefix "_record" r with
      | Some r' => match_call_arg r'
      | None => None
      end
  | None =>
      match drop_prefix "edit" s with
      | Some r =>
          match drop_prefix "_record" r with
          | Some r' => match_call_arg r'
          | None => None
          end
      | None => None
      end
  end.

(** [str.isprintable] on one character. *)
Definition isprintable_char (c : ascii) : bool :=
  ((32 <=? code c) && (code c <? 127))%N
  || ((161 <=? code c) && negb (code c =? 173))%N.

Definition hex_digit (n : N) : ascii :=
  if (n <? 10)%N then ascii_of_N (48 + n) else ascii_of_N (87 + n).

Definition single_quote : ascii := ascii_of_nat 39.
Definition double_quote : ascii := ascii_of_nat 34.
Definition backslash : ascii := ascii_of_nat 92.

Definition has_char (c : ascii) (s : string) : bool :=
  negb (all_chars (fun x => negb (Ascii.eqb x c)) s).

(** The quote that [repr] puts around [s]: the double quote when [s] has a
    single quote and no double quote, the single quote otherwise. *)
Definition repr_quote (s : string) : ascii :=
  if has_char single_quote s && negb (has_char double_quote s)
  then double_quote else single_quote.

(** One character of [s] inside [repr(s)]. *)
Definition repr_char (quote c : ascii) : string :=
  if Ascii.eqb c quote || Ascii.eqb c backslash
  then String backslash (String c EmptyString)
  else if (code c =? 9)%N then String backslash "t"
  else if (code c =? 10)%N then String backslash "n"
  else if (code c =? 13)%N then String backslash "r"
  else if isprintable_char c then String c EmptyString
  else String backslash
         (String "x" (String (hex_digit (code c / 16))
                        (String (hex_digit (code c mod 16)) EmptyString))).

Fixpoint repr_body (quote : ascii) (s : string) : string :=
  match s with
  | EmptyString => EmptyString
  | String c s' => repr_char quote c +:+ repr_body quote s'
  end.

(** [repr(s)] *)
Definition repr (s : string) : string :=
  String (repr_quote s)
    (repr_body (repr_quote s) s +:+ String (repr_quote s) EmptyString).

End PyStr.

(** ** Python values *)

(** The values that the client stores in dicts and passes in form data. *)
Inductive scalar : Type :=
  | SNone
  | SInt (z : Z)
  | SStr (s : string).

#[global] Instance scalar_eq_dec : EqDecision scalar.
Proof. solve_decision. Defined.

(** A value that a caller may pass for the polymorphic [zone] parameter. *)
Inductive pyval : Type :=
  | Scalar (v : scalar)
  | Dict (d : gmap string scalar).

#[global] Instance pyval_eq_dec : EqDecision pyval.
Proof. solve_decision. Defined.

(** [str(v)] *)
Definition py_str (v : scalar) : string :=
  match v with
  | SNone => "None"
  | SInt z => pretty z
  | SStr s => s
  end.

(** [str(b)] for a bool. *)
Definition bool_str (b : bool) : string := if b then "True" else "False".

(** Truth value of a scalar: [None], [0] and [''] are false. *)
Definition truthy (v : scalar) : bool :=
  match v with
  | SNone => false
  | SInt z => negb (z =? 0)%Z
  | SStr s => negb (String.eqb s "")
  end.

(** [str(v).isdigit()]; the [repr] of a dict starts with a brace. *)
Definition str_isdigit (v : pyval) : bool :=
  match v with
  | Scalar x => PyStr.isdigit (py_str x)
  | Dict _ => false
  end.

(** ** Parsed pages *)

(** A [bs4] tree. An element has its tag name, the tokens of its [class]
    attribute ([bs4] keeps that attribute as a list), its other attributes
    and its children. *)
#[warnings="-register-all"]
Inductive node : Type :=
  | Text (s : string)
  | Elem (name : string) (classes : list string)
         (attrs : gmap string string) (children : list node).

#[global] Instance node_inhabited : Inhabited node := populate (Text "").

Module Soup.

(** [tag.text]: the text of all the strings below the node. *)
Fixpoint text (n : node) : string :=
  match n with
  | Text s => s
  | Elem _ _ _ cs => fold_right (fun c acc => text c +:+ acc) "" cs
  end.

(** The nodes strictly below [n], in document order. *)
Fixpoint descendants (n : node) : list node :=
  match n with
  | Text _ => []
  | Elem _ _ _ cs => flat_map (fun c => c :: descendants c) cs
  end.

Definition is_tag (nm : string) (n : node) : bool :=
  match n with
  | Elem nm' _ _ _ => String.eqb nm nm'
  | Text _ => false
  end.

(** [tag.get(key)] *)
Definition get (key : string) (n : node) : option string :=
  match n with
  | Elem _ _ a _ => a !! key
  | Text _ => None
  end.

Definition classes_of (n : node) : list string :=
  match n with
  | Elem _ cl _ _ => cl
  | Text _ => []
  end.

(** The filter [key=value] of [find] and [find_all]. *)
Definition attr_is (key value : string) (n : node) : bool :=
  match get key n with
  | Some v => String.eqb v value
  | None => false
  end.

(** The filter [class_=[...]]: one token of the element's class is one of
    the listed names. *)
Definition class_in (names : list string) (n : node) : bool :=
  existsb (fun c => existsb (String.eqb c) names) (classes_of n).

Definition any (_ : node) : bool := true.

(** [n.find_all(nm, ...)] *)
Definition find_all (nm : string) (p : node -> bool) (n : node) : list node :=
  List.filter (fun d => is_tag nm d && p d) (descendants n).

(** [n.find(nm, ...)] *)
Definition find (nm : string) (p : node -> bool) (n : node) : option node :=
  head (find_all nm p n).

End Soup.

(** ** Scraping *)

Module Scrape.

(** [self.supported_record_types], set once in [__init__]. *)
Definition supported_record_types : list string := ["A"; "AAAA"].

(** [t in self.supported_record_types] *)
Definition supported (t : string) : bool :=
  existsb (String.eqb t) supported_record_types.

(** The body of the row loop of [get_zones]: the zone of one [tr], or
    [None] when the row is skipped. *)
Definition zone_of_row (tr : node) : option (gmap string scalar) :=
  let tds := Soup.find_all "td" Soup.any tr in
  if Nat.leb 3 (length tds) then
    let zone_name := PyStr.strip (Soup.text (tds !!! 2%nat)) in
    match Soup.find "img" (Soup.attr_is "alt" "edit") tr with
    | Some edit_btn =>
        match Soup.get "onclick" edit_btn with
        | Some onclick =>
            if negb (String.eqb onclick "") then
              match PyStr.re_search PyStr.match_zoneid onclick with
              | Some zone_id =>
                  Some {[ "id" := SStr zone_id; "name" := SStr zone_name ]}
              | None => None
              end
            else None
        | None => None
        end
    | None => None
    end
  else None.

(** [for tr in domains_table.find_all('tr'): ... zones.append(...)] *)
Fixpoint zones_loop (trs : list node) (zones : list (gmap string scalar))
  : list (gmap string scalar) :=
  match trs with
  | [] => zones
  | tr :: rest =>
      match zone_of_row tr with
      | Some z => zones_loop rest (zones ++ [z])
      | None => zones_loop rest zones
      end
  end.

(** The zones of a parsed listing page. *)
Definition scrape_zones (soup : node) : list (gmap string scalar) :=
  match Soup.find "table" (Soup.attr_is "id" "domains_table") soup with
  | Some domains_table =>
      zones_loop (Soup.find_all "tr" Soup.any domains_table) []
  | None => []
  end.

(** The first loop of a record row: the id in the [onclick] of the first
    link of the cell that calls [delete_record] or [edit_record]. *)
Fixpoint onclick_record_id (links : list node) : option string :=
  match links with
  | [] => None
  | link :: rest =>
      let onclick := default "" (Soup.get "onclick" link) in
      match PyStr.re_search PyStr.match_record_call onclick with
      | Some g => Some g
      | None => onclick_record_id rest
      end
  end.

(** The body of the row loop of [get_records]: the record of one [tr], or
    [None] when nothing is appended. The indices are in range under the
    length test. *)
Definition record_of_row (tr : node) : option (gmap string scalar) :=
  let tds := Soup.find_all "td" Soup.any tr in
  if Nat.leb 5 (length tds) then
    let record : gmap string scalar := ∅ in
    let record_id :=
      match tds with
      | first_cell :: _ => onclick_record_id (Soup.find_all "a" Soup.any first_cell)
      | [] => None
      end in
    let record :=
      match record_id with
      | Some rid => <["id" := SStr rid]> record
      | None => record
      end in
    if Nat.leb 5 (length tds) then
      let record := <["id" := SStr (PyStr.strip (Soup.text (tds !!! 1%nat)))]> record in
      let record := <["name" := SStr (PyStr.strip (Soup.text (tds !!! 2%nat)))]> record in
      let record := <["type" := SStr (PyStr.strip (Soup.text (tds !!! 3%nat)))]> record in
      let record := <["ttl" := SStr (PyStr.strip (Soup.text (tds !!! 4%nat)))]> record in
      match record !! "type" with
      | Some (SStr t) => if supported t then Some record else None
      | _ => None
      end
    else None
  else None.

(** [for tr in soup.find_all('tr', class_=[...]): ... records.append(record)] *)
Fixpoint records_loop (trs : list node) (records : list (gmap string scalar))
  : list (gmap string scalar) :=
  match trs with
  | [] => records
  | tr :: rest =>
      match record_of_row tr with
      | Some r => records_loop rest (records ++ [r])
      | None => records_loop rest records
      end
  end.

(** The rows that [get_records] visits. *)
Definition record_rows (soup : node) : list node :=
  Soup.find_all "tr" (Soup.class_in ["dns_tr"; "dns_tr_alt"]) soup.

(** The records of a parsed zone page. *)
Definition scrape_records (soup : node) : list (gmap string scalar) :=
  records_loop (record_rows soup) [].

(** *** The record listing as the specification words it

    The rows of the page that carry one of the two row-class markers, have at
    least five cells and whose type column is [A] or [AAAA], in page order;
    each gives its id, name, type and ttl columns. *)

Definition cells (tr : node) : list node := Soup.find_all "td" Soup.any tr.

(** The stripped text of cell [i] of a row. *)
Definition column (i : nat) (tr : node) : string :=
  PyStr.strip (Soup.text (cells tr !!! i)).

Definition has_marker (tr : node) : bool :=
  Soup.class_in ["dns_tr"; "dns_tr_alt"] tr.

Definition kept_row (tr : node) : bool :=
  has_marker tr
  && Nat.leb 5 (length (cells tr))
  && (String.eqb (column 3 tr) "A" || String.eqb (column 3 tr) "AAAA").

Definition row_fields (tr : node) : gmap string scalar :=
  {[ "id" := SStr (column 1 tr);
     "name" := SStr (column 2 tr);
     "type" := SStr (column 3 tr);
     "ttl" := SStr (column 4 tr) ]}.

Definition records_spec (soup : node) : list (gmap string scalar) :=
  map row_fields (List.filter kept_row (Soup.find_all "tr" Soup.any soup)).

(** *** The shape of a record as the specification words it

    [{id: string, name: string, type: enum{A, AAAA}, ttl: integer seconds,
    content: string}] *)



(** The fields that the row loop of [get_records] gives a record. *)
Definition record_shape (r : gmap string scalar) : Prop :=
  exists id name type ttl,
    r !! "id" = Some (SStr id)
    /\ r !! "name" = Some (SStr name)
    /\ r !! "type" = Some (SStr type)
    /\ (type = "A" \/ type = "AAAA")
    /\ r !! "ttl" = Some (SStr ttl).

End Scrape.

(** ** HTTP exchanges, events and exceptions *)

Inductive http_method : Type := GET | POST.

(** The four addresses the client builds from [self.base_url]. The zone id
    is kept as the value that the f-string formats. *)
Inductive url : Type :=
  | UrlLogin
      (** [f"{base_url}/"] *)
  | UrlIndex
      (** [f"{base_url}/index.cgi"]: zone listing and record deletion *)
  | UrlRecords (zone_id : pyval)
      (** [f"{base_url}/index.cgi?hosted_dns_zoneid={zone_id}&menu=edit_zone&hosted_dns_editzone"] *)
  | UrlEditZone (zone_id : pyval)
      (** [f"{base_url}/?hosted_dns_zoneid={zone_id}&menu=edit_zone&hosted_dns_editzone"] *).

Record request : Type := mkRequest {
  req_method : http_method;
  req_url : url;
  req_data : list (string * pyval)
}.

Record response : Type := mkResponse {
  status_code : Z;
  text : string
}.

(** What a call does that an observer sees, besides its result. *)
Inductive event : Type :=
  | EvHttp (r : request)
  | EvPrint (line : string)
  | EvInput (prompt : string).

Inductive exc : Type :=
  | Exception (msg : string)
  | ValueError (msg : string)
  | KeyError (key : string)
  | TypeError (msg : string)
  | EOFError
  | RequestException (msg : string)
  | CookieConflictError (msg : string)
  | SystemExit (code : Z).

(** [isinstance(e, Exception)]: [SystemExit] derives from [BaseException]
    only, so an [except Exception] clause lets it through. *)
Definition is_Exception (e : exc) : bool :=
  match e with
  | SystemExit _ => false
  | _ => true
  end.

(** [str(e)] *)
Definition exc_str (e : exc) : string :=
  match e with
  | Exception msg | ValueError msg | TypeError msg | RequestException msg
  | CookieConflictError msg => msg
  | KeyError key => PyStr.repr key
  | EOFError => "EOF when reading a line"
  | SystemExit code => pretty code
  end.

Inductive res (A : Type) : Type :=
  | Ok (a : A)
  | Err (e : exc).
Arguments Ok {A} a.
Arguments Err {A} e.

(** ** The cookie jar

    The jar of the session is the list of its cookies, name and value, in
    the order in which the jar iterates over them; two cookies of one name
    differ by domain or path. *)

Module Jar.

(** The loop of [RequestsCookieJar._find_no_duplicates(name)]. *)
Fixpoint find_loop (name : string) (jar : list (string * string))
  (toReturn : option string) : res (option string) :=
  match jar with
  | [] => Ok toReturn
  | (n, v) :: rest =>
      if String.eqb n name then
        match toReturn with
        | Some _ =>
            Err (CookieConflictError
                   ("There are multiple cookies with name, " +:+ PyStr.repr name))
        | None => find_loop name rest (Some v)
        end
      else find_loop name rest toReturn
  end.

(** [jar[name]]: the value of the one cookie of that name; a second cookie
    of the name is a conflict, and a value that is empty is not found. *)
Definition getitem (jar : list (string * string)) (name : string) : res string :=
  match find_loop name jar None with
  | Ok (Some v) =>
      if negb (String.eqb v "") then Ok v
      else Err (KeyError ("name=" +:+ PyStr.repr name +:+ ", domain=None, path=None"))
  | Ok None =>
      Err (KeyError ("name=" +:+ PyStr.repr name +:+ ", domain=None, path=None"))
  | Err e => Err e
  end.

(** [d[k] = v] on a dict kept in insertion order. *)
Fixpoint setitem (d : list (string * string)) (k v : string)
  : list (string * string) :=
  match d with
  | [] => [(k, v)]
  | (k', v') :: rest =>
      if String.eqb k' k then (k, v) :: rest else (k', v') :: setitem rest k v
  end.

(** [dict(jar)]: for each key of [jar.keys()], the names of the cookies in
    order, [d[key] = jar[key]]. *)
Fixpoint dict_loop (jar : list (string * string)) (keys : list string)
  (d : list (string * string)) : res (list (string * string)) :=
  match keys with
  | [] => Ok d
  | k :: rest =>
      match getitem jar k with
      | Ok v => dict_loop jar rest (setitem d k v)
      | Err e => Err e
      end
  end.

Definition dict (jar : list (string * string)) : res (list (string * string)) :=
  dict_loop jar (map fst jar) [].

(** [dict(jar)] raises nothing. *)
Definition convertible (jar : list (string * string)) : bool :=
  match dict jar with
  | Ok _ => true
  | Err _ => false
  end.

(** [repr(d)] of a dict of strings. *)
Fixpoint repr_items (d : list (string * string)) : string :=
  match d with
  | [] => ""
  | [(k, v)] => PyStr.repr k +:+ ": " +:+ PyStr.repr v
  | (k, v) :: rest =>
      PyStr.repr k +:+ ": " +:+ PyStr.repr v +:+ ", " +:+ repr_items rest
  end.

Definition repr (d : list (string * string)) : string :=
  "{" +:+ repr_items d +:+ "}".

End Jar.

(** The event is the POST that deletes a record. *)
Definition is_delete_post (ev : event) : bool :=
  match ev with
  | EvHttp (mkRequest POST UrlIndex _) => true
  | _ => false
  end.

(** The event is the POST that adds a record. *)
Definition is_add_post (ev : event) : bool :=
  match ev with
  | EvHttp (mkRequest POST (UrlEditZone _) _) => true
  | _ => false
  end.

Definition is_http (ev : event) : bool :=
  match ev with
  | EvHttp _ => true
  | _ => false
  end.

Definition is_input (ev : event) : bool :=
  match ev with
  | EvInput _ => true
  | _ => false
  end.

Definition is_print (ev : event) : bool :=
  match ev with
  | EvPrint _ => true
  | _ => false
  end.

(** ** The client *)

Section Client.

(** The provider and the [requests] session: one exchange takes the state
    of the world and the cookie jar, and either fails with a transport
    error or answers; the jar and the world move on in both cases. *)
Variable World : Type.
Variable http :
  World -> list (string * string) -> request ->
  (string + response) * list (string * string) * World.

(** [BeautifulSoup(text, 'html.parser')] *)
Variable BeautifulSoup : string -> node.

(** The attributes of a [HurricaneDNS] object, the world its session talks
    to, and the lines waiting on standard input. *)
Record state : Type := mkState {
  username : string;
  password : string;
  debug : bool;
  logged_in : bool;
  cookies : list (string * string);
  world : World;
  stdin : list string
}.

Definition M (A : Type) : Type := state -> res A * state * list event.

Definition ret {A} (a : A) : M A := fun s => (Ok a, s, []).

Definition bind {A B} (m : M A) (k : A -> M B) : M B := fun s =>
  match m s with
  | (Ok a, s1, e1) => let '(r, s2, e2) := k a s1 in (r, s2, e1 ++ e2)
  | (Err e, s1, e1) => (Err e, s1, e1)
  end.

Definition raise {A} (e : exc) : M A := fun s => (Err e, s, []).

Definition gets {A} (f : state -> A) : M A := fun s => (Ok (f s), s, []).

Definition emit (ev : event) : M unit := fun s => (Ok tt, s, [ev]).

(** [try: m  except Exception as e: h e] *)
Definition try_except {A} (m : M A) (h : exc -> M A) : M A := fun s =>
  match m s with
  | (Err e, s1, e1) =>
      if is_Exception e
      then let '(r, s2, e2) := h e s1 in (r, s2, e1 ++ e2)
      else (Err e, s1, e1)
  | out => out
  end.

Notation "'let*' x ':=' m 'in' k" := (bind m (fun x => k))
  (at level 10, x name, m at level 100, k at level 200, only parsing).
Notation "m ;;; k" := (bind m (fun _ => k))
  (at level 100, k at level 200, right associativity, only parsing).

Definition print (line : string) : M unit := emit (EvPrint line).

(** [self.debug_print(message)]. The message is the text of the source's
    f-string; of the values it interpolates only the cookie jar is
    formatted, by [debug_cookies] below, the others are left as written. *)
Definition debug_print (message : string) : M unit :=
  let* d := gets debug in
  if d then print ("DEBUG: " +:+ message) else ret tt.

(** [dict(self.session.cookies)] *)
Definition cookies_dict : M (list (string * string)) :=
  let* jar := gets cookies in
  match Jar.dict jar with
  | Ok d => ret d
  | Err e => raise e
  end.

(** [self.debug_print(f"<label>{dict(self.session.cookies)}")]: the
    argument is evaluated before the call, whatever [self.debug] is. *)
Definition debug_cookies (label : string) : M unit :=
  let* d := cookies_dict in
  debug_print (label +:+ Jar.repr d).

(** [try: m  except Exception as e: print(f"Error in <name>: {str(e)}"); raise] *)
Definition logged (name : string) {A} (m : M A) : M A :=
  try_except m
    (fun e => print ("Error in " +:+ name +:+ ": " +:+ exc_str e) ;;; raise e).

(** [self.session.get(u)] and [self.session.post(u, data=data)] *)
Definition session_request (r : request) : M response := fun s =>
  let '(out, jar, w) := http (world s) (cookies s) r in
  let s' := mkState (username s) (password s) (debug s) (logged_in s) jar w (stdin s) in
  match out with
  | inl msg => (Err (RequestException msg), s', [EvHttp r])
  | inr resp => (Ok resp, s', [EvHttp r])
  end.

Definition session_get (u : url) : M response :=
  session_request (mkRequest GET u []).

Definition session_post (u : url) (data : list (string * pyval)) : M response :=
  session_request (mkRequest POST u data).

(** [self.logged_in = b] *)
Definition set_logged_in (b : bool) : M unit := fun s =>
  (Ok tt, mkState (username s) (password s) (debug s) b (cookies s) (world s) (stdin s), []).

(** [input(prompt)] *)
Definition input (prompt : string) : M string := fun s =>
  match stdin s with
  | line :: rest =>
      (Ok line,
       mkState (username s) (password s) (debug s) (logged_in s) (cookies s) (world s) rest,
       [EvInput prompt])
  | [] => (Err EOFError, s, [EvInput prompt])
  end.

(** [d[key]] *)
Definition getitem (d : gmap string scalar) (key : string) : M scalar :=
  match d !! key with
  | Some v => ret v
  | None => raise (KeyError key)
  end.

(** [login] *)
Definition login : M bool :=
  let* li := gets logged_in in
  if li then ret true
  else
    try_except
      (debug_print "Attempting to login as {self.username}" ;;;
       let* initial_response := session_get UrlLogin in
       debug_print "Initial page load status: {initial_response.status_code}" ;;;
       debug_cookies "Cookies received: " ;;;
       let* u := gets username in
       let* p := gets password in
       let login_data :=
         [("email", Scalar (SStr u)); ("pass", Scalar (SStr p));
          ("submit", Scalar (SStr "Login!"))] in
       debug_print "Submitting login form with fields: {list(login_data.keys())}" ;;;
       let* login_response := session_post UrlLogin login_data in
       debug_print "Login response status: {login_response.status_code}" ;;;
       debug_cookies "Cookies after login: " ;;;
       let* jar := gets cookies in
       set_logged_in
         (negb (PyStr.contains "Incorrect login" (text login_response))
          && Nat.ltb 0 (length jar)) ;;;
       debug_print "Login successful: {self.logged_in}" ;;;
       let* li := gets logged_in in
       (if negb li
        then print "Login failed. Response excerpt:" ;;;
             print (PyStr.take 1000 (text login_response))
        else ret tt) ;;;
       gets logged_in)
      (fun e => print ("Login error: " +:+ exc_str e) ;;; ret false).

(** The two requests of [login]. *)
Definition login_get : request := mkRequest GET UrlLogin [].

Definition login_post (s : state) : request :=
  mkRequest POST UrlLogin
    [("email", Scalar (SStr (username s))); ("pass", Scalar (SStr (password s)));
     ("submit", Scalar (SStr "Login!"))].

(** What [get_zones] returns: the list, or the one zone asked for. *)
Inductive zones_result : Type :=
  | AllZones (zones : list (gmap string scalar))
  | OneZone (zone : gmap string scalar).

(** [zone['name'] == domain_name] in the comprehension of [get_zones]; every
    zone built by the scrape has the key. *)
Definition zone_named (domain_name : string) (zone : gmap string scalar) : bool :=
  bool_decide (zone !! "name" = Some (SStr domain_name)).

(** [get_zones(domain_name=None)] *)
Definition get_zones (domain_name : option string) : M zones_result :=
  let* ok := login in
  if negb ok then raise (Exception "Login failed")
  else
    logged "get_zones"
      (debug_print "Fetching zones from: {zones_url}" ;;;
       debug_cookies "Using cookies: " ;;;
       let* response := session_get UrlIndex in
       debug_print "Zones response status: {response.status_code}" ;;;
       let* d := gets debug in
       (if d
        then debug_print "\n==== RESPONSE CONTENT START ====" ;;;
             debug_print (PyStr.take 500 (text response)) ;;;
             debug_print "==== RESPONSE CONTENT END ====\n"
        else ret tt) ;;;
       debug_cookies "Cookies after zones request: " ;;;
       let zones := Scrape.scrape_zones (BeautifulSoup (text response)) in
       match domain_name with
       | Some name =>
           if negb (String.eqb name "") then
             let matching_zones := List.filter (zone_named name) zones in
             match matching_zones with
             | [] =>
                 print ("Domain " +:+ name +:+ " not found in your HE DNS zones.") ;;;
                 raise (SystemExit 1)
             | z :: _ => ret (OneZone z)
             end
           else ret (AllZones zones)
       | None => ret (AllZones zones)
       end).

(** [for z in zones: if z['name'] == zone: zone_id = z['id']; break] *)
Fixpoint find_zone_id (zones : list (gmap string scalar)) (zone zone_id : pyval)
  : M pyval :=
  match zones with
  | [] => ret zone_id
  | z :: rest =>
      let* name := getitem z "name" in
      if bool_decide (Scalar name = zone)
      then let* id := getitem z "id" in ret (Scalar id)
      else find_zone_id rest zone zone_id
  end.

(** The block that [get_records], [add_record] and [delete_record] each
    start with: the zone id of a zone given as a dict, an id or a name. *)
Definition resolve_zone_id (zone : pyval) : M pyval :=
  let zone_id := zone in
  match zone with
  | Dict d =>
      match d !! "id" with
      | Some id => ret (Scalar id)
      | None =>
          let* zs := get_zones None in
          match zs with
          | AllZones zones => find_zone_id zones zone zone_id
          | OneZone _ => raise (TypeError "string indices must be integers")
          end
      end
  | Scalar _ =>
      if negb (str_isdigit zone) then
        let* zs := get_zones None in
        match zs with
        | AllZones zones => find_zone_id zones zone zone_id
        | OneZone _ => raise (TypeError "string indices must be integers")
        end
      else ret zone_id
  end.

(** [get_records(zone)] *)
Definition get_records (zone : pyval) : M (list (gmap string scalar)) :=
  let* ok := login in
  if negb ok then raise (Exception "Login failed")
  else
    logged "get_records"
      (let* zone_id := resolve_zone_id zone in
       debug_print "Fetching records from: {records_url}" ;;;
       debug_cookies "Using cookies: " ;;;
       let* response := session_get (UrlRecords zone_id) in
       debug_print "Records response status: {response.status_code}" ;;;
       ret (Scrape.scrape_records (BeautifulSoup (text response)))).

(** The message of the [ValueError] for a type that is not supported. *)
Definition unsupported_msg (record_type : string) : string :=
  "Unsupported record type: " +:+ record_type
  +:+ ". Only A, AAAA are supported.".

(** [for record in records: if record['name'] == record_name and
    record['type'] == record_type: return record] and [return None]. *)
Fixpoint find_record (records : list (gmap string scalar))
  (record_name record_type : string) : M (option (gmap string scalar)) :=
  match records with
  | [] => ret None
  | record :: rest =>
      let* n := getitem record "name" in
      if bool_decide (n = SStr record_name) then
        let* t := getitem record "type" in
        if bool_decide (t = SStr record_type) then ret (Some record)
        else find_record rest record_name record_type
      else find_record rest record_name record_type
  end.

(** [record_exists(zone, record_name, record_type='A')] *)
Definition record_exists (zone : pyval) (record_name record_type : string)
  : M (option (gmap string scalar)) :=
  if negb (Scrape.supported record_type)
  then raise (ValueError (unsupported_msg record_type))
  else
    let* records := get_records zone in
    find_record records record_name record_type.

(** Truth value of a dict: the empty dict is false. *)
Definition dict_truthy (d : gmap string scalar) : bool :=
  negb (bool_decide (d = ∅)).

(** [add_record(zone, record_type, name, content, ttl=300, check_exists=True)] *)
Definition add_record (zone : pyval) (record_type name content : string)
  (ttl : Z) (check_exists : bool) : M bool :=
  let* ok := login in
  if negb ok then raise (Exception "Login failed")
  else if negb (Scrape.supported record_type)
  then raise (ValueError (unsupported_msg record_type))
  else
    logged "add_record"
      (let* zone_id := resolve_zone_id zone in
       let submit : M bool :=
         debug_print "Adding record to: {records_url}" ;;;
         debug_cookies "Using cookies: " ;;;
         let data :=
           [("account", Scalar (SStr ""));
            ("menu", Scalar (SStr "edit_zone"));
            ("Type", Scalar (SStr record_type));
            ("hosted_dns_zoneid", zone_id);
            ("hosted_dns_recordid", Scalar (SStr ""));
            ("hosted_dns_editzone", Scalar (SStr "1"));
            ("Priority", Scalar (SStr ""));
            ("Name", Scalar (SStr name));
            ("Content", Scalar (SStr content));
            ("TTL", Scalar (SStr (pretty ttl)));
            ("hosted_dns_editrecord", Scalar (SStr "Submit"))] in
         debug_print "Submitting record data: {data}" ;;;
         let* response := session_post (UrlEditZone zone_id) data in
         debug_print "Add record response status: {response.status_code}" ;;;
         let success :=
           PyStr.contains "successfully added" (PyStr.lower (text response))
           || PyStr.contains "record updated" (PyStr.lower (text response)) in
         print ("Record '" +:+ name +:+ "' added successfully: " +:+ bool_str success) ;;;
         ret success in
       if check_exists then
         let* existing_record := record_exists zone_id name record_type in
         match existing_record with
         | Some existing =>
             if dict_truthy existing then
               let* c := getitem existing "content" in
               print ("Record '" +:+ name +:+ "' of type '" +:+ record_type
                      +:+ "' already exists with content '" +:+ py_str c +:+ "'.") ;;;
               ret false
             else submit
         | None => submit
         end
       else submit).

(** Truth value of the [record_name] argument: [None] and [''] are false. *)
Definition name_given (record_name : option string) : bool :=
  match record_name with
  | Some n => negb (String.eqb n "")
  | None => false
  end.

(** [str(record_name)] *)
Definition name_str (record_name : option string) : string :=
  match record_name with
  | Some n => n
  | None => "None"
  end.

(** [delete_record(zone, record_id=None, record_name=None, record_type='A',
    force_delete=False)] *)
Definition delete_record (zone : pyval) (record_id : scalar)
  (record_name : option string) (record_type : string) (force_delete : bool)
  : M bool :=
  let* ok := login in
  if negb ok then raise (Exception "Login failed")
  else if negb (Scrape.supported record_type)
  then raise (ValueError (unsupported_msg record_type))
  else
    logged "delete_record"
      (let* zone_id := resolve_zone_id zone in
       let submit (record_id : scalar) : M bool :=
         debug_print "Deleting record from: {delete_url}" ;;;
         debug_cookies "Using cookies: " ;;;
         let data :=
           [("hosted_dns_zoneid", zone_id);
            ("hosted_dns_recordid", Scalar record_id);
            ("menu", Scalar (SStr "edit_zone"));
            ("hosted_dns_delconfirm", Scalar (SStr "delete"));
            ("hosted_dns_editzone", Scalar (SStr "1"));
            ("hosted_dns_delrecord", Scalar (SStr "1"))] in
         debug_print "Submitting delete data: {data}" ;;;
         let* response := session_post UrlIndex data in
         debug_print "Delete record response status: {response.status_code}" ;;;
         let success :=
           PyStr.contains "successfully removed" (PyStr.lower (text response))
           || PyStr.contains "successfully deleted" (PyStr.lower (text response)) in
         print ("Record '" +:+ name_str record_name +:+ "' deleted successfully: "
                +:+ bool_str success) ;;;
         ret success in
       let confirm (record_id : scalar) : M bool :=
         if negb force_delete then
           let* answer :=
             input ("Are you sure you want to delete record ID "
                    +:+ py_str record_id +:+ "? (y/N): ") in
           if negb (String.eqb (PyStr.lower answer) "y")
           then print "Deletion cancelled." ;;; ret false
           else submit record_id
         else submit record_id in
       if negb (truthy record_id) && name_given record_name then
         let* existing_record :=
           record_exists zone_id (name_str record_name) record_type in
         match existing_record with
         | Some existing =>
             if dict_truthy existing then
               let* id := getitem existing "id" in
               confirm id
             else
               print ("Record '" +:+ name_str record_name +:+ "' not found.") ;;;
               ret false
         | None =>
             print ("Record '" +:+ name_str record_name +:+ "' not found.") ;;;
             ret false
         end
       else confirm record_id).

(** ** Properties of the scrape *)

Import Scrape.

Lemma zones_loop_app (trs : list node) (acc : list (gmap string scalar)) :
  zones_loop trs acc = acc ++ omap zone_of_row trs.
Proof.
  revert acc. induction trs as [|tr trs IH]; intros acc; simpl.
  - by rewrite app_nil_r.
  - destruct (zone_of_row tr) as [z|]; rewrite IH; [|done].
    by rewrite <- app_assoc.
Qed.

(** The zones of a page are the zones of the rows of its table, in row
    order. *)
Lemma scrape_zones_rows (soup table : node) :
  Soup.find "table" (Soup.attr_is "id" "domains_table") soup = Some table ->
  scrape_zones soup = omap zone_of_row (Soup.find_all "tr" Soup.any table).
Proof. intros H. unfold scrape_zones. by rewrite H, zones_loop_app. Qed.

Lemma records_loop_app (trs : list node) (acc : list (gmap string scalar)) :
  records_loop trs acc = acc ++ omap record_of_row trs.
Proof.
  revert acc. induction trs as [|tr trs IH]; intros acc; simpl.
  - by rewrite app_nil_r.
  - destruct (record_of_row tr) as [r|]; rewrite IH; [|done].
    by rewrite <- app_assoc.
Qed.

Lemma supported_iff (t : string) :
  supported t = true <-> t = "A" \/ t = "AAAA".
Proof.
  unfold supported, supported_record_types. simpl.
  rewrite !orb_true_iff, !String.eqb_eq. intuition congruence.
Qed.

Lemma supported_eqb (t : string) :
  supported t = String.eqb t "A" || String.eqb t "AAAA".
Proof. unfold supported. simpl. by rewrite orb_false_r. Qed.

(** The row loop only reads the four columns: the id found in the links of
    the first cell is replaced before the record is used. *)
Lemma record_of_row_columns (tr : node) :
  record_of_row tr =
  if Nat.leb 5 (length (cells tr)) && supported (column 3 tr)
  then Some (row_fields tr) else None.
Proof.
  unfold record_of_row, row_fields, column, cells.
  set (tds := Soup.find_all "td" Soup.any tr).
  destruct (Nat.leb 5 (length tds)); [simpl|done].
  set (rid := match tds with [] => None | c :: _ => _ end).
  assert (Hid : forall v,
    <["id" := v]> (match rid with
                   | Some r => <["id" := SStr r]> (∅ : gmap string scalar)
                   | None => ∅
                   end) = <["id" := v]> (∅ : gmap string scalar)).
  { intros v. destruct rid; [apply insert_insert_eq|done]. }
  rewrite Hid. clear Hid.
  rewrite lookup_insert_ne by done. rewrite lookup_insert_eq.
  by destruct (supported _).
Qed.


Lemma scrape_records_omap (soup : node) :
  scrape_records soup = omap record_of_row (record_rows soup).
Proof. unfold scrape_records. by rewrite records_loop_app. Qed.

Lemma filter_cons_bool {A} (p : A -> bool) (x : A) (l : list A) :
  List.filter p (x :: l) = if p x then x :: List.filter p l else List.filter p l.
Proof. reflexivity. Qed.

Lemma omap_rows_spec (l : list node) :
  omap record_of_row
    (List.filter (fun d => Soup.is_tag "tr" d && has_marker d) l)
  = map row_fields
      (List.filter kept_row
         (List.filter (fun d => Soup.is_tag "tr" d && Soup.any d) l)).
Proof.
  induction l as [|d l IH]; [done|].
  rewrite !filter_cons_bool. unfold Soup.any at 1.
  destruct (Soup.is_tag "tr" d); cbn [andb]; [|exact IH].
  rewrite filter_cons_bool. unfold kept_row at 1.
  destruct (has_marker d); cbn [andb]; [|exact IH].
  cbn [omap list_omap]. rewrite record_of_row_columns, supported_eqb.
  destruct (Nat.leb 5 (length (cells d)) && _); [|exact IH].
  cbn [map]. by rewrite <- IH.
Qed.

(** The records of a page are the records of the rows that the
    specification keeps, in page order. *)
Lemma scrape_records_spec (soup : node) :
  scrape_records soup = records_spec soup.
Proof.
  rewrite scrape_records_omap. unfold record_rows, records_spec, Soup.find_all.
  apply omap_rows_spec.
Qed.

(** ** Properties of the client *)

Lemma debug_print_run (message : string) (s : state) :
  debug_print message s =
  (Ok tt, s, if debug s then [EvPrint ("DEBUG: " +:+ message)] else []).
Proof.
  unfold debug_print, bind, gets, print, emit, ret.
  by destruct (debug s).
Qed.

Lemma login_when_logged_in (s : state) :
  logged_in s = true -> login s = (Ok true, s, []).
Proof.
  intros H. unfold login, bind, gets. rewrite H. reflexivity.
Qed.

(** C3. [login] is idempotent: with the authenticated flag set it returns
    true at once, makes no exchange (it emits no event at all) and leaves
    the whole state, session included, as it was. *)
Theorem login_idempotent (s : state) :
  logged_in s = true -> login s = (Ok true, s, []).
Proof.
  intros H. unfold login.
  unfold bind at 1. unfold gets at 1.
  rewrite H. cbn iota.
  unfold ret. reflexivity.
Qed.

(** C10. When [login] returns false, each of the four operations raises
    [Exception("Login failed")]; the state and the events are those of the
    login attempt, so nothing more is sent to the provider. *)
Theorem login_failure_raises (s s' : state) (evs : list event) :
  login s = (Ok false, s', evs) ->
  (forall domain_name,
     get_zones domain_name s = (Err (Exception "Login failed"), s', evs))
  /\ (forall zone,
        get_records zone s = (Err (Exception "Login failed"), s', evs))
  /\ (forall zone record_type name content ttl check_exists,
        add_record zone record_type name content ttl check_exists s
        = (Err (Exception "Login failed"), s', evs))
  /\ (forall zone record_id record_name record_type force_delete,
        delete_record zone record_id record_name record_type force_delete s
        = (Err (Exception "Login failed"), s', evs)).
Proof.
  intros H. repeat split; intros;
    unfold get_zones, get_records, add_record, delete_record, bind;
    rewrite H; simpl; unfold raise; by rewrite app_nil_r.
Qed.

(** *** Reasoning about one run

    [wp m s Q]: the run of [m] from [s] ends in an outcome, a state and a
    list of events that satisfy [Q]. Every method is a total function, so
    the run always ends. *)

Definition wp {A} (m : M A) (s : state)
  (Q : res A -> state -> list event -> Prop) : Prop :=
  Q (m s).1.1 (m s).1.2 (m s).2.

Lemma wp_run {A} (m : M A) (s : state) Q r s' evs :
  m s = (r, s', evs) -> wp m s Q <-> Q r s' evs.
Proof. unfold wp. by intros ->. Qed.

Lemma wp_mono {A} (m : M A) (s : state) (Q Q' : res A -> state -> list event -> Prop) :
  wp m s Q -> (forall r s' evs, Q r s' evs -> Q' r s' evs) -> wp m s Q'.
Proof. unfold wp. auto. Qed.

Lemma wp_ret {A} (a : A) s Q : Q (Ok a) s [] -> wp (ret a) s Q.
Proof. done. Qed.

Lemma wp_raise {A} (e : exc) s (Q : res A -> state -> list event -> Prop) :
  Q (Err e) s [] -> wp (raise e) s Q.
Proof. done. Qed.

Lemma wp_gets {A} (f : state -> A) s Q : Q (Ok (f s)) s [] -> wp (gets f) s Q.
Proof. done. Qed.

Lemma wp_print (line : string) s Q :
  Q (Ok tt) s [EvPrint line] -> wp (print line) s Q.
Proof. done. Qed.

Lemma wp_debug_print (message : string) s Q :
  (forall evs, forallb is_print evs = true -> Q (Ok tt) s evs) ->
  wp (debug_print message) s Q.
Proof.
  intros H. unfold wp. rewrite debug_print_run. apply H.
  by destruct (debug s).
Qed.

Lemma find_loop_raises (name : string) (jar : list (string * string))
  (toReturn : option string) (e : exc) :
  Jar.find_loop name jar toReturn = Err e -> is_Exception e = true.
Proof.
  revert toReturn. induction jar as [|[n v] jar IH]; intros toReturn; [done|].
  cbn [Jar.find_loop]. destruct (String.eqb n name); [|by apply IH].
  destruct toReturn; [by intros [= <-]|by apply IH].
Qed.

Lemma jar_getitem_raises (jar : list (string * string)) (name : string) (e : exc) :
  Jar.getitem jar name = Err e -> is_Exception e = true.
Proof.
  unfold Jar.getitem.
  destruct (Jar.find_loop name jar None) as [[v|]|e'] eqn:E.
  - destruct (negb (String.eqb v "")); [done|by intros [= <-]].
  - by intros [= <-].
  - intros [= <-]. by apply find_loop_raises in E.
Qed.

(** What [dict(jar)] raises is a [KeyError] or a conflict, both caught by
    [except Exception]. *)
Lemma jar_dict_raises (jar : list (string * string)) (e : exc) :
  Jar.dict jar = Err e -> is_Exception e = true.
Proof.
  unfold Jar.dict. generalize (map fst jar) as keys, (@nil (string * string)) as d.
  induction keys as [|k keys IH]; intros d; [done|].
  cbn [Jar.dict_loop]. destruct (Jar.getitem jar k) as [v|e'] eqn:E.
  - apply IH.
  - intros [= <-]. by apply jar_getitem_raises in E.
Qed.

Lemma convertible_dict (jar : list (string * string)) :
  Jar.convertible jar = true <-> exists d, Jar.dict jar = Ok d.
Proof.
  unfold Jar.convertible. destruct (Jar.dict jar) as [d|e].
  - split; [by exists d|done].
  - split; [done|by intros [d Hd]].
Qed.

Lemma find_loop_some (name : string) (jar : list (string * string)) (v0 : string)
  (r : option string) :
  Jar.find_loop name jar (Some v0) = Ok r <->
  ~ In name (map fst jar) /\ r = Some v0.
Proof.
  induction jar as [|[n v] jar IH]; cbn [Jar.find_loop map fst In].
  - split; [intros [= <-]; split; [tauto|done]|intros [_ ->]; done].
  - destruct (String.eqb_spec n name) as [->|Hn].
    + split; [done|]. intros [H _]. destruct H. by left.
    + rewrite IH. split; intros [H ->]; (split; [|done]); intuition.
Qed.

Lemma find_loop_none (name : string) (jar : list (string * string))
  (r : option string) :
  Jar.find_loop name jar None = Ok r <->
  match r with
  | Some v =>
      exists pre post,
        jar = pre ++ (name, v) :: post
        /\ ~ In name (map fst pre) /\ ~ In name (map fst post)
  | None => ~ In name (map fst jar)
  end.
Proof.
  revert r. induction jar as [|[n v] jar IH]; intros r;
    cbn [Jar.find_loop map fst In].
  - split.
    + intros [= <-]. tauto.
    + destruct r as [v|]; [|done]. intros (pre & post & H & _).
      by destruct pre.
  - destruct (String.eqb_spec n name) as [->|Hn].
    + rewrite find_loop_some. split.
      * intros [H ->]. exists [], jar. cbn. by intuition.
      * destruct r as [v'|].
        -- intros ([|[n' v''] pre] & post & H & Hpre & Hpost).
           ++ cbn in H. by simplify_eq.
           ++ cbn in H. simplify_eq. destruct Hpre. by left.
        -- intros H. destruct H. by left.
    + rewrite IH. destruct r as [v'|].
      * split.
        -- intros (pre & post & -> & Hpre & Hpost).
           exists ((n, v) :: pre), post. split; [done|]. split; [|done].
           cbn. tauto.
        -- intros ([|[n' v''] pre] & post & H & Hpre & Hpost).
           ++ cbn in H. by simplify_eq.
           ++ cbn in H. simplify_eq. exists pre, post. split; [done|].
              split; [|done]. cbn in Hpre. tauto.
      * tauto.
Qed.

(** [jar[name]] has a value exactly when one cookie has that name and its
    value is not empty. *)
Lemma jar_getitem_ok (jar : list (string * string)) (name v : string) :
  Jar.getitem jar name = Ok v <->
  v <> ""
  /\ exists pre post,
       jar = pre ++ (name, v) :: post
       /\ ~ In name (map fst pre) /\ ~ In name (map fst post).
Proof.
  unfold Jar.getitem.
  destruct (Jar.find_loop name jar None) as [[v'|]|e] eqn:E.
  - apply find_loop_none in E.
    destruct (String.eqb_spec v' "") as [->|Hv]; cbn [negb].
    + split; [done|]. intros [Hv (pre & post & -> & Hpre & Hpost)].
      destruct E as (pre' & post' & E & Hpre' & Hpost').
      assert (v = "") as ->; [|done].
      clear Hv. revert pre' E Hpre'. induction pre as [|[n x] pre IH];
        intros [|[n' x'] pre'] E Hpre'; cbn in *; simplify_eq; try tauto.
      eapply IH; [tauto|done|tauto].
    + split.
      * intros [= <-]. done.
      * intros [_ (pre & post & -> & Hpre & Hpost)].
        destruct E as (pre' & post' & E & Hpre' & Hpost'). f_equal.
        revert pre' E Hpre'. induction pre as [|[n x] pre IH];
          intros [|[n' x'] pre'] E Hpre'; cbn in *; simplify_eq; try tauto.
        eapply IH; [tauto|done|tauto].
  - apply find_loop_none in E. split; [done|].
    intros [_ (pre & post & -> & _)]. destruct E.
    rewrite map_app, in_app_iff. right. by left.
  - split; [done|]. intros [_ (pre & post & -> & Hpre & Hpost)].
    assert (H : Jar.find_loop name (pre ++ (name, v) :: post) None = Ok (Some v)).
    { apply find_loop_none. by exists pre, post. }
    congruence.
Qed.

Lemma dict_loop_ok (jar : list (string * string)) (keys : list string)
  (d : list (string * string)) :
  (exists d', Jar.dict_loop jar keys d = Ok d') <->
  Forall (fun k => exists v, Jar.getitem jar k = Ok v) keys.
Proof.
  revert d. induction keys as [|k keys IH]; intros d; cbn [Jar.dict_loop].
  - split; [constructor|by exists d].
  - destruct (Jar.getitem jar k) as [v|e] eqn:E.
    + rewrite IH. split; [intros H; constructor; [by exists v|done]|].
      by inversion 1.
    + split; [by intros [d' H]|]. inversion 1 as [|? ? [v Hv] _]. congruence.
Qed.

(** The jar converts to a dict exactly when no two cookies share a name
    and no cookie has an empty value. *)
Lemma convertible_spec (jar : list (string * string)) :
  Jar.convertible jar = true <->
  NoDup (map fst jar) /\ Forall (fun c => c.2 <> "") jar.
Proof.
  rewrite convertible_dict. unfold Jar.dict. rewrite dict_loop_ok.
  rewrite List.Forall_forall. split.
  - intros H. induction jar as [|[n v] jar IH]; [split; constructor|].
    assert (Hn : exists v', Jar.getitem ((n, v) :: jar) n = Ok v').
    { apply H. cbn. by left. }
    destruct Hn as [v' Hn]. apply jar_getitem_ok in Hn.
    destruct Hn as (Hv' & pre & post & E & Hpre & Hpost).
    destruct pre as [|[n' x] pre]; cbn in E; simplify_eq;
      [|destruct Hpre; by left].
    assert (IH' : NoDup (map fst post) /\ Forall (fun c => c.2 <> "") post).
    { apply IH. intros k Hk.
      destruct (H k) as [w Hw]; [cbn; by right|].
      apply jar_getitem_ok in Hw.
      destruct Hw as (Hw & pre & post' & E & Hpre' & Hpost').
      destruct pre as [|[n' x] pre]; cbn in E; simplify_eq.
      exists w. apply jar_getitem_ok. split; [done|]. exists pre, post'.
      split; [done|]. split; [|done]. cbn in Hpre'. tauto. }
    destruct IH' as [Hnd Hne]. split.
    + cbn. constructor; [|done]. by rewrite list_elem_of_In.
    + by constructor.
  - intros [Hnd Hne] k Hk. apply in_map_iff in Hk as ([n v] & <- & Hin).
    apply in_split in Hin as (pre & post & ->).
    exists v. apply jar_getitem_ok. cbn [fst].
    split.
    { rewrite Forall_forall in Hne. apply (Hne (n, v)).
      apply list_elem_of_In, in_app_iff. right. by left. }
    exists pre, post. split; [done|].
    rewrite map_app in Hnd. cbn in Hnd.
    apply NoDup_app in Hnd as (Hpre & Hdisj & Hpost).
    apply NoDup_cons in Hpost as [Hn Hpost].
    split.
    + intros Hin. apply (Hdisj n); [by apply list_elem_of_In|].
      by left.
    + intros Hin. apply Hn. by apply list_elem_of_In.
Qed.

Lemma cookies_dict_run (s : state) :
  cookies_dict s =
  (match Jar.dict (cookies s) with Ok d => Ok d | Err e => Err e end, s, []).
Proof.
  unfold cookies_dict, bind, gets. cbn.
  by destruct (Jar.dict (cookies s)).
Qed.

(** Formatting the jar for a debug line: it prints at most, and fails
    exactly when the jar does not convert. *)
Lemma debug_cookies_run (label : string) (s : state) :
  debug_cookies label s =
  match Jar.dict (cookies s) with
  | Ok d =>
      (Ok tt, s,
       if debug s then [EvPrint ("DEBUG: " +:+ label +:+ Jar.repr d)] else [])
  | Err e => (Err e, s, [])
  end.
Proof.
  unfold debug_cookies, bind. rewrite cookies_dict_run.
  destruct (Jar.dict (cookies s)) as [d|e]; [|done].
  rewrite debug_print_run. by destruct (debug s).
Qed.

Lemma wp_debug_cookies (label : string) s Q :
  (forall d evs, Jar.dict (cookies s) = Ok d -> forallb is_print evs = true ->
                 Q (Ok tt) s evs) ->
  (forall e, Jar.dict (cookies s) = Err e -> is_Exception e = true ->
             Q (Err e) s []) ->
  wp (debug_cookies label) s Q.
Proof.
  intros Hok Herr. unfold wp. rewrite debug_cookies_run.
  destruct (Jar.dict (cookies s)) as [d|e] eqn:E; simpl.
  - apply (Hok d); [done|]. by destruct (debug s).
  - apply Herr; [done|]. by apply jar_dict_raises in E.
Qed.

(** Closes the branch of a run where a jar known to convert failed to. *)
Ltac jar_ok :=
  cbn [cookies] in *;
  match goal with
  | H : Jar.dict ?j = Err _, C : Jar.convertible ?j = true |- _ =>
      unfold Jar.convertible in C; rewrite H in C; discriminate C
  end.

Lemma wp_bind {A B} (m : M A) (k : A -> M B) s Q :
  wp m s (fun r s1 e1 =>
            match r with
            | Ok a => wp (k a) s1 (fun r2 s2 e2 => Q r2 s2 (e1 ++ e2))
            | Err e => Q (Err e) s1 e1
            end) ->
  wp (bind m k) s Q.
Proof.
  unfold wp, bind. destruct (m s) as [[[a|e] s1] e1]; simpl; [|done].
  by destruct (k a s1) as [[r2 s2] e2].
Qed.

Lemma wp_try_except {A} (m : M A) (h : exc -> M A) s Q :
  wp m s (fun r s1 e1 =>
            match r with
            | Ok a => Q (Ok a) s1 e1
            | Err e =>
                if is_Exception e
                then wp (h e) s1 (fun r2 s2 e2 => Q r2 s2 (e1 ++ e2))
                else Q (Err e) s1 e1
            end) ->
  wp (try_except m h) s Q.
Proof.
  unfold wp, try_except. destruct (m s) as [[[a|e] s1] e1]; simpl; [done|].
  destruct (is_Exception e); [|done].
  by destruct (h e s1) as [[r2 s2] e2].
Qed.

(** An [except] clause that prints and raises again changes the events
    only. *)
Lemma wp_logged {A} (name : string) (m : M A) s Q :
  wp m s (fun r s1 e1 =>
            match r with
            | Ok a => Q (Ok a) s1 e1
            | Err e =>
                if is_Exception e
                then Q (Err e) s1
                       (e1 ++ [EvPrint ("Error in " +:+ name +:+ ": " +:+ exc_str e)])
                else Q (Err e) s1 e1
            end) ->
  wp (logged name m) s Q.
Proof.
  intros H. apply wp_try_except. eapply wp_mono; [exact H|].
  intros [a|e] s1 e1; simpl; [done|].
  destruct (is_Exception e); [|done]. intros HQ.
  apply wp_bind, wp_print. by apply wp_raise.
Qed.

Lemma wp_session_request (r : request) s Q :
  (forall out jar w,
     http (world s) (cookies s) r = (out, jar, w) ->
     Q (match out with
        | inl msg => Err (RequestException msg)
        | inr resp => Ok resp
        end)
       (mkState (username s) (password s) (debug s) (logged_in s) jar w (stdin s))
       [EvHttp r]) ->
  wp (session_request r) s Q.
Proof.
  intros H. unfold wp, session_request.
  destruct (http (world s) (cookies s) r) as [[out jar] w] eqn:E.
  specialize (H _ _ _ eq_refl). by destruct out.
Qed.

Lemma wp_set_logged_in (b : bool) s Q :
  Q (Ok tt) (mkState (username s) (password s) (debug s) b (cookies s) (world s) (stdin s)) [] ->
  wp (set_logged_in b) s Q.
Proof. done. Qed.

Lemma wp_getitem (d : gmap string scalar) (key : string) s Q :
  Q (match d !! key with Some v => Ok v | None => Err (KeyError key) end) s [] ->
  wp (getitem d key) s Q.
Proof. unfold getitem. by destruct (d !! key). Qed.

Lemma wp_input (prompt : string) s Q :
  Q (match stdin s with _ :: _ => Ok (hd "" (stdin s)) | [] => Err EOFError end)
    (mkState (username s) (password s) (debug s) (logged_in s) (cookies s) (world s)
       (tl (stdin s)))
    [EvInput prompt] ->
  wp (input prompt) s Q.
Proof.
  unfold wp, input. destruct s as [u p d l c w [|line rest]]; simpl; done.
Qed.

Ltac wp_step :=
  lazymatch goal with
  | |- wp (bind _ _) _ _ => apply wp_bind
  | |- wp (ret _) _ _ => apply wp_ret
  | |- wp (raise _) _ _ => apply wp_raise
  | |- wp (gets _) _ _ => apply wp_gets
  | |- wp (print _) _ _ => apply wp_print
  | |- wp (debug_print _) _ _ => apply wp_debug_print; intros ?dbg ?Hdbg
  | |- wp (debug_cookies _) _ _ =>
      apply wp_debug_cookies;
      [intros ?d ?dbg ?Hjar ?Hdbg | intros ?e ?Hjar ?Hexc]
  | |- wp (set_logged_in _) _ _ => apply wp_set_logged_in
  | |- wp (getitem _ _) _ _ => apply wp_getitem
  | |- wp (input _) _ _ => apply wp_input
  | |- wp (logged _ _) _ _ => apply wp_logged
  | |- wp (try_except _ _) _ _ => apply wp_try_except
  | |- wp (if ?b then _ else _) _ _ => destruct b eqn:?
  | |- wp (session_get _) _ _ => apply wp_session_request; intros ?out ?jar ?w ?Hhttp
  | |- wp (session_post _ _) _ _ => apply wp_session_request; intros ?out ?jar ?w ?Hhttp
  | |- wp (session_request _) _ _ => apply wp_session_request; intros ?out ?jar ?w ?Hhttp
  end.

(** Starting unauthenticated, [login] always returns a boolean, which is
    also the new value of the authenticated flag; it is true exactly when
    both exchanges went through, the jar converted to a dict after each
    (the two debug lines format it), the body of the login response does
    not contain [Incorrect login] and the session holds at least one cookie
    after the exchange. In every other case it returns false. *)
Theorem login_success_iff (s : state) :
  logged_in s = false ->
  exists b s' evs,
    login s = (Ok b, s', evs)
    /\ logged_in s' = b
    /\ (b = true <->
        exists r1 jar1 w1 r2 jar2 w2,
          http (world s) (cookies s) login_get = (inr r1, jar1, w1)
          /\ Jar.convertible jar1 = true
          /\ http w1 jar1 (login_post s) = (inr r2, jar2, w2)
          /\ Jar.convertible jar2 = true
          /\ cookies s' = jar2
          /\ PyStr.contains "Incorrect login" (text r2) = false
          /\ (0 < length jar2)%nat).
Proof.
  intros Hli.
  cut (wp login s (fun r s' evs => exists b, r = Ok b /\ logged_in s' = b
    /\ (b = true <->
        exists r1 jar1 w1 r2 jar2 w2,
          http (world s) (cookies s) login_get = (inr r1, jar1, w1)
          /\ Jar.convertible jar1 = true
          /\ http w1 jar1 (login_post s) = (inr r2, jar2, w2)
          /\ Jar.convertible jar2 = true
          /\ cookies s' = jar2
          /\ PyStr.contains "Incorrect login" (text r2) = false
          /\ (0 < length jar2)%nat))).
  { unfold wp. destruct (login s) as [[r s'] evs]. simpl.
    intros (b & -> & H). by exists b, s', evs. }
  set (Q := fun (r : res bool) (s' : state) (evs : list event) => _).
  assert (Hno : forall s' evs,
    logged_in s' = false ->
    ~ (exists r1 jar1 w1 r2 jar2 w2,
         http (world s) (cookies s) login_get = (inr r1, jar1, w1)
         /\ Jar.convertible jar1 = true
         /\ http w1 jar1 (login_post s) = (inr r2, jar2, w2)
         /\ Jar.convertible jar2 = true
         /\ cookies s' = jar2
         /\ PyStr.contains "Incorrect login" (text r2) = false
         /\ (0 < length jar2)%nat) ->
    Q (Ok false) s' evs).
  { intros s' evs Hs' Hn. exists false. split; [done|]. split; [done|].
    split; [done|]. intros H. by destruct Hn. }
  unfold login. wp_step. wp_step. rewrite Hli. wp_step.
  repeat wp_step. destruct out as [msg|r1]; simpl.
  { repeat wp_step. apply Hno; [done|].
    intros (r1 & jar1 & w1 & r2 & jar2 & w2 & H1 & _).
    unfold login_get in H1. congruence. }
  wp_step. wp_step. wp_step. wp_step; simpl in *.
  2:{ rewrite Hexc. repeat wp_step. apply Hno; [done|].
      intros (r1' & jar1 & w1 & r2 & jar2 & w2 & H1 & Hc1 & _).
      unfold login_get in H1. rewrite Hhttp in H1. simplify_eq.
      unfold Jar.convertible in Hc1. by rewrite Hjar in Hc1. }
  repeat wp_step. simpl in *.
  destruct out as [msg|r2]; simpl.
  { repeat wp_step. apply Hno; [done|].
    intros (r1' & jar1 & w1 & r2 & jar2 & w2 & H1 & _ & H2 & _).
    unfold login_get, login_post in *. rewrite Hhttp in H1. simplify_eq.
    simpl in *. congruence. }
  wp_step. wp_step. wp_step. wp_step; simpl in *.
  2:{ rewrite Hexc. repeat wp_step. apply Hno; [done|].
      intros (r1' & jar1 & w1 & r2' & jar2 & w2 & H1 & _ & H2 & Hc2 & _).
      unfold login_get, login_post in *. rewrite Hhttp in H1. simplify_eq.
      simpl in *. rewrite Hhttp0 in H2. simplify_eq.
      unfold Jar.convertible in Hc2. by rewrite Hjar0 in Hc2. }
  assert (Hiff : forall b : bool,
    b = negb (PyStr.contains "Incorrect login" (text r2)) && Nat.ltb 0 (length jar0) ->
    Q (Ok b) (mkState (username s) (password s) (debug s) b jar0 w0 (stdin s)) []).
  { intros b Hb. exists b. split; [done|]. split; [done|]. simpl.
    rewrite Hb, andb_true_iff, negb_true_iff, Nat.ltb_lt. split.
    - intros [Hc Hj]. exists r1, jar, w, r2, jar0, w0.
      unfold Jar.convertible. by rewrite Hjar, Hjar0.
    - intros (r1' & jar1 & w1 & r2' & jar2 & w2 & H1 & _ & H2 & _ & <- & Hc & Hj).
      unfold login_get, login_post in *.
      rewrite Hhttp in H1. simplify_eq.
      rewrite Hhttp0 in H2. by simplify_eq. }
  assert (HQ : forall r s' e1 e2, Q r s' e1 -> Q r s' e2) by done.
  repeat wp_step; simpl in *; eapply HQ, Hiff; done.
Qed.
(** *** Operations that neither mutate nor prompt *)

(** An event other than the two mutating POSTs and the prompt. *)
Definition calm (ev : event) : bool :=
  negb (is_delete_post ev) && negb (is_add_post ev) && negb (is_input ev).

(** A run that emitted calm events only and read no input line. *)
Definition steady (s s' : state) (evs : list event) : Prop :=
  forallb calm evs = true /\ stdin s' = stdin s.

Definition calm_op {A} (m : M A) : Prop :=
  forall s, wp m s (fun _ s' evs => steady s s' evs).

Lemma steady_refl (s : state) : steady s s [].
Proof. done. Qed.

Lemma steady_trans (s s1 s2 : state) (e1 e2 : list event) :
  steady s s1 e1 -> steady s1 s2 e2 -> steady s s2 (e1 ++ e2).
Proof.
  intros [H1 H2] [H3 H4]. split; [|congruence].
  by rewrite forallb_app, H1, H3.
Qed.

Lemma wp_calm {A} (m : M A) (s : state) Q :
  calm_op m -> (forall r s' evs, steady s s' evs -> Q r s' evs) -> wp m s Q.
Proof. intros Hm HQ. eapply wp_mono; [apply Hm|]. auto. Qed.

Lemma calm_ret {A} (a : A) : calm_op (ret a).
Proof. intros s. apply wp_ret, steady_refl. Qed.

Lemma calm_raise {A} (e : exc) : calm_op (@raise A e).
Proof. intros s. apply wp_raise, steady_refl. Qed.

Lemma calm_gets {A} (f : state -> A) : calm_op (gets f).
Proof. intros s. apply wp_gets, steady_refl. Qed.

Lemma calm_print (line : string) : calm_op (print line).
Proof. intros s. by apply wp_print. Qed.

Lemma calm_debug_print (message : string) : calm_op (debug_print message).
Proof.
  intros s. unfold wp. rewrite debug_print_run. by destruct (debug s).
Qed.

Lemma calm_debug_cookies (label : string) : calm_op (debug_cookies label).
Proof.
  intros s. apply wp_debug_cookies; [|done].
  intros d evs _ H. split; [|done].
  induction evs as [|ev evs IH]; [done|].
  simpl in *. apply andb_true_iff in H as [Hp H]. rewrite (IH H).
  by destruct ev.
Qed.

Lemma calm_set_logged_in (b : bool) : calm_op (set_logged_in b).
Proof. intros s. by apply wp_set_logged_in. Qed.

Lemma calm_getitem (d : gmap string scalar) (key : string) : calm_op (getitem d key).
Proof. intros s. apply wp_getitem, steady_refl. Qed.

Lemma calm_session_request (r : request) :
  calm (EvHttp r) = true -> calm_op (session_request r).
Proof.
  intros Hr s. apply wp_session_request. intros out jar w _.
  split; [|done]. simpl. by rewrite Hr.
Qed.

Lemma calm_bind {A B} (m : M A) (k : A -> M B) :
  calm_op m -> (forall a, calm_op (k a)) -> calm_op (bind m k).
Proof.
  intros Hm Hk s. apply wp_bind. eapply wp_mono; [apply Hm|].
  intros [a|e] s1 e1 H1; [|done].
  eapply wp_mono; [apply Hk|]. intros r2 s2 e2 H2.
  by eapply steady_trans.
Qed.

Lemma calm_try_except {A} (m : M A) (h : exc -> M A) :
  calm_op m -> (forall e, calm_op (h e)) -> calm_op (try_except m h).
Proof.
  intros Hm Hh s. apply wp_try_except. eapply wp_mono; [apply Hm|].
  intros [a|e] s1 e1 H1; [done|].
  destruct (is_Exception e); [|done].
  eapply wp_mono; [apply Hh|]. intros r2 s2 e2 H2.
  by eapply steady_trans.
Qed.

Lemma calm_logged {A} (name : string) (m : M A) :
  calm_op m -> calm_op (logged name m).
Proof.
  intros Hm. apply calm_try_except; [done|]. intros e.
  apply calm_bind; [apply calm_print|]. intros _. apply calm_raise.
Qed.

Ltac calm_step :=
  lazymatch goal with
  | |- calm_op (bind _ _) => apply calm_bind; [|intros ?]
  | |- calm_op (ret _) => apply calm_ret
  | |- calm_op (raise _) => apply calm_raise
  | |- calm_op (gets _) => apply calm_gets
  | |- calm_op (print _) => apply calm_print
  | |- calm_op (debug_print _) => apply calm_debug_print
  | |- calm_op (debug_cookies _) => apply calm_debug_cookies
  | |- calm_op (set_logged_in _) => apply calm_set_logged_in
  | |- calm_op (getitem _ _) => apply calm_getitem
  | |- calm_op (logged _ _) => apply calm_logged
  | |- calm_op (try_except _ _) => apply calm_try_except; [|intros ?]
  | |- calm_op (session_get _) => by apply calm_session_request
  | |- calm_op (session_post UrlLogin _) => by apply calm_session_request
  | |- calm_op (if ?b then _ else _) => destruct b
  | |- calm_op (match ?x with _ => _ end) => destruct x
  end.

Lemma calm_login : calm_op login.
Proof. unfold login. repeat calm_step. Qed.

Lemma calm_get_zones (domain_name : option string) : calm_op (get_zones domain_name).
Proof.
  unfold get_zones. repeat first [apply calm_login | calm_step].
Qed.

Lemma calm_find_zone_id (zones : list (gmap string scalar)) (zone zone_id : pyval) :
  calm_op (find_zone_id zones zone zone_id).
Proof.
  induction zones as [|z zones IH]; simpl; repeat first [exact IH | calm_step].
Qed.

Lemma calm_resolve_zone_id (zone : pyval) : calm_op (resolve_zone_id zone).
Proof.
  unfold resolve_zone_id.
  repeat first [apply calm_get_zones | apply calm_find_zone_id | calm_step].
Qed.

Lemma calm_get_records (zone : pyval) : calm_op (get_records zone).
Proof.
  unfold get_records.
  repeat first [apply calm_login | apply calm_resolve_zone_id | calm_step].
Qed.

Lemma calm_find_record (records : list (gmap string scalar)) (n t : string) :
  calm_op (find_record records n t).
Proof.
  induction records as [|r records IH]; simpl; repeat first [exact IH | calm_step].
Qed.

Lemma calm_record_exists (zone : pyval) (n t : string) :
  calm_op (record_exists zone n t).
Proof.
  unfold record_exists.
  repeat first [apply calm_get_records | apply calm_find_record | calm_step].
Qed.

Lemma steady_no_delete (s s' : state) (evs : list event) :
  steady s s' evs -> existsb is_delete_post evs = false.
Proof.
  intros [H _]. induction evs as [|ev evs IH]; [done|].
  simpl in *. apply andb_true_iff in H as [Hc H]. rewrite (IH H).
  unfold calm in Hc. by destruct (is_delete_post ev).
Qed.

Lemma steady_no_input (s s' : state) (evs : list event) :
  steady s s' evs -> existsb is_input evs = false.
Proof.
  intros [H _]. induction evs as [|ev evs IH]; [done|].
  simpl in *. apply andb_true_iff in H as [Hc H]. rewrite (IH H).
  unfold calm in Hc. destruct (is_input ev); [|done].
  by rewrite andb_false_r in Hc.
Qed.

Lemma prints_steady (s : state) (evs : list event) :
  forallb is_print evs = true -> steady s s evs.
Proof.
  intros H. split; [|done]. induction evs as [|ev evs IH]; [done|].
  simpl in *. apply andb_true_iff in H as [Hp H]. rewrite (IH H).
  by destruct ev.
Qed.

(** Rewrites the goal's tests on a list of events with what is known of its
    parts. *)
Ltac events :=
  rewrite ?existsb_app; cbn [existsb];
  repeat match goal with
    | H : forallb is_print ?e = true |- _ =>
        apply (prints_steady ltac:(assumption)) in H || fail 1
    end;
  repeat match goal with
    | H : steady _ _ ?e |- context [existsb is_delete_post ?e] =>
        rewrite (steady_no_delete _ _ _ H)
    | H : steady _ _ ?e |- context [existsb is_input ?e] =>
        rewrite (steady_no_input _ _ _ H)
    end;
  cbn [is_delete_post is_input orb].

(** Closes a goal at the end of a run with one of two facts about the
    postcondition. *)
Ltac leaf HQ1 HQ2 :=
  cbn beta iota; try destruct (is_Exception _);
  first [ apply HQ2; events; done
        | apply HQ1; [events; done | events; done | done] ].

(** Runs the confirmation prompt when the pending line is [answer] and the
    answer is not [y]. *)
Ltac decline answer rest Hneq HQ1 HQ2 :=
  wp_step; wp_step;
  match goal with
  | |- context [stdin ?s2] =>
      replace (stdin s2) with (answer :: rest)
        by (unfold steady in *; intuition congruence)
  end;
  cbn [hd]; rewrite Hneq; repeat wp_step; by leaf HQ1 HQ2.

(** With [force_delete] unset and an answer other than [y], no deletion
    POST is sent and the call does not return true; once the prompt was
    shown the call returns false. *)
Lemma delete_declined (zone : pyval) (record_id : scalar)
  (record_name : option string) (record_type : string) (s : state)
  (answer : string) (rest : list string) :
  stdin s = answer :: rest ->
  PyStr.lower answer <> "y" ->
  wp (delete_record zone record_id record_name record_type false) s
     (fun r s' evs =>
        existsb is_delete_post evs = false
        /\ r <> Ok true
        /\ (existsb is_input evs = true -> r = Ok false)).
Proof.
  intros Hin Hans.
  set (Q := fun (r : res bool) (s' : state) (evs : list event) => _).
  assert (HQ1 : forall r s' evs,
    existsb is_delete_post evs = false -> existsb is_input evs = false ->
    r <> Ok true -> Q r s' evs).
  { intros r s' evs H1 H2 H3. repeat split; [done..|]. by rewrite H2. }
  assert (HQ2 : forall s' evs,
    existsb is_delete_post evs = false -> Q (Ok false) s' evs).
  { intros s' evs H1. by repeat split. }
  assert (Hstdin : forall s1 e1, steady s s1 e1 -> stdin s1 = answer :: rest).
  { intros s1 e1 [_ H]. congruence. }
  assert (Hneq : negb (PyStr.lower answer =? "y")%string = true).
  { apply negb_true_iff. by apply String.eqb_neq. }
  unfold delete_record. wp_step.
  apply wp_calm; [apply calm_login|]. intros [[|]|e] s0 e0 H0; cbn [negb];
    [|wp_step; by leaf HQ1 HQ2|by leaf HQ1 HQ2].
  wp_step; [wp_step; by leaf HQ1 HQ2|].
  wp_step. wp_step.
  apply wp_calm; [apply calm_resolve_zone_id|].
  intros [zone_id|e] s1 e1 H1; [|by leaf HQ1 HQ2].
  cbv zeta. cbn [negb].
  wp_step.
  - wp_step. apply wp_calm; [apply calm_record_exists|].
    intros [[existing|]|e] s2 e2 H2;
      [|repeat wp_step; by leaf HQ1 HQ2|by leaf HQ1 HQ2].
    wp_step; [|repeat wp_step; by leaf HQ1 HQ2].
    wp_step. wp_step. destruct (existing !! "id") as [id|]; [|by leaf HQ1 HQ2].
    decline answer rest Hneq HQ1 HQ2.
  - decline answer rest Hneq HQ1 HQ2.
Qed.
Ltac leaf1 HQ1 :=
  cbn beta iota; try destruct (is_Exception _); apply HQ1; events; done.

Lemma forced_delete_no_prompt (zone : pyval) (record_id : scalar)
  (record_name : option string) (record_type : string) (s : state) :
  wp (delete_record zone record_id record_name record_type true) s
     (fun _ _ evs => existsb is_input evs = false).
Proof.
  set (Q := fun (r : res bool) (s' : state) (evs : list event) => _).
  assert (HQ1 : forall r s' evs, existsb is_input evs = false -> Q r s' evs) by done.
  unfold delete_record. wp_step.
  apply wp_calm; [apply calm_login|]. intros [[|]|e] s0 e0 H0; cbn [negb];
    [|wp_step; by leaf1 HQ1|by leaf1 HQ1].
  wp_step; [wp_step; by leaf1 HQ1|].
  wp_step. wp_step.
  apply wp_calm; [apply calm_resolve_zone_id|].
  intros [zone_id|e] s1 e1 H1; [|by leaf1 HQ1].
  cbv zeta. cbn [negb].
  wp_step.
  - wp_step. apply wp_calm; [apply calm_record_exists|].
    intros [[existing|]|e] s2 e2 H2;
      [|repeat wp_step; by leaf1 HQ1|by leaf1 HQ1].
    wp_step; [|repeat wp_step; by leaf1 HQ1].
    wp_step. wp_step. destruct (existing !! "id") as [id|] eqn:Eid; [|by leaf1 HQ1].
    repeat wp_step; try destruct out; cbn beta iota; repeat wp_step; by leaf1 HQ1.
  - repeat wp_step; try destruct out; cbn beta iota; repeat wp_step; by leaf1 HQ1.
Qed.
Lemma wp_any {A} (m : M A) (s : state) Q :
  (forall r s' evs, Q r s' evs) -> wp m s Q.
Proof. unfold wp. auto. Qed.

(** What [get_records] returns is the scrape of a page the provider sent. *)
Lemma get_records_scrapes (zone : pyval) (s s' : state)
  (rs : list (gmap string scalar)) (evs : list event) :
  get_records zone s = (Ok rs, s', evs) ->
  exists resp, rs = scrape_records (BeautifulSoup (text resp)).
Proof.
  intros E.
  cut (wp (get_records zone) s (fun r _ _ =>
         forall rs, r = Ok rs ->
                    exists resp, rs = scrape_records (BeautifulSoup (text resp)))).
  { intros H. apply (wp_run _ _ _ _ _ _ E) in H. by apply H. }
  unfold get_records. wp_step. apply wp_any. intros [[|]|e] s0 e0; cbn [negb];
    [|by wp_step|done].
  wp_step. wp_step. apply wp_any. intros [zone_id|e] s1 e1;
    [|by destruct (is_Exception e)].
  repeat wp_step; [|by rewrite Hexc]. destruct out as [msg|resp]; [done|].
  repeat wp_step. intros rs' [= <-]. by exists resp.
Qed.

Lemma filter_first {A} (p : A -> bool) (pre post : list A) (z : A) :
  forallb (fun x => negb (p x)) pre = true -> p z = true ->
  List.filter p (pre ++ z :: post) = z :: List.filter p post.
Proof.
  intros Hpre Hz. induction pre as [|x pre IH]; simpl in *.
  - by rewrite Hz.
  - apply andb_true_iff in Hpre as [Hx Hpre].
    apply negb_true_iff in Hx. rewrite Hx. by apply IH.
Qed.

Lemma filter_none {A} (p : A -> bool) (l : list A) :
  forallb (fun x => negb (p x)) l = true -> List.filter p l = [].
Proof.
  intros H. induction l as [|x l IH]; simpl in *; [done|].
  apply andb_true_iff in H as [Hx H].
  apply negb_true_iff in Hx. rewrite Hx. by apply IH.
Qed.

Lemma not_named_forallb (name : string) (zones : list (gmap string scalar)) :
  Forall (fun z => z !! "name" <> Some (SStr name)) zones ->
  forallb (fun z => negb (zone_named name z)) zones = true.
Proof.
  induction 1 as [|z zones Hz _ IH]; simpl; [done|].
  rewrite IH, andb_true_r. apply negb_true_iff.
  unfold zone_named. by apply bool_decide_eq_false.
Qed.

(** C5, as the code has it. With a filter name that is not empty, after a
    successful login and a listing exchange around which the jar converts
    to a dict, [get_zones] returns the first zone of the scrape, in row
    order, whose name is equal to the filter (string equality: exact and
    case sensitive); when no zone has that name it ends in [sys.exit(1)],
    which returns no zone and is not an [Exception] that a caller's
    [except Exception] would catch. *)
Theorem get_zones_filter (s s1 : state) (name : string) (e1 : list event)
  (resp : response) (jar : list (string * string)) (w : World) :
  name <> "" ->
  login s = (Ok true, s1, e1) ->
  Jar.convertible (cookies s1) = true ->
  http (world s1) (cookies s1) (mkRequest GET UrlIndex []) = (inr resp, jar, w) ->
  Jar.convertible jar = true ->
  let zones := scrape_zones (BeautifulSoup (text resp)) in
  (forall pre z post,
     zones = pre ++ z :: post ->
     Forall (fun z' => z' !! "name" <> Some (SStr name)) pre ->
     z !! "name" = Some (SStr name) ->
     (get_zones (Some name) s).1.1 = Ok (OneZone z))
  /\ (Forall (fun z => z !! "name" <> Some (SStr name)) zones ->
      (get_zones (Some name) s).1.1 = Err (SystemExit 1)
      /\ is_Exception (SystemExit 1) = false).
Proof.
  intros Hname Hlogin Hjar1 Hhttp Hjar2 zones.
  assert (Hne : negb (name =? "")%string = true).
  { apply negb_true_iff. by apply String.eqb_neq. }
  assert (Hrun : forall Q : res zones_result -> Prop,
    (match List.filter (zone_named name) zones with
     | [] => Q (Err (SystemExit 1))
     | z :: _ => Q (Ok (OneZone z))
     end) ->
    Q (get_zones (Some name) s).1.1).
  { intros Q HQ.
    change (wp (get_zones (Some name)) s (fun r _ _ => Q r)).
    unfold get_zones. wp_step. apply (wp_run _ _ _ _ _ _ Hlogin). cbn [negb].
    wp_step. repeat wp_step; [|jar_ok].
    rewrite Hhttp in Hhttp0. simplify_eq.
    repeat wp_step; try jar_ok; try done;
      fold zones; destruct (List.filter (zone_named name) zones);
      repeat wp_step; done. }
  split.
  - intros pre z post Hz Hpre Hzn. apply Hrun.
    rewrite Hz, filter_first; [done|by apply not_named_forallb|].
    unfold zone_named. by apply bool_decide_eq_true.
  - intros Hnone. split; [|done]. apply Hrun.
    by rewrite filter_none by by apply not_named_forallb.
Qed.

Lemma wp_elim {A} (m : M A) (s : state) Q r s' evs :
  m s = (r, s', evs) -> wp m s Q -> Q r s' evs.
Proof. intros E. by apply wp_run. Qed.

Lemma wp_case {A} (m : M A) (s : state) Q :
  (forall r s' evs, m s = (r, s', evs) -> Q r s' evs) -> wp m s Q.
Proof.
  intros H. unfold wp. destruct (m s) as [[r s'] evs] eqn:E. by apply H.
Qed.

(** C6. Whenever [get_records] returns, the login succeeded, the zone id
    was resolved, the zone page was received, and the result is the
    records of exactly the rows of that page that carry one of the two
    row-class markers, have at least five cells and whose type column is
    [A] or [AAAA], in page order. It does return them once the login
    succeeded, the zone id is resolved, the jar converts to a dict and the
    page is received. *)
Theorem get_records_rows (zone : pyval) (s : state) :
  (forall rs s' evs,
     get_records zone s = (Ok rs, s', evs) ->
     exists zone_id s0 e0 s1 e1 resp,
       login s = (Ok true, s0, e0)
       /\ resolve_zone_id zone s0 = (Ok zone_id, s1, e1)
       /\ http (world s1) (cookies s1) (mkRequest GET (UrlRecords zone_id) [])
          = (inr resp, cookies s', world s')
       /\ rs = records_spec (BeautifulSoup (text resp)))
  /\ (forall zone_id s0 e0 s1 e1 resp jar w,
        login s = (Ok true, s0, e0) ->
        resolve_zone_id zone s0 = (Ok zone_id, s1, e1) ->
        Jar.convertible (cookies s1) = true ->
        http (world s1) (cookies s1) (mkRequest GET (UrlRecords zone_id) [])
        = (inr resp, jar, w) ->
        (get_records zone s).1.1 = Ok (records_spec (BeautifulSoup (text resp)))).
Proof.
  split.
  - intros rs s' evs E.
    cut (wp (get_records zone) s (fun r s' _ =>
           forall rs, r = Ok rs ->
             exists zone_id s0 e0 s1 e1 resp,
               login s = (Ok true, s0, e0)
               /\ resolve_zone_id zone s0 = (Ok zone_id, s1, e1)
               /\ http (world s1) (cookies s1)
                    (mkRequest GET (UrlRecords zone_id) [])
                  = (inr resp, cookies s', world s')
               /\ rs = records_spec (BeautifulSoup (text resp)))).
    { intros H. by apply (wp_elim _ _ _ _ _ _ E H). }
    clear E. unfold get_records. wp_step. apply wp_case.
    intros [[|]|e] s0 e0 E0; cbn [negb]; [|by wp_step|done].
    wp_step. wp_step. apply wp_case. intros [zone_id|e] s1 e1 E1;
      [|by destruct (is_Exception e)].
    repeat wp_step; [|by rewrite Hexc]. destruct out as [msg|resp]; [done|].
    repeat wp_step. intros rs' [= <-].
    exists zone_id, s0, e0, s1, e1, resp. cbn [cookies world].
    by rewrite scrape_records_spec.
  - intros zone_id s0 e0 s1 e1 resp jar w Hlogin Hzone Hconv Hhttp.
    change (wp (get_records zone) s
              (fun r _ _ => r = Ok (records_spec (BeautifulSoup (text resp))))).
    unfold get_records. wp_step. apply (wp_run _ _ _ _ _ _ Hlogin). cbn [negb].
    wp_step. wp_step. apply (wp_run _ _ _ _ _ _ Hzone).
    repeat wp_step; [|jar_ok]. rewrite Hhttp in Hhttp0. simplify_eq.
    repeat wp_step. by rewrite scrape_records_spec.
Qed.

Lemma scraped_record_row (soup : node) (r : gmap string scalar) :
  In r (scrape_records soup) ->
  exists tr, In tr (record_rows soup) /\ record_of_row tr = Some r.
Proof.
  rewrite scrape_records_omap. intros H.
  apply list_elem_of_In, list_elem_of_omap in H as (tr & Htr & Hr).
  exists tr. split; [by apply list_elem_of_In|done].
Qed.

Lemma record_of_row_fields (tr : node) (r : gmap string scalar) :
  record_of_row tr = Some r ->
  r = row_fields tr /\ supported (column 3 tr) = true.
Proof.
  rewrite record_of_row_columns.
  destruct (Nat.leb 5 (length (cells tr))); [|done].
  destruct (supported (column 3 tr)); [|done].
  by intros [= <-].
Qed.

(** No record of the listing has a [content] key. *)
Lemma scraped_record_no_content (soup : node) (r : gmap string scalar) :
  In r (scrape_records soup) -> r !! "content" = None.
Proof.
  intros H. apply scraped_record_row in H as (tr & _ & H).
  by apply record_of_row_fields in H as [-> _].
Qed.


(** C8. The id of every record that [get_records] returns is the stripped
    text of the second cell of its row, and the whole record is made of the
    four columns: what the first loop reads in the links of the first cell
    is replaced and never shows in the result, for every row. *)
Theorem record_id_is_column (zone : pyval) (s s' : state)
  (rs : list (gmap string scalar)) (evs : list event) (r : gmap string scalar) :
  get_records zone s = (Ok rs, s', evs) ->
  In r rs ->
  exists resp tr,
    In tr (record_rows (BeautifulSoup (text resp)))
    /\ record_of_row tr = Some r
    /\ r = row_fields tr
    /\ r !! "id" = Some (SStr (PyStr.strip (Soup.text (cells tr !!! 1%nat)))).
Proof.
  intros E Hr. apply get_records_scrapes in E as [resp ->].
  apply scraped_record_row in Hr as (tr & Htr & Hr).
  exists resp, tr. split; [done|]. split; [done|].
  by apply record_of_row_fields in Hr as [-> _].
Qed.

(** C2, as the code has it. For a type other than [A] and [AAAA]:
    [record_exists] raises [ValueError] at once, with no event and the
    state unchanged; [add_record] and [delete_record] call [login] first
    and, when it succeeds, raise [ValueError] with the state and the events
    of that login and nothing more; with the session already authenticated
    that is no event at all. *)
Theorem unsupported_type_rejected (t : string) :
  t <> "A" -> t <> "AAAA" ->
  (forall zone name s,
     record_exists zone name t s = (Err (ValueError (unsupported_msg t)), s, []))
  /\ (forall zone name content ttl check_exists s s' evs,
        login s = (Ok true, s', evs) ->
        add_record zone t name content ttl check_exists s
        = (Err (ValueError (unsupported_msg t)), s', evs))
  /\ (forall zone record_id record_name force_delete s s' evs,
        login s = (Ok true, s', evs) ->
        delete_record zone record_id record_name t force_delete s
        = (Err (ValueError (unsupported_msg t)), s', evs))
  /\ (forall zone name content ttl check_exists s,
        logged_in s = true ->
        add_record zone t name content ttl check_exists s
        = (Err (ValueError (unsupported_msg t)), s, []))
  /\ (forall zone record_id record_name force_delete s,
        logged_in s = true ->
        delete_record zone record_id record_name t force_delete s
        = (Err (ValueError (unsupported_msg t)), s, [])).
Proof.
  intros HA HAAAA.
  assert (Hsup : supported t = false).
  { destruct (supported t) eqn:E; [|done].
    apply supported_iff in E as [?|?]; done. }
  assert (Hadd : forall zone name content ttl check_exists s s' evs,
    login s = (Ok true, s', evs) ->
    add_record zone t name content ttl check_exists s
    = (Err (ValueError (unsupported_msg t)), s', evs)).
  { intros * H. unfold add_record, bind. rewrite H, Hsup. simpl.
    by rewrite app_nil_r. }
  assert (Hdel : forall zone record_id record_name force_delete s s' evs,
    login s = (Ok true, s', evs) ->
    delete_record zone record_id record_name t force_delete s
    = (Err (ValueError (unsupported_msg t)), s', evs)).
  { intros * H. unfold delete_record, bind. rewrite H, Hsup. simpl.
    by rewrite app_nil_r. }
  split; [|split; [exact Hadd|split; [exact Hdel|split]]].
  - intros zone name s. unfold record_exists. by rewrite Hsup.
  - intros * H. by apply Hadd, login_when_logged_in.
  - intros * H. by apply Hdel, login_when_logged_in.
Qed.

(** The confirmation gate of [delete_record]. Without [force_delete],
    when the line waiting on standard input is anything but [y] or [Y], no
    POST to the deletion address is sent, the call does not return true,
    and once the prompt was shown it returns false. With [force_delete] no
    prompt is ever shown. *)
Theorem delete_confirmation_gate (zone : pyval) (record_id : scalar)
  (record_name : option string) (record_type : string) (s : state) :
  (forall answer rest r s' evs,
     stdin s = answer :: rest ->
     PyStr.lower answer <> "y" ->
     delete_record zone record_id record_name record_type false s = (r, s', evs) ->
     existsb is_delete_post evs = false
     /\ r <> Ok true
     /\ (existsb is_input evs = true -> r = Ok false))
  /\ (forall r s' evs,
        delete_record zone record_id record_name record_type true s = (r, s', evs) ->
        existsb is_input evs = false).
Proof.
  split.
  - intros answer rest r s' evs Hin Hans E.
    exact (wp_elim _ _ _ _ _ _ E
             (delete_declined _ _ _ _ _ answer rest Hin Hans)).
  - intros r s' evs E.
    exact (wp_elim _ _ _ _ _ _ E (forced_delete_no_prompt _ _ _ _ _)).
Qed.
Lemma find_record_in (records : list (gmap string scalar)) (n t : string)
  (s s' : state) (r : gmap string scalar) (evs : list event) :
  find_record records n t s = (Ok (Some r), s', evs) -> In r records.
Proof.
  revert s s' evs. induction records as [|record records IH]; [done|].
  intros s s' evs E.
  cut (wp (find_record (record :: records) n t) s
         (fun out _ _ => out = Ok (Some r) -> In r (record :: records))).
  { intros H. by apply (wp_elim _ _ _ _ _ _ E H). }
  clear E. cbn [find_record]. wp_step. wp_step.
  destruct (record !! "name"); [|done]. wp_step.
  - wp_step. wp_step. destruct (record !! "type"); [|done]. wp_step.
    + wp_step. intros [= ->]. by left.
    + unfold wp. destruct (find_record records n t s) as [[o sx] ex] eqn:Ex.
      cbn. intros ->. right. by eapply IH.
  - unfold wp. destruct (find_record records n t s) as [[o sx] ex] eqn:Ex.
    cbn. intros ->. right. by eapply IH.
Qed.

(** A record that [record_exists] finds is a record of the listing: it is
    not empty and has no [content] key. *)
Lemma record_exists_no_content (zone : pyval) (n t : string) (s s' : state)
  (r : gmap string scalar) (evs : list event) :
  record_exists zone n t s = (Ok (Some r), s', evs) ->
  dict_truthy r = true /\ r !! "content" = None.
Proof.
  intros E.
  cut (wp (record_exists zone n t) s
         (fun out _ _ => out = Ok (Some r) ->
            exists soup, In r (scrape_records soup))).
  { intros H. destruct (wp_elim _ _ _ _ _ _ E H eq_refl) as [soup Hr].
    split; [|by eapply scraped_record_no_content].
    apply scraped_record_row in Hr as (tr & _ & Hr).
    apply record_of_row_fields in Hr as [-> _].
    unfold dict_truthy. apply negb_true_iff, bool_decide_eq_false.
    intros Hempty. assert (H1 : row_fields tr !! "id" = None).
    { by rewrite Hempty. }
    done. }
  clear E. unfold record_exists. wp_step; [by wp_step|].
  wp_step. unfold wp at 1.
  destruct (get_records zone s) as [[[rs|e] s1] e1] eqn:E1; cbn; [|done].
  apply get_records_scrapes in E1 as [resp ->].
  unfold wp.
  destruct (find_record _ n t s1) as [[o s2] e2] eqn:E2. cbn.
  intros ->. exists (BeautifulSoup (text resp)). by eapply find_record_in.
Qed.

(** Where the existence check of [add_record] finds a record, the call
    reads the [content] of that record and raises [KeyError]; the add POST
    is not sent. *)
Lemma add_record_existing_raises (zone zone_id : pyval)
  (record_type name content : string) (ttl : Z) (s s0 s1 s2 : state)
  (e0 e1 e2 : list event) (existing : gmap string scalar) :
  login s = (Ok true, s0, e0) ->
  supported record_type = true ->
  resolve_zone_id zone s0 = (Ok zone_id, s1, e1) ->
  record_exists zone_id name record_type s1 = (Ok (Some existing), s2, e2) ->
  add_record zone record_type name content ttl true s
  = (Err (KeyError "content"), s2,
     e0 ++ (e1 ++ e2) ++ [EvPrint "Error in add_record: 'content'"]).
Proof.
  intros E0 Hsup E1 E2.
  destruct (record_exists_no_content _ _ _ _ _ _ _ E2) as [Ht Hc].
  unfold add_record, logged, try_except, bind.
  rewrite E0. cbn [negb]. rewrite Hsup. cbn [negb].
  rewrite E1, E2, Ht. unfold getitem. rewrite Hc. unfold raise. cbn.
  by rewrite !app_nil_r.
Qed.
(** ** Further properties of the client *)

(** *** Zones and their ids *)

Lemma span_digits_decimal (s d r : string) :
  PyStr.span_digits s = (d, r) -> PyStr.all_chars PyStr.is_decimal d = true.
Proof.
  revert d r. induction s as [|c s IH]; intros d r; simpl.
  - by intros [= <- <-].
  - destruct (PyStr.is_decimal c) eqn:Hc.
    + destruct (PyStr.span_digits s) as [d' r'] eqn:E.
      intros [= <- <-]. simpl. by rewrite Hc, (IH d' r').
    + by intros [= <- <-].
Qed.

Lemma decimal_isdigit (d : string) :
  d <> "" -> PyStr.all_chars PyStr.is_decimal d = true -> PyStr.isdigit d = true.
Proof.
  intros Hne Hd. destruct d as [|c d]; [done|]. unfold PyStr.isdigit.
  revert Hd. generalize (String c d). clear. intros s.
  induction s as [|c s IH]; simpl; [done|].
  intros H. apply andb_true_iff in H as [Hc Hs].
  rewrite (IH Hs), andb_true_r. unfold PyStr.isdigit_char. by rewrite Hc.
Qed.

Lemma match_zoneid_isdigit (s g : string) :
  PyStr.match_zoneid s = Some g -> PyStr.isdigit g = true.
Proof.
  unfold PyStr.match_zoneid.
  destruct (PyStr.drop_prefix _ s) as [r|]; [|done].
  destruct (PyStr.span_digits r) as [d r'] eqn:E.
  destruct d as [|c d]; [done|]. intros [= <-].
  apply decimal_isdigit; [done|]. by eapply span_digits_decimal.
Qed.

Lemma re_search_matches (m : string -> option string) (s g : string) :
  PyStr.re_search m s = Some g -> exists t, m t = Some g.
Proof.
  induction s as [|c s IH]; simpl.
  - destruct (m "") eqn:E; [|done]. intros [= <-]. by exists "".
  - destruct (m (String c s)) eqn:E.
    + intros [= <-]. by exists (String c s).
    + apply IH.
Qed.

(** What the row loop of [get_zones] builds: an id made of digits, and a
    name, both strings, and nothing else. *)
Definition zone_shape (z : gmap string scalar) : Prop :=
  exists id name,
    z = {[ "id" := SStr id; "name" := SStr name ]}
    /\ PyStr.isdigit id = true.

Lemma zone_of_row_shape (tr : node) (z : gmap string scalar) :
  zone_of_row tr = Some z -> zone_shape z.
Proof.
  unfold zone_of_row.
  destruct (Nat.leb 3 _); [|done].
  destruct (Soup.find "img" _ tr) as [edit_btn|]; [|done].
  destruct (Soup.get "onclick" edit_btn) as [onclick|]; [|done].
  destruct (negb _); [|done].
  destruct (PyStr.re_search _ onclick) as [zone_id|] eqn:E; [|done].
  intros [= <-]. eexists _, _. split; [done|].
  apply re_search_matches in E as [t Ht]. by eapply match_zoneid_isdigit.
Qed.

Lemma scrape_zones_shape (soup : node) : Forall zone_shape (scrape_zones soup).
Proof.
  unfold scrape_zones.
  destruct (Soup.find "table" _ soup) as [table|]; [|done].
  rewrite zones_loop_app. simpl. apply Forall_forall. intros z Hz.
  apply list_elem_of_omap in Hz as (tr & _ & Hz). by eapply zone_of_row_shape.
Qed.

(** The zones that a result of [get_zones] holds. *)
Definition zones_of (r : zones_result) : list (gmap string scalar) :=
  match r with
  | AllZones zones => zones
  | OneZone z => [z]
  end.

(** What [get_zones] returns was scraped from a page the provider sent. *)
Lemma get_zones_scrapes (domain_name : option string) (s s' : state)
  (r : zones_result) (evs : list event) :
  get_zones domain_name s = (Ok r, s', evs) ->
  exists resp,
    forall z, In z (zones_of r) ->
              In z (scrape_zones (BeautifulSoup (text resp))).
Proof.
  intros E.
  cut (wp (get_zones domain_name) s (fun out _ _ =>
         forall r, out = Ok r ->
           exists resp, forall z, In z (zones_of r) ->
                          In z (scrape_zones (BeautifulSoup (text resp))))).
  { intros H. by apply (wp_elim _ _ _ _ _ _ E H). }
  clear E. unfold get_zones. wp_step. apply wp_any.
  intros [[|]|e] s0 e0; cbn [negb]; [|by wp_step|done].
  wp_step. repeat wp_step; [|by rewrite Hexc].
  destruct out as [msg|resp]; [done|].
  assert (Hall : forall r0 : zones_result,
    Ok (AllZones (scrape_zones (BeautifulSoup (text resp)))) = Ok r0 ->
    exists resp0, forall z, In z (zones_of r0) ->
                    In z (scrape_zones (BeautifulSoup (text resp0)))).
  { intros r0 [= <-]. by exists resp. }
  destruct domain_name as [name|]; repeat wp_step; try exact Hall;
    try (by rewrite Hexc);
    destruct (List.filter _ _) as [|z zs] eqn:Ef; repeat wp_step; try done;
    intros r0 [= <-]; exists resp; intros z' [<-|[]];
    assert (Hin : In z (List.filter (zone_named name)
                          (scrape_zones (BeautifulSoup (text resp)))))
      by (rewrite Ef; by left);
    by apply filter_In in Hin as [Hin _].
Qed.

Lemma get_zones_shaped (domain_name : option string) (s s' : state)
  (r : zones_result) (evs : list event) :
  get_zones domain_name s = (Ok r, s', evs) ->
  Forall zone_shape (zones_of r).
Proof.
  intros E. apply get_zones_scrapes in E as [resp Hin].
  apply Forall_forall. intros z Hz.
  apply list_elem_of_In, Hin, list_elem_of_In in Hz.
  revert z Hz. apply Forall_forall, scrape_zones_shape.
Qed.

Lemma get_records_shaped (zone : pyval) (s s' : state)
  (rs : list (gmap string scalar)) (evs : list event) :
  get_records zone s = (Ok rs, s', evs) ->
  Forall record_shape rs.
Proof.
  intros E. apply get_records_scrapes in E as [resp ->].
  apply Forall_forall. intros r Hr.
  apply list_elem_of_In, scraped_record_row in Hr as (tr & _ & Hr).
  apply record_of_row_fields in Hr as [-> Ht].
  exists (column 1 tr), (column 2 tr), (column 3 tr), (column 4 tr).
  by apply supported_iff in Ht.
Qed.

(** Every zone that [get_zones] returns, in the list or as the one zone
    asked for, has exactly the keys [id] and [name], with strings as
    values, and its id is made of digits. *)
Theorem get_zones_zone_shape (domain_name : option string) (s s' : state)
  (r : zones_result) (evs : list event) :
  get_zones domain_name s = (Ok r, s', evs) ->
  Forall zone_shape (zones_of r).
Proof.
  intros E. apply get_zones_scrapes in E as [resp Hin].
  apply Forall_forall. intros z Hz.
  apply list_elem_of_In, Hin, list_elem_of_In in Hz.
  revert z Hz. apply Forall_forall, scrape_zones_shape.
Qed.

(** A zone that [get_zones] returned is resolved without any request,
    whether it is passed back as the dict or by its id. *)
Theorem listed_zone_resolves (domain_name : option string) (s0 s1 : state)
  (r : zones_result) (evs : list event) (z : gmap string scalar) :
  get_zones domain_name s0 = (Ok r, s1, evs) ->
  In z (zones_of r) ->
  exists id,
    z !! "id" = Some (SStr id)
    /\ forall s,
         resolve_zone_id (Dict z) s = (Ok (Scalar (SStr id)), s, [])
         /\ resolve_zone_id (Scalar (SStr id)) s = (Ok (Scalar (SStr id)), s, []).
Proof.
  intros E Hz. apply get_zones_shaped in E.
  apply Forall_forall with (x := z) in E; [|by apply list_elem_of_In].
  destruct E as (id & name & -> & Hid). exists id. split; [done|].
  intros s. split.
  - reflexivity.
  - unfold resolve_zone_id. cbn [str_isdigit py_str]. by rewrite Hid.
Qed.
Lemma zone_shape_lookup (z : gmap string scalar) :
  zone_shape z ->
  exists id name, z !! "id" = Some (SStr id) /\ z !! "name" = Some (SStr name).
Proof. intros (id & name & -> & _). by exists id, name. Qed.

Lemma find_zone_id_none (zones : list (gmap string scalar)) (n : string)
  (zone_id : pyval) (s : state) :
  Forall zone_shape zones ->
  Forall (fun z => z !! "name" <> Some (SStr n)) zones ->
  find_zone_id zones (Scalar (SStr n)) zone_id s = (Ok zone_id, s, []).
Proof.
  induction zones as [|z zones IH]; [done|].
  intros Hshape Hname.
  apply Forall_cons in Hshape as [Hz Hshape].
  apply Forall_cons in Hname as [Hn Hname].
  apply zone_shape_lookup in Hz as (id & name & _ & Hzn).
  cbn [find_zone_id]. unfold bind, getitem. rewrite Hzn. cbn.
  rewrite bool_decide_eq_false_2; [|congruence].
  by rewrite (IH Hshape Hname).
Qed.

Lemma find_zone_id_found (pre post : list (gmap string scalar))
  (z : gmap string scalar) (n : string) (id : scalar) (zone_id : pyval)
  (s : state) :
  Forall zone_shape pre ->
  Forall (fun z' => z' !! "name" <> Some (SStr n)) pre ->
  z !! "name" = Some (SStr n) ->
  z !! "id" = Some id ->
  find_zone_id (pre ++ z :: post) (Scalar (SStr n)) zone_id s
  = (Ok (Scalar id), s, []).
Proof.
  intros Hshape Hname Hzn Hzi.
  induction pre as [|z' pre IH]; cbn [app find_zone_id].
  - unfold bind, getitem. rewrite Hzn. cbn.
    rewrite bool_decide_eq_true_2; [|done]. by rewrite Hzi.
  - apply Forall_cons in Hshape as [Hz Hshape].
    apply Forall_cons in Hname as [Hn Hname].
    apply zone_shape_lookup in Hz as (id' & name' & _ & Hzn').
    unfold bind at 1. unfold getitem at 1. rewrite Hzn'. cbn.
    rewrite bool_decide_eq_false_2; [|congruence].
    by rewrite (IH Hshape Hname).
Qed.

(** A zone given by a name that is not a number is looked up in the full
    zone listing: the id of the first zone with exactly that name is used;
    when no zone has that name the call does not fail, and the name itself
    is used as the zone id. *)
Theorem resolve_zone_name (n : string) (s s1 : state) (e1 : list event)
  (zones : list (gmap string scalar)) :
  PyStr.isdigit n = false ->
  get_zones None s = (Ok (AllZones zones), s1, e1) ->
  (forall pre z post id,
     zones = pre ++ z :: post ->
     Forall (fun z' => z' !! "name" <> Some (SStr n)) pre ->
     z !! "name" = Some (SStr n) ->
     z !! "id" = Some id ->
     resolve_zone_id (Scalar (SStr n)) s = (Ok (Scalar id), s1, e1))
  /\ (Forall (fun z => z !! "name" <> Some (SStr n)) zones ->
      resolve_zone_id (Scalar (SStr n)) s = (Ok (Scalar (SStr n)), s1, e1)).
Proof.
  intros Hn E.
  assert (Hshape : Forall zone_shape zones).
  { exact (get_zones_shaped _ _ _ _ _ E). }
  split.
  - intros pre z post id -> Hpre Hzn Hzi.
    apply Forall_app in Hshape as [Hshape _].
    unfold resolve_zone_id. cbn [str_isdigit py_str]. rewrite Hn. cbn [negb].
    unfold bind. rewrite E.
    rewrite (find_zone_id_found _ _ _ _ _ _ _ Hshape Hpre Hzn Hzi).
    by rewrite app_nil_r.
  - intros Hnone.
    unfold resolve_zone_id. cbn [str_isdigit py_str]. rewrite Hn. cbn [negb].
    unfold bind. rewrite E.
    rewrite (find_zone_id_none _ _ _ _ Hshape Hnone).
    by rewrite app_nil_r.
Qed.

(** *** The existence check *)

(** [record['name'] == n and record['type'] == t] on a record that has
    both keys. *)
Definition record_matches (n t : string) (r : gmap string scalar) : bool :=
  bool_decide (r !! "name" = Some (SStr n))
  && bool_decide (r !! "type" = Some (SStr t)).

Lemma find_record_run (records : list (gmap string scalar)) (n t : string)
  (s : state) :
  Forall record_shape records ->
  find_record records n t s = (Ok (List.find (record_matches n t) records), s, []).
Proof.
  induction records as [|r records IH]; [done|].
  intros Hshape. apply Forall_cons in Hshape as [Hr Hshape].
  destruct Hr as (id & name & type & ttl & _ & Hn & Ht & _ & _).
  cbn [find_record List.find]. unfold record_matches at 1.
  unfold bind at 1. unfold getitem at 1. rewrite Hn. cbn.
  destruct (bool_decide (SStr name = SStr n)) eqn:En.
  - apply bool_decide_eq_true in En. injection En as ->.
    rewrite bool_decide_eq_true_2 by done.
    unfold bind at 1. unfold getitem at 1. rewrite Ht. cbn.
    destruct (bool_decide (SStr type = SStr t)) eqn:Et.
    + apply bool_decide_eq_true in Et. injection Et as ->.
      by rewrite bool_decide_eq_true_2 by done.
    + apply bool_decide_eq_false in Et.
      rewrite (bool_decide_eq_false_2 (Some (SStr type) = Some (SStr t)))
        by congruence.
      cbn. by rewrite (IH Hshape).
  - apply bool_decide_eq_false in En.
    rewrite (bool_decide_eq_false_2 (Some (SStr name) = Some (SStr n)))
      by congruence.
    cbn. by rewrite (IH Hshape).
Qed.

(** For a supported type, [record_exists] makes the requests of one record
    listing and nothing else, and returns the first record of the listing,
    in page order, whose name and type are both equal to the ones asked
    for, or [None] when there is none. *)
Theorem record_exists_first_match (zone : pyval) (n t : string)
  (s s' : state) (rs : list (gmap string scalar)) (evs : list event) :
  supported t = true ->
  get_records zone s = (Ok rs, s', evs) ->
  record_exists zone n t s
  = (Ok (List.find (record_matches n t) rs), s', evs).
Proof.
  intros Hsup E. unfold record_exists. rewrite Hsup. cbn [negb].
  unfold bind. rewrite E.
  rewrite (find_record_run _ _ _ _ (get_records_shaped _ _ _ _ _ E)).
  by rewrite app_nil_r.
Qed.
(** *** The mutating requests *)

(** The HTTP requests among the events of a run, in order. *)
Definition requests (evs : list event) : list event := List.filter is_http evs.

Lemma requests_app (e1 e2 : list event) :
  requests (e1 ++ e2) = requests e1 ++ requests e2.
Proof. apply List.filter_app. Qed.

Lemma requests_prints (evs : list event) :
  forallb is_print evs = true -> requests evs = [].
Proof.
  induction evs as [|ev evs IH]; [done|]. simpl.
  intros H. apply andb_true_iff in H as [Hp H].
  destruct ev; try done. simpl. by apply IH.
Qed.

(** Brings the requests of a list of events built by a run to a normal
    form. *)
Ltac reqs :=
  repeat match goal with
    | H : forallb is_print ?e = true |- _ =>
        apply requests_prints in H
    end;
  unfold requests in *;
  repeat first
    [ rewrite List.filter_app
    | match goal with
      | H : List.filter is_http ?e = [] |- _ => rewrite H
      end
    | progress cbn [List.filter is_http app] ];
  rewrite ?app_nil_r, <- ?app_assoc; cbn [app].

(** Turns a goal about the outcome of the run [E] into a [wp] goal. *)
Ltac by_wp E :=
  match type of E with
  | _ = (?r, ?s', ?evs) =>
      pattern r, s', evs; refine (wp_elim _ _ _ _ _ _ E _); clear E
  end.

(** The form that [add_record] posts. *)
Definition add_form (zone_id : pyval) (record_type name content : string)
  (ttl : Z) : list (string * pyval) :=
  [("account", Scalar (SStr ""));
   ("menu", Scalar (SStr "edit_zone"));
   ("Type", Scalar (SStr record_type));
   ("hosted_dns_zoneid", zone_id);
   ("hosted_dns_recordid", Scalar (SStr ""));
   ("hosted_dns_editzone", Scalar (SStr "1"));
   ("Priority", Scalar (SStr ""));
   ("Name", Scalar (SStr name));
   ("Content", Scalar (SStr content));
   ("TTL", Scalar (SStr (pretty ttl)));
   ("hosted_dns_editrecord", Scalar (SStr "Submit"))].

(** The form that [delete_record] posts. *)
Definition delete_form (zone_id : pyval) (record_id : scalar)
  : list (string * pyval) :=
  [("hosted_dns_zoneid", zone_id);
   ("hosted_dns_recordid", Scalar record_id);
   ("menu", Scalar (SStr "edit_zone"));
   ("hosted_dns_delconfirm", Scalar (SStr "delete"));
   ("hosted_dns_editzone", Scalar (SStr "1"));
   ("hosted_dns_delrecord", Scalar (SStr "1"))].

(** The success test of [add_record] on the text of the response. *)
Definition added_marker (body : string) : bool :=
  PyStr.contains "successfully added" (PyStr.lower body)
  || PyStr.contains "record updated" (PyStr.lower body).

(** The success test of [delete_record] on the text of the response. *)
Definition deleted_marker (body : string) : bool :=
  PyStr.contains "successfully removed" (PyStr.lower body)
  || PyStr.contains "successfully deleted" (PyStr.lower body).

(** When the existence check is off, or finds no record, and the jar of the
    session converts to a dict (the debug line before the POST formats it),
    [add_record] sends exactly one more request, the POST of the form to
    the zone's edit address, and returns what the marker test says of the
    text of the response, whatever its status code. *)
Theorem add_record_submits (zone zone_id : pyval)
  (record_type name content : string) (ttl : Z) (check_exists : bool)
  (s s0 s1 s2 : state) (e0 e1 e2 : list event) (resp : response)
  (jar : list (string * string)) (w : World) :
  login s = (Ok true, s0, e0) ->
  supported record_type = true ->
  resolve_zone_id zone s0 = (Ok zone_id, s1, e1) ->
  (if check_exists
   then record_exists zone_id name record_type s1 = (Ok None, s2, e2)
   else s2 = s1 /\ e2 = []) ->
  Jar.convertible (cookies s2) = true ->
  http (world s2) (cookies s2)
    (mkRequest POST (UrlEditZone zone_id)
       (add_form zone_id record_type name content ttl))
  = (inr resp, jar, w) ->
  forall r s' evs,
    add_record zone record_type name content ttl check_exists s = (r, s', evs) ->
    r = Ok (added_marker (text resp))
    /\ requests evs
       = requests (e0 ++ e1 ++ e2)
         ++ [EvHttp (mkRequest POST (UrlEditZone zone_id)
                       (add_form zone_id record_type name content ttl))].
Proof.
  intros E0 Hsup E1 Hcheck Hconv Hhttp r s' evs E.
  by_wp E. unfold add_record. wp_step. apply (wp_run _ _ _ _ _ _ E0). cbn [negb].
  rewrite Hsup. cbn [negb]. wp_step. wp_step. apply (wp_run _ _ _ _ _ _ E1).
  cbv zeta.
  destruct check_exists.
  - wp_step. apply (wp_run _ _ _ _ _ _ Hcheck). cbn beta iota.
    repeat wp_step; [|jar_ok]. unfold add_form in Hhttp. rewrite Hhttp in Hhttp0.
    simplify_eq. repeat wp_step. split; [done|]. by reqs.
  - destruct Hcheck as [-> ->].
    repeat wp_step; [|jar_ok]. unfold add_form in Hhttp. rewrite Hhttp in Hhttp0.
    simplify_eq. repeat wp_step. split; [done|]. by reqs.
Qed.
(** The lookup phase of [delete_record] ends at the confirmation gate with
    the zone id, the record id to delete, the state and the events so far:
    the login succeeded, the type is supported, the zone id was resolved,
    and the record id is the one given (no listing is made then) or the id
    of the record found by name. *)
Definition lookup_ends (zone : pyval) (record_id : scalar)
  (record_name : option string) (record_type : string) (s : state)
  (zone_id : pyval) (id : scalar) (s2 : state) (pre : list event) : Prop :=
  exists s0 e0 s1 e1,
    login s = (Ok true, s0, e0)
    /\ supported record_type = true
    /\ resolve_zone_id zone s0 = (Ok zone_id, s1, e1)
    /\ ((negb (truthy record_id) && name_given record_name = false
         /\ id = record_id /\ s2 = s1 /\ pre = e0 ++ e1)
        \/ (negb (truthy record_id) && name_given record_name = true
            /\ exists existing e2,
                 record_exists zone_id (name_str record_name) record_type s1
                 = (Ok (Some existing), s2, e2)
                 /\ existing !! "id" = Some id
                 /\ pre = e0 ++ e1 ++ e2)).

Lemma dict_with_key_truthy (d : gmap string scalar) (k : string) (v : scalar) :
  d !! k = Some v -> dict_truthy d = true.
Proof.
  intros H. unfold dict_truthy. apply negb_true_iff, bool_decide_eq_false.
  intros ->. done.
Qed.

(** Past the gate, with [force_delete] or with an answer [y] or [Y], and
    when the jar of the session converts to a dict (the debug line before
    the POST formats it), [delete_record] sends exactly one more request,
    the POST of the deletion form with the zone id and the record id, and
    returns what the marker test says of the text of the response,
    whatever its status code. *)
Theorem delete_record_submits (zone zone_id : pyval) (record_id id : scalar)
  (record_name : option string) (record_type : string) (force_delete : bool)
  (s s2 : state) (pre : list event) (resp : response)
  (jar : list (string * string)) (w : World) :
  lookup_ends zone record_id record_name record_type s zone_id id s2 pre ->
  (if force_delete then True
   else exists answer rest,
          stdin s2 = answer :: rest /\ PyStr.lower answer = "y") ->
  Jar.convertible (cookies s2) = true ->
  http (world s2) (cookies s2)
    (mkRequest POST UrlIndex (delete_form zone_id id))
  = (inr resp, jar, w) ->
  forall r s' evs,
    delete_record zone record_id record_name record_type force_delete s
    = (r, s', evs) ->
    r = Ok (deleted_marker (text resp))
    /\ requests evs
       = requests pre ++ [EvHttp (mkRequest POST UrlIndex (delete_form zone_id id))].
Proof.
  intros (s0 & e0 & s1 & e1 & E0 & Hsup & E1 & Hid) Hconfirm Hconv Hhttp r s' evs E.
  by_wp E. unfold delete_record.
  wp_step. apply (wp_run _ _ _ _ _ _ E0). cbn [negb].
  rewrite Hsup. cbn [negb]. wp_step. wp_step. apply (wp_run _ _ _ _ _ _ E1).
  cbv zeta. unfold delete_form in Hhttp.
  destruct Hid as [(Hc & -> & -> & ->)|(Hc & existing & e2 & E2 & Eid & ->)];
    rewrite Hc.
  - destruct force_delete; cbn [negb].
    + repeat wp_step; [|jar_ok]. rewrite Hhttp in Hhttp0. simplify_eq.
      repeat wp_step. split; [done|]. by reqs.
    + destruct Hconfirm as (answer & rest & Hin & Hy).
      wp_step. wp_step. rewrite Hin. cbn [hd tl]. rewrite Hy. cbn.
      repeat wp_step; [|jar_ok]. cbn in Hhttp0. rewrite Hhttp in Hhttp0. simplify_eq.
      repeat wp_step. split; [done|]. by reqs.
  - wp_step. apply (wp_run _ _ _ _ _ _ E2). cbn beta iota.
    rewrite (dict_with_key_truthy _ _ _ Eid). wp_step. wp_step. rewrite Eid.
    destruct force_delete; cbn [negb].
    + repeat wp_step; [|jar_ok]. rewrite Hhttp in Hhttp0. simplify_eq.
      repeat wp_step. split; [done|]. by reqs.
    + destruct Hconfirm as (answer & rest & Hin & Hy).
      wp_step. wp_step. rewrite Hin. cbn [hd tl]. rewrite Hy. cbn.
      repeat wp_step; [|jar_ok]. cbn in Hhttp0. rewrite Hhttp in Hhttp0. simplify_eq.
      repeat wp_step. split; [done|]. by reqs.
Qed.

(** A name that the listing does not have is a soft failure: whatever
    [force_delete] is, [delete_record] prints that the record was not found
    and returns false; it shows no prompt and sends nothing after the
    listing. *)
Theorem delete_record_not_found (zone zone_id : pyval) (record_id : scalar)
  (record_name : option string) (record_type : string) (force_delete : bool)
  (s s0 s1 s2 : state) (e0 e1 e2 : list event) :
  login s = (Ok true, s0, e0) ->
  supported record_type = true ->
  resolve_zone_id zone s0 = (Ok zone_id, s1, e1) ->
  negb (truthy record_id) && name_given record_name = true ->
  record_exists zone_id (name_str record_name) record_type s1
  = (Ok None, s2, e2) ->
  delete_record zone record_id record_name record_type force_delete s
  = (Ok false, s2,
     e0 ++ (e1 ++ e2
            ++ [EvPrint ("Record '" +:+ name_str record_name +:+ "' not found.")])).
Proof.
  intros E0 Hsup E1 Hc E2.
  unfold delete_record, logged, try_except, bind.
  rewrite E0. cbn [negb]. rewrite Hsup. cbn [negb].
  rewrite E1, Hc, E2. cbn. by rewrite ?app_nil_r.
Qed.

(** At the gate without [force_delete], when standard input is at its end
    the prompt is shown, [input] raises [EOFError], and [delete_record]
    logs it and raises it again: nothing is deleted. *)
Theorem delete_record_eof (zone zone_id : pyval) (record_id id : scalar)
  (record_name : option string) (record_type : string)
  (s s2 : state) (pre : list event) :
  lookup_ends zone record_id record_name record_type s zone_id id s2 pre ->
  stdin s2 = [] ->
  delete_record zone record_id record_name record_type false s
  = (Err EOFError, s2,
     pre ++ [EvInput ("Are you sure you want to delete record ID "
                      +:+ py_str id +:+ "? (y/N): ");
             EvPrint "Error in delete_record: EOF when reading a line"]).
Proof.
  intros (s0 & e0 & s1 & e1 & E0 & Hsup & E1 & Hid) Hin.
  unfold delete_record, logged, try_except, bind.
  rewrite E0. cbn [negb]. rewrite Hsup. cbn [negb]. rewrite E1.
  destruct Hid as [(Hc & -> & -> & ->)|(Hc & existing & e2 & E2 & Eid & ->)];
    rewrite Hc.
  - unfold input. rewrite Hin. cbn. by rewrite <- ?app_assoc.
  - rewrite E2, (dict_with_key_truthy _ _ _ Eid). unfold getitem. rewrite Eid.
    cbn. unfold input. rewrite Hin. cbn. by rewrite <- ?app_assoc.
Qed.
(** *** What every run keeps

    [keeps Inv P E m]: from a state where [Inv] holds, the run of [m] ends
    in a state where [Inv] holds, emits only events that [P] accepts, and
    raises only exceptions that [E] accepts. *)

Definition keeps {A} (Inv : state -> Prop) (P : event -> bool)
  (E : exc -> Prop) (m : M A) : Prop :=
  forall s, Inv s ->
    wp m s (fun r s' evs =>
              Inv s' /\ forallb P evs = true /\ forall e, r = Err e -> E e).

Lemma keeps_elim {A} Inv P E (m : M A) (s s' : state) r evs :
  keeps Inv P E m -> Inv s -> m s = (r, s', evs) ->
  Inv s' /\ forallb P evs = true /\ forall e, r = Err e -> E e.
Proof. intros Hm Hs Hrun. exact (wp_elim _ _ _ _ _ _ Hrun (Hm s Hs)). Qed.

Section Keeps.

Variable Inv : state -> Prop.
Variable P : event -> bool.
Variable E : exc -> Prop.

(** The invariant does not depend on the cookie jar or on the world. *)
Hypothesis Inv_session :
  forall s jar w,
    Inv s ->
    Inv (mkState (username s) (password s) (debug s) (logged_in s) jar w (stdin s)).

Hypothesis P_print : forall line, P (EvPrint line) = true.

(** Every GET of a listing is accepted. *)
Hypothesis P_get :
  forall u, u <> UrlLogin -> P (EvHttp (mkRequest GET u [])) = true.

(** Every [Exception] is accepted; only [SystemExit] is told apart. *)
Hypothesis E_exception : forall e, is_Exception e = true -> E e.

Lemma keeps_ret {A} (a : A) : keeps Inv P E (ret a).
Proof. intros s Hs. by apply wp_ret. Qed.

Lemma keeps_raise {A} (e : exc) : E e -> keeps Inv P E (@raise A e).
Proof. intros He s Hs. apply wp_raise. by repeat split; [..|intros ? [= <-]]. Qed.

Lemma keeps_gets {A} (f : state -> A) : keeps Inv P E (gets f).
Proof. intros s Hs. by apply wp_gets. Qed.

Lemma keeps_print (line : string) : keeps Inv P E (print line).
Proof.
  intros s Hs. apply wp_print. repeat split; [done| |done].
  simpl. by rewrite P_print.
Qed.

Lemma keeps_debug_print (message : string) : keeps Inv P E (debug_print message).
Proof.
  intros s Hs. unfold wp. rewrite debug_print_run. simpl.
  repeat split; [done| |done]. destruct (debug s); [|done].
  simpl. by rewrite P_print.
Qed.

Lemma keeps_debug_cookies (label : string) : keeps Inv P E (debug_cookies label).
Proof.
  intros s Hs. apply wp_debug_cookies.
  - intros d evs _ H. repeat split; [done| |done].
    induction evs as [|ev evs IH]; [done|].
    simpl in *. apply andb_true_iff in H as [Hp H]. rewrite (IH H).
    destruct ev; try done. by rewrite P_print.
  - intros e _ He. repeat split; [done..|].
    intros e' [= <-]. by apply E_exception.
Qed.

Lemma keeps_getitem (d : gmap string scalar) (key : string) :
  keeps Inv P E (getitem d key).
Proof.
  intros s Hs. apply wp_getitem. repeat split; [done..|].
  destruct (d !! key); [done|]. intros e [= <-]. by apply E_exception.
Qed.

Lemma keeps_request (r : request) :
  P (EvHttp r) = true -> keeps Inv P E (session_request r).
Proof.
  intros Hr s Hs. apply wp_session_request. intros out jar w _.
  repeat split; [by apply Inv_session|simpl; by rewrite Hr|].
  destruct out; [|done]. intros e [= <-]. by apply E_exception.
Qed.

Lemma keeps_bind {A B} (m : M A) (k : A -> M B) :
  keeps Inv P E m -> (forall a, keeps Inv P E (k a)) -> keeps Inv P E (bind m k).
Proof.
  intros Hm Hk s Hs. apply wp_bind. eapply wp_mono; [by apply Hm|].
  intros [a|e] s1 e1 (H1 & H2 & H3).
  2: { split; [done|]. split; [done|]. intros e' [= <-]. by apply H3. }
  eapply wp_mono; [by apply Hk|]. intros r2 s2 e2 (H4 & H5 & H6).
  repeat split; [done| |done]. by rewrite forallb_app, H2, H5.
Qed.

Lemma keeps_logged {A} (name : string) (m : M A) :
  keeps Inv P E m -> keeps Inv P E (logged name m).
Proof.
  intros Hm s Hs. apply wp_logged. eapply wp_mono; [by apply Hm|].
  intros [a|e] s1 e1 (H1 & H2 & H3); [by repeat split|].
  destruct (is_Exception e); [|exact (conj H1 (conj H2 H3))].
  split; [done|]. split; [|exact H3]. rewrite forallb_app, H2. simpl.
  by rewrite P_print.
Qed.

Ltac keeps_step :=
  lazymatch goal with
  | |- keeps _ _ _ (bind _ _) => apply keeps_bind; [|intros ?]
  | |- keeps _ _ _ (ret _) => apply keeps_ret
  | |- keeps _ _ _ (raise _) => apply keeps_raise; try by apply E_exception
  | |- keeps _ _ _ (gets _) => apply keeps_gets
  | |- keeps _ _ _ (print _) => apply keeps_print
  | |- keeps _ _ _ (debug_print _) => apply keeps_debug_print
  | |- keeps _ _ _ (debug_cookies _) => apply keeps_debug_cookies
  | |- keeps _ _ _ (getitem _ _) => apply keeps_getitem
  | |- keeps _ _ _ (logged _ _) => apply keeps_logged
  | |- keeps _ _ _ (session_get _) => apply keeps_request; by apply P_get
  | |- keeps _ _ _ (if ?b then _ else _) => destruct b
  | |- keeps _ _ _ (match ?x with _ => _ end) => destruct x
  end.

(** The operations, given that [login] keeps the three. *)
Hypothesis keeps_login : keeps Inv P E login.

Lemma keeps_get_zones (domain_name : option string) :
  (if domain_name is Some _ then E (SystemExit 1) else True) ->
  keeps Inv P E (get_zones domain_name).
Proof.
  intros Hexit. unfold get_zones.
  repeat first [apply keeps_login | keeps_step]; exact Hexit.
Qed.

Lemma keeps_find_zone_id (zones : list (gmap string scalar)) (zone zone_id : pyval) :
  keeps Inv P E (find_zone_id zones zone zone_id).
Proof.
  induction zones as [|z zones IH]; simpl; repeat first [exact IH | keeps_step].
Qed.

Lemma keeps_resolve_zone_id (zone : pyval) : keeps Inv P E (resolve_zone_id zone).
Proof.
  unfold resolve_zone_id.
  repeat first [by apply keeps_get_zones | apply keeps_find_zone_id | keeps_step].
Qed.

Lemma keeps_get_records (zone : pyval) : keeps Inv P E (get_records zone).
Proof.
  unfold get_records.
  repeat first [apply keeps_login | apply keeps_resolve_zone_id | keeps_step].
Qed.

Lemma keeps_find_record (records : list (gmap string scalar)) (n t : string) :
  keeps Inv P E (find_record records n t).
Proof.
  induction records as [|r records IH]; simpl; repeat first [exact IH | keeps_step].
Qed.

Lemma keeps_record_exists (zone : pyval) (n t : string) :
  keeps Inv P E (record_exists zone n t).
Proof.
  unfold record_exists.
  repeat first [apply keeps_get_records | apply keeps_find_record | keeps_step].
Qed.

Lemma keeps_add_record (zone : pyval) (record_type name content : string)
  (ttl : Z) (check_exists : bool) :
  (forall zone_id data,
     P (EvHttp (mkRequest POST (UrlEditZone zone_id) data)) = true) ->
  keeps Inv P E (add_record zone record_type name content ttl check_exists).
Proof.
  intros Hpost. unfold add_record. cbv zeta.
  repeat first [apply keeps_login | apply keeps_resolve_zone_id
               | apply keeps_record_exists
               | apply keeps_request; by apply Hpost | keeps_step].
Qed.

Lemma keeps_input (prompt : string) :
  P (EvInput prompt) = true ->
  (forall s, Inv s ->
     Inv (mkState (username s) (password s) (debug s) (logged_in s)
            (cookies s) (world s) (tl (stdin s)))) ->
  keeps Inv P E (input prompt).
Proof.
  intros Hp Hinv s Hs. apply wp_input.
  repeat split; [by apply Hinv|simpl; by rewrite Hp|].
  destruct (stdin s); [|done]. intros e [= <-]. by apply E_exception.
Qed.

Lemma keeps_delete_record (zone : pyval) (record_id : scalar)
  (record_name : option string) (record_type : string) (force_delete : bool) :
  (forall data, P (EvHttp (mkRequest POST UrlIndex data)) = true) ->
  (forall prompt, P (EvInput prompt) = true) ->
  (forall s, Inv s ->
     Inv (mkState (username s) (password s) (debug s) (logged_in s)
            (cookies s) (world s) (tl (stdin s)))) ->
  keeps Inv P E
    (delete_record zone record_id record_name record_type force_delete).
Proof.
  intros Hpost Hprompt Hinv. unfold delete_record. cbv zeta.
  repeat first [apply keeps_login | apply keeps_resolve_zone_id
               | apply keeps_record_exists
               | apply keeps_request; by apply Hpost
               | apply keeps_input; [by apply Hprompt|exact Hinv]
               | keeps_step].
Qed.

End Keeps.
Lemma prints_accepted (P : event -> bool) (evs : list event) :
  (forall line, P (EvPrint line) = true) ->
  forallb is_print evs = true -> forallb P evs = true.
Proof.
  intros HP. induction evs as [|ev evs IH]; [done|]. simpl.
  intros H. apply andb_true_iff in H as [Hp H]. rewrite (IH H), andb_true_r.
  by destruct ev.
Qed.

(** Proves that a list of events built by a run is accepted, from what
    is accepted of print events ([HPp]) and of requests ([HPl]). *)
Ltac accepted HPp HPl :=
  rewrite ?forallb_app; cbn [forallb];
  repeat match goal with
    | H : forallb is_print ?e = true |- _ =>
        apply (prints_accepted _ _ HPp) in H; rewrite H
    end;
  rewrite ?HPp, ?HPl; done.

(** [login] raises nothing, and keeps an invariant that does not depend on
    the session or on the authenticated flag. *)
Lemma login_keeps (Inv : state -> Prop) (P : event -> bool) (E : exc -> Prop) :
  (forall s b jar w,
     Inv s ->
     Inv (mkState (username s) (password s) (debug s) b jar w (stdin s))) ->
  (forall line, P (EvPrint line) = true) ->
  (forall m data, P (EvHttp (mkRequest m UrlLogin data)) = true) ->
  keeps Inv P E login.
Proof.
  intros HInv HPp HPl s Hs.
  set (Q := fun (r : res bool) (s' : state) (evs : list event) => _).
  assert (HQ : forall b u p d l jar w evs,
    u = username s -> p = password s -> d = debug s ->
    forallb P evs = true ->
    Q (Ok b) (mkState u p d l jar w (stdin s)) evs).
  { intros b u p d l jar w evs -> -> -> Hev.
    split; [exact (HInv s l jar w Hs)|]. split; [done|]. intros e He.
    discriminate He. }
  assert (Hs0 : s = mkState (username s) (password s) (debug s) (logged_in s)
                      (cookies s) (world s) (stdin s)) by by destruct s.
  unfold login. wp_step. wp_step. destruct (logged_in s) eqn:Hl.
  - wp_step. rewrite Hs0. by apply HQ.
  - wp_step. repeat wp_step. destruct out as [msg|r1]; cbn [is_Exception].
    { repeat wp_step. apply HQ; try done. accepted HPp HPl. }
    repeat wp_step;
      [|rewrite Hexc; repeat wp_step; apply HQ; try done; accepted HPp HPl].
    destruct out as [msg|r2]; cbn [is_Exception].
    { repeat wp_step. apply HQ; try done. accepted HPp HPl. }
    repeat wp_step; try rewrite Hexc; repeat wp_step; cbn [is_Exception];
      apply HQ; try done; accepted HPp HPl.
Qed.
(** *** Who ends the process *)

(** No run of [m] raises [SystemExit]: what it raises is an [Exception]. *)
Definition never_exits {A} (m : M A) : Prop :=
  forall s r s' evs e, m s = (r, s', evs) -> r = Err e -> is_Exception e = true.

Lemma keeps_never_exits {A} (m : M A) :
  keeps (fun _ => True) (fun _ => true) (fun e => is_Exception e = true) m ->
  never_exits m.
Proof.
  intros Hm s r s' evs e Hrun Hr.
  destruct (keeps_elim _ _ _ _ _ _ _ _ Hm I Hrun) as (_ & _ & He). by apply He.
Qed.

(** Only [get_zones] with a filter name calls [sys.exit], and only with
    status 1: [login], the listing without a filter and the record
    operations raise nothing but exceptions that [except Exception]
    catches. *)
Theorem only_zone_filter_exits :
  never_exits login
  /\ never_exits (get_zones None)
  /\ (forall zone, never_exits (get_records zone))
  /\ (forall zone n t, never_exits (record_exists zone n t))
  /\ (forall zone record_type name content ttl check_exists,
        never_exits (add_record zone record_type name content ttl check_exists))
  /\ (forall zone record_id record_name record_type force_delete,
        never_exits
          (delete_record zone record_id record_name record_type force_delete))
  /\ (forall name s r s' evs code,
        get_zones (Some name) s = (r, s', evs) ->
        r = Err (SystemExit code) -> code = 1%Z).
Proof.
  assert (HL : keeps (fun _ => True) (fun _ => true)
                 (fun e => is_Exception e = true) login).
  { by apply login_keeps. }
  split; [|split; [|split; [|split; [|split; [|split]]]]].
  - by apply keeps_never_exits.
  - apply keeps_never_exits. by apply keeps_get_zones.
  - intros zone. apply keeps_never_exits. by apply keeps_get_records.
  - intros zone n t. apply keeps_never_exits. by apply keeps_record_exists.
  - intros. apply keeps_never_exits. by apply keeps_add_record.
  - intros. apply keeps_never_exits. by apply keeps_delete_record.
  - intros name s r s' evs code Hrun ->.
    assert (Hk : keeps (fun _ => True) (fun _ => true)
                   (fun e => is_Exception e = true \/ e = SystemExit 1)
                   (get_zones (Some name))).
    { apply keeps_get_zones; try done;
        [intros e He; by left|by apply login_keeps|by right]. }
    destruct (keeps_elim _ _ _ _ _ _ _ _ Hk I Hrun) as (_ & _ & He).
    destruct (He _ eq_refl) as [He'|He']; [done|]. by injection He'.
Qed.

(** *** An authenticated session stays so *)

(** The event is a request to the login address. *)
Definition is_login_request (ev : event) : bool :=
  match ev with
  | EvHttp r => match req_url r with UrlLogin => true | _ => false end
  | _ => false
  end.

(** From an authenticated state, no run of [m] clears the flag or sends a
    request to the login address. *)
Definition stays_authenticated {A} (m : M A) : Prop :=
  forall s r s' evs,
    logged_in s = true -> m s = (r, s', evs) ->
    logged_in s' = true /\ existsb is_login_request evs = false.

Lemma forallb_negb_existsb {A} (p : A -> bool) (l : list A) :
  forallb (fun x => negb (p x)) l = true -> existsb p l = false.
Proof.
  induction l as [|x l IH]; [done|]. simpl.
  intros H. apply andb_true_iff in H as [Hx H].
  apply negb_true_iff in Hx. by rewrite Hx, (IH H).
Qed.

Lemma keeps_stays_authenticated {A} (m : M A) :
  keeps (fun s => logged_in s = true) (fun ev => negb (is_login_request ev))
    (fun _ => True) m ->
  stays_authenticated m.
Proof.
  intros Hm s r s' evs Hs Hrun.
  destruct (keeps_elim _ _ _ _ _ _ _ _ Hm Hs Hrun) as (H1 & H2 & _).
  split; [done|]. by apply forallb_negb_existsb.
Qed.

(** Once the session is authenticated it is never authenticated again: no
    operation, whatever the provider answers, sends a request to the login
    address or clears the flag. *)
Theorem authenticated_session_kept :
  (forall domain_name, stays_authenticated (get_zones domain_name))
  /\ (forall zone, stays_authenticated (get_records zone))
  /\ (forall zone n t, stays_authenticated (record_exists zone n t))
  /\ (forall zone record_type name content ttl check_exists,
        stays_authenticated
          (add_record zone record_type name content ttl check_exists))
  /\ (forall zone record_id record_name record_type force_delete,
        stays_authenticated
          (delete_record zone record_id record_name record_type force_delete)).
Proof.
  assert (HL : keeps (fun s => logged_in s = true)
                 (fun ev => negb (is_login_request ev)) (fun _ => True) login).
  { intros s Hs. apply (wp_run _ _ _ _ _ _ (login_when_logged_in s Hs)).
    by repeat split. }
  assert (HG : forall u, u <> UrlLogin ->
    negb (is_login_request (EvHttp (mkRequest GET u []))) = true).
  { intros u Hu. by destruct u. }
  split; [|split; [|split; [|split]]]; intros; apply keeps_stays_authenticated.
  - apply keeps_get_zones; try done. by destruct domain_name.
  - by apply keeps_get_records.
  - by apply keeps_record_exists.
  - by apply keeps_add_record.
  - by apply keeps_delete_record.
Qed.

(** *** Each operation sends its own requests only *)

(** A GET, the POST of the login form, or a printed line. *)
Definition is_read (ev : event) : bool :=
  match ev with
  | EvHttp (mkRequest GET _ _) => true
  | EvHttp (mkRequest POST UrlLogin _) => true
  | EvHttp _ => false
  | EvPrint _ => true
  | EvInput _ => false
  end.

(** The listing operations read only: besides the login they send GET
    requests, never a POST, and they never prompt. *)
Theorem listings_read_only :
  (forall domain_name s r s' evs,
     get_zones domain_name s = (r, s', evs) -> forallb is_read evs = true)
  /\ (forall zone s r s' evs,
        get_records zone s = (r, s', evs) -> forallb is_read evs = true)
  /\ (forall zone n t s r s' evs,
        record_exists zone n t s = (r, s', evs) -> forallb is_read evs = true).
Proof.
  assert (HL : keeps (fun _ => True) is_read (fun _ => True) login).
  { apply login_keeps; try done. by intros [|] data. }
  split; [|split]; intros.
  - assert (Hk : keeps (fun _ => True) is_read (fun _ => True)
                   (get_zones domain_name)).
    { apply keeps_get_zones; try done. by destruct domain_name. }
    by destruct (keeps_elim _ _ _ _ _ _ _ _ Hk I H) as (_ & ? & _).
  - assert (Hk : keeps (fun _ => True) is_read (fun _ => True)
                   (get_records zone)) by by apply keeps_get_records.
    by destruct (keeps_elim _ _ _ _ _ _ _ _ Hk I H) as (_ & ? & _).
  - assert (Hk : keeps (fun _ => True) is_read (fun _ => True)
                   (record_exists zone n t)) by by apply keeps_record_exists.
    by destruct (keeps_elim _ _ _ _ _ _ _ _ Hk I H) as (_ & ? & _).
Qed.

(** [add_record] never sends the deletion POST and never prompts;
    [delete_record] never sends the add POST. *)
Theorem mutations_stay_apart :
  (forall zone record_type name content ttl check_exists s r s' evs,
     add_record zone record_type name content ttl check_exists s = (r, s', evs) ->
     existsb is_delete_post evs = false /\ existsb is_input evs = false)
  /\ (forall zone record_id record_name record_type force_delete s r s' evs,
        delete_record zone record_id record_name record_type force_delete s
        = (r, s', evs) ->
        existsb is_add_post evs = false).
Proof.
  split.
  - intros * H.
    assert (Hd : keeps (fun _ => True) (fun ev => negb (is_delete_post ev))
                   (fun _ => True)
                   (add_record zone record_type name content ttl check_exists)).
    { apply keeps_add_record; try done.
      apply login_keeps; try done; by intros [|] data. }
    assert (Hi : keeps (fun _ => True) (fun ev => negb (is_input ev))
                   (fun _ => True)
                   (add_record zone record_type name content ttl check_exists)).
    { apply keeps_add_record; try done.
      apply login_keeps; try done; by intros [|] data. }
    destruct (keeps_elim _ _ _ _ _ _ _ _ Hd I H) as (_ & H1 & _).
    destruct (keeps_elim _ _ _ _ _ _ _ _ Hi I H) as (_ & H2 & _).
    split; by apply forallb_negb_existsb.
  - intros * H.
    assert (Ha : keeps (fun _ => True) (fun ev => negb (is_add_post ev))
                   (fun _ => True)
                   (delete_record zone record_id record_name record_type
                      force_delete)).
    { apply keeps_delete_record; try done.
      apply login_keeps; try done; by intros [|] data. }
    destruct (keeps_elim _ _ _ _ _ _ _ _ Ha I H) as (_ & H1 & _).
    by apply forallb_negb_existsb.
Qed.
(** *** The requests of a login *)

(** The login of a session that is not authenticated sends the GET of the
    login page first. When the GET fails, or when the jar it leaves does
    not convert to a dict (the debug line after it formats the jar),
    [login] returns false and nothing else is sent; otherwise the
    credentials are posted, once and to the login address. *)
Theorem login_requests (s s' : state) (r : res bool) (evs : list event) :
  logged_in s = false ->
  login s = (r, s', evs) ->
  (forall msg jar w,
     http (world s) (cookies s) login_get = (inl msg, jar, w) ->
     r = Ok false /\ requests evs = [EvHttp login_get])
  /\ (forall r1 jar w,
        http (world s) (cookies s) login_get = (inr r1, jar, w) ->
        if Jar.convertible jar
        then requests evs = [EvHttp login_get; EvHttp (login_post s)]
        else r = Ok false /\ requests evs = [EvHttp login_get]).
Proof.
  intros Hl E. by_wp E.
  unfold login. wp_step. wp_step. rewrite Hl. wp_step.
  repeat wp_step. destruct out as [msg|r1]; cbn [is_Exception].
  { repeat wp_step. split.
    - intros msg' jar' w' H. split; [done|]. by reqs.
    - intros r1 jar' w' H. unfold login_get in H. congruence. }
  wp_step. wp_step. wp_step. wp_step; cbn [cookies] in *.
  2:{ rewrite Hexc. repeat wp_step. split.
      - intros msg' jar' w' H. unfold login_get in H. congruence.
      - intros r1' jar' w' H. unfold login_get in H. rewrite Hhttp in H.
        simplify_eq. unfold Jar.convertible. rewrite Hjar.
        split; [done|]. by reqs. }
  assert (Hconv : Jar.convertible jar = true).
  { unfold Jar.convertible. by rewrite Hjar. }
  repeat wp_step. destruct out as [msg|r2]; cbn [is_Exception].
  { repeat wp_step. split.
    - intros msg' jar' w' H. unfold login_get in H. congruence.
    - intros r1' jar' w' H. unfold login_get in H. rewrite Hhttp in H.
      simplify_eq. rewrite Hconv. by reqs. }
  repeat wp_step; try rewrite Hexc; repeat wp_step; cbn [is_Exception]; (split;
    [intros msg' jar' w' H; unfold login_get in H; congruence
    |intros r1' jar' w' H; unfold login_get in H; rewrite Hhttp in H;
     simplify_eq; rewrite Hconv; by reqs]).
Qed.

Lemma login_first_request (s s' : state) (r : res bool) (evs : list event) :
  logged_in s = false ->
  login s = (r, s', evs) ->
  exists rest, requests evs = EvHttp login_get :: rest.
Proof.
  intros Hl E. by_wp E.
  unfold login. wp_step. wp_step. rewrite Hl. wp_step.
  repeat wp_step. destruct out as [msg|r1]; cbn [is_Exception].
  { repeat wp_step. eexists. by reqs. }
  repeat wp_step; [|rewrite Hexc; repeat wp_step; eexists; by reqs].
  destruct out as [msg|r2]; cbn [is_Exception].
  { repeat wp_step. eexists. by reqs. }
  repeat wp_step; try rewrite Hexc; repeat wp_step; cbn [is_Exception];
    eexists; by reqs.
Qed.

Lemma bind_events {A B} (m : M A) (k : A -> M B) (s s' : state)
  (r : res B) (evs : list event) :
  bind m k s = (r, s', evs) ->
  exists r0 s0 e0 rest, m s = (r0, s0, e0) /\ evs = e0 ++ rest.
Proof.
  unfold bind. destruct (m s) as [[[a|e] s0] e0].
  - destruct (k a s0) as [[r2 s2] e2]. intros [= <- <- <-].
    by exists (Ok a), s0, e0, e2.
  - intros [= <- <- <-]. exists (Err e), s0, e0, []. by rewrite app_nil_r.
Qed.

(** On a session that is not authenticated, whatever operation is called
    first, the first request that leaves is the GET of the login page:
    nothing is asked of the provider, and no form is posted, before it. *)
Theorem login_comes_first (s : state) :
  logged_in s = false ->
  (forall domain_name r s' evs,
     get_zones domain_name s = (r, s', evs) ->
     exists rest, requests evs = EvHttp login_get :: rest)
  /\ (forall zone r s' evs,
        get_records zone s = (r, s', evs) ->
        exists rest, requests evs = EvHttp login_get :: rest)
  /\ (forall zone record_type name content ttl check_exists r s' evs,
        add_record zone record_type name content ttl check_exists s = (r, s', evs) ->
        exists rest, requests evs = EvHttp login_get :: rest)
  /\ (forall zone record_id record_name record_type force_delete r s' evs,
        delete_record zone record_id record_name record_type force_delete s
        = (r, s', evs) ->
        exists rest, requests evs = EvHttp login_get :: rest).
Proof.
  intros Hl.
  assert (H : forall (A : Type) (k : bool -> M A) r s' evs,
    bind login k s = (r, s', evs) ->
    exists rest, requests evs = EvHttp login_get :: rest).
  { intros A k r s' evs E.
    apply bind_events in E as (r0 & s0 & e0 & rest & E0 & ->).
    apply (login_first_request _ _ _ _ Hl) in E0 as [rest0 E0].
    exists (rest0 ++ requests rest). by rewrite requests_app, E0. }
  split; [|split; [|split]]; intros * E; by eapply H.
Qed.
(** ** The command line

    [main], from the [try] on: the arguments are what [argparse] returned
    and the state is the client that [HurricaneDNS(username, password,
    debug)] built. [json.dumps(x, indent=2)] is a parameter, given the list
    or the dict it prints. Lines printed to standard error are events like
    the others. *)

(** [s.endswith(suffix)] *)
Fixpoint endswith (suffix s : string) : bool :=
  if String.eqb suffix s then true
  else
    match s with
    | EmptyString => false
    | String _ s' => endswith suffix s'
    end.

(** The sub-command and the arguments of its parser. *)
Inductive command : Type :=
  | ListZones
  | ListRecords
  | AddSubdomain (subdomains : list string) (content : option string)
      (type : string) (ttl : Z)
  | DeleteSubdomain (subdomains : list string) (type : string).

Record args : Type := mkArgs {
  arg_domain : option string;
  arg_zone : option string;
  arg_force_delete : bool;
  arg_command : command
}.

(** [HurricaneDNS(username, password, debug)]: a new session, not
    authenticated. *)
Definition new_client (username password : string) (debug : bool)
  (w : World) (lines : list string) : state :=
  mkState username password debug false [] w lines.

(** Truth value of an optional string argument. *)
Definition given (a : option string) : bool :=
  match a with
  | Some v => negb (String.eqb v "")
  | None => false
  end.

(** Truth value of the [zone] variable of [main]. *)
Definition zone_truthy (zone : option zones_result) : bool :=
  match zone with
  | Some (OneZone z) => dict_truthy z
  | Some (AllZones zones) => match zones with [] => false | _ => true end
  | None => false
  end.

(** [zone['id']] *)
Definition zone_getitem (zone : zones_result) : M scalar :=
  match zone with
  | OneZone z => getitem z "id"
  | AllZones _ => raise (TypeError "list indices must be integers or slices, not str")
  end.

(** [zone['id'] if zone else None] *)
Definition zone_id_or_none (zone : option zones_result) : M scalar :=
  match zone with
  | Some z => if zone_truthy zone then zone_getitem z else ret SNone
  | None => ret SNone
  end.

(** The name that the two batch loops give a subdomain. *)
Definition full_name (subdomain domain : string) : string :=
  if negb (endswith domain subdomain) then
    if negb (PyStr.contains "." subdomain)
    then subdomain +:+ "." +:+ domain
    else subdomain
  else subdomain.

(** The loop of [add-subdomain]; it returns [success_count]. *)
Fixpoint add_loop (zone : option zones_result) (domain content type : string)
  (ttl : Z) (subdomains : list string) (success_count : nat) : M nat :=
  match subdomains with
  | [] => ret success_count
  | subdomain :: rest =>
      let* zone_id := zone_id_or_none zone in
      let* success :=
        add_record (Scalar zone_id) type (full_name subdomain domain) content
          ttl true in
      add_loop zone domain content type ttl rest
        (if success then S success_count else success_count)
  end.

(** The loop of [delete-subdomain]; it returns [success_count]. *)
Fixpoint delete_loop (zone : option zones_result) (domain type : string)
  (force_delete : bool) (subdomains : list string) (success_count : nat)
  : M nat :=
  match subdomains with
  | [] => ret success_count
  | subdomain :: rest =>
      let* zone_id := zone_id_or_none zone in
      let* success :=
        delete_record (Scalar zone_id) SNone (Some (full_name subdomain domain))
          type force_delete in
      delete_loop zone domain type force_delete rest
        (if success then S success_count else success_count)
  end.

Definition newline : string := String (ascii_of_nat 10) EmptyString.

(** The body of the [try] of [main]. *)
Definition run_command
  (json_dumps : list (gmap string scalar) + gmap string scalar -> string)
  (a : args) : M unit :=
  let* zone :=
    if given (arg_domain a) then
      let* z := get_zones (arg_domain a) in
      let* id := zone_getitem z in
      print ("Working with domain: " +:+ default "" (arg_domain a)
             +:+ " (Zone ID: " +:+ py_str id +:+ ")") ;;;
      ret (Some z)
    else ret None in
  match arg_command a with
  | ListZones =>
      let* zones := get_zones None in
      print (newline +:+ "Zones:") ;;;
      print (json_dumps match zones with
                        | AllZones l => inl l
                        | OneZone z => inr z
                        end) ;;;
      raise (SystemExit 0)
  | ListRecords =>
      let* target_zone :=
        if given (arg_zone a) then ret (SStr (default "" (arg_zone a)))
        else zone_id_or_none zone in
      if negb (truthy target_zone) then
        print "Error: You must specify either --domain or --zone" ;;;
        raise (SystemExit 1)
      else
        let* records := get_records (Scalar target_zone) in
        print (newline +:+ "Records:") ;;;
        print (json_dumps (inl records)) ;;;
        raise (SystemExit 0)
  | AddSubdomain subdomains content type ttl =>
      if negb (given (arg_domain a)) then
        print "Error: For adding subdomains, you must provide --domain" ;;;
        raise (SystemExit 1)
      else if negb (given content) then
        print "Error: For adding subdomains, you must provide --content (IP address)" ;;;
        raise (SystemExit 1)
      else
        let* success_count :=
          add_loop zone (default "" (arg_domain a)) (default "" content) type
            ttl subdomains 0 in
        if Nat.eqb success_count (length subdomains) then
          print ("All " +:+ pretty success_count
                 +:+ " subdomains added successfully") ;;;
          raise (SystemExit 0)
        else
          print ("Added " +:+ pretty success_count +:+ " out of "
                 +:+ pretty (length subdomains) +:+ " subdomains") ;;;
          raise (SystemExit 1)
  | DeleteSubdomain subdomains type =>
      if negb (given (arg_domain a)) then
        print "Error: For deleting subdomains, you must provide --domain" ;;;
        raise (SystemExit 1)
      else
        let* success_count :=
          delete_loop zone (default "" (arg_domain a)) type
            (arg_force_delete a) subdomains 0 in
        if Nat.eqb success_count (length subdomains) then
          print ("All " +:+ pretty success_count
                 +:+ " subdomains deleted successfully") ;;;
          raise (SystemExit 0)
        else
          print ("Deleted " +:+ pretty success_count +:+ " out of "
                 +:+ pretty (length subdomains) +:+ " subdomains") ;;;
          raise (SystemExit 1)
  end.

(** [main] from its [try] on: [except Exception as e] prints the error
    and exits with status 1. *)
Definition main_try
  (json_dumps : list (gmap string scalar) + gmap string scalar -> string)
  (a : args) : M unit :=
  try_except (run_command json_dumps a)
    (fun e => print ("Error: " +:+ exc_str e) ;;; raise (SystemExit 1)).
(** *** Properties of the command line *)

Lemma endswith_app (pre suffix : string) : endswith suffix (pre +:+ suffix) = true.
Proof.
  induction pre as [|c pre IH].
  - change ("" +:+ suffix) with suffix.
    destruct suffix as [|c suffix]; cbn [endswith]; by rewrite String.eqb_refl.
  - change (String c pre +:+ suffix) with (String c (pre +:+ suffix)).
    cbn [endswith].
    destruct (String.eqb suffix (String c (pre +:+ suffix))); [done|exact IH].
Qed.

Lemma string_app_assoc (a b c : string) : (a +:+ b) +:+ c = a +:+ (b +:+ c).
Proof.
  induction a as [|x a IH]; [reflexivity|].
  change (String x ((a +:+ b) +:+ c) = String x (a +:+ (b +:+ c))).
  by rewrite IH.
Qed.

(** Naming a subdomain is idempotent: a name that the loops built is left
    as it is when it is given again; and the name built ends with the
    domain or has a dot. *)
Theorem full_name_idempotent (subdomain domain : string) :
  full_name (full_name subdomain domain) domain = full_name subdomain domain
  /\ (endswith domain (full_name subdomain domain) = true
      \/ PyStr.contains "." (full_name subdomain domain) = true).
Proof.
  assert (Hfix : forall n,
    endswith domain n = true \/ PyStr.contains "." n = true ->
    full_name n domain = n).
  { intros n H. unfold full_name.
    destruct (endswith domain n); cbn [negb]; [done|].
    destruct H as [H|H]; [done|]. by rewrite H. }
  assert (Hres : endswith domain (full_name subdomain domain) = true
                 \/ PyStr.contains "." (full_name subdomain domain) = true).
  { unfold full_name.
    destruct (endswith domain subdomain) eqn:He; cbn [negb]; [by left|].
    destruct (PyStr.contains "." subdomain) eqn:Hd; cbn [negb]; [by right|].
    left. rewrite <- string_app_assoc. apply endswith_app. }
  split; [by apply Hfix|done].
Qed.
(** A command that lacks its zone stops before anything is sent: with no
    [--domain], [add-subdomain] and [delete-subdomain] print the error and
    exit with status 1; so does [list-records] with neither [--domain] nor
    [--zone]. The state is untouched and the error line is the only
    event. *)
Theorem missing_zone_exits
  (json_dumps : list (gmap string scalar) + gmap string scalar -> string)
  (a : args) (s : state) :
  given (arg_domain a) = false ->
  (forall subdomains content type ttl,
     arg_command a = AddSubdomain subdomains content type ttl ->
     main_try json_dumps a s
     = (Err (SystemExit 1), s,
        [EvPrint "Error: For adding subdomains, you must provide --domain"]))
  /\ (forall subdomains type,
        arg_command a = DeleteSubdomain subdomains type ->
        main_try json_dumps a s
        = (Err (SystemExit 1), s,
           [EvPrint "Error: For deleting subdomains, you must provide --domain"]))
  /\ (arg_command a = ListRecords ->
      given (arg_zone a) = false ->
      main_try json_dumps a s
      = (Err (SystemExit 1), s,
         [EvPrint "Error: You must specify either --domain or --zone"])).
Proof.
  intros Hd. split; [|split].
  - intros * Hc. unfold main_try, run_command, try_except, bind.
    by rewrite Hd, Hc.
  - intros * Hc. unfold main_try, run_command, try_except, bind.
    by rewrite Hd, Hc.
  - intros Hc Hz. unfold main_try, run_command, try_except, bind.
    by rewrite Hd, Hc, Hz.
Qed.

Lemma wp_keeps {A} (E : exc -> Prop) (m : M A) (s : state) Q :
  keeps (fun _ => True) (fun _ => true) E m ->
  (forall r s' evs, (forall e, r = Err e -> E e) -> Q r s' evs) ->
  wp m s Q.
Proof.
  intros Hm HQ. eapply wp_mono; [by apply Hm|].
  intros r s' evs (_ & _ & He). by apply HQ.
Qed.

(** What a run accepts when only [Exception]s may be raised. *)
Definition plain (e : exc) : Prop := is_Exception e = true.

Lemma plain_login : keeps (fun _ => True) (fun _ => true) plain login.
Proof. by apply login_keeps. Qed.

Lemma plain_zone_id_or_none (zone : option zones_result) :
  keeps (fun _ => True) (fun _ => true) plain (zone_id_or_none zone).
Proof.
  unfold zone_id_or_none. destruct zone as [z|]; [|by apply keeps_ret].
  destruct (zone_truthy _); [|by apply keeps_ret].
  destruct z; [by apply keeps_raise|by apply keeps_getitem].
Qed.

Lemma plain_add_loop (zone : option zones_result) (domain content type : string)
  (ttl : Z) (subdomains : list string) (n : nat) :
  keeps (fun _ => True) (fun _ => true) plain
    (add_loop zone domain content type ttl subdomains n).
Proof.
  revert n. induction subdomains as [|sub rest IH]; intros n; cbn [add_loop].
  - by apply keeps_ret.
  - apply keeps_bind; [apply plain_zone_id_or_none|]. intros zone_id.
    apply keeps_bind; [|intros success; apply IH].
    apply keeps_add_record; try done. apply plain_login.
Qed.

Lemma plain_delete_loop (zone : option zones_result) (domain type : string)
  (force_delete : bool) (subdomains : list string) (n : nat) :
  keeps (fun _ => True) (fun _ => true) plain
    (delete_loop zone domain type force_delete subdomains n).
Proof.
  revert n. induction subdomains as [|sub rest IH]; intros n; cbn [delete_loop].
  - by apply keeps_ret.
  - apply keeps_bind; [apply plain_zone_id_or_none|]. intros zone_id.
    apply keeps_bind; [|intros success; apply IH].
    apply keeps_delete_record; try done. apply plain_login.
Qed.

(** What the body of the [try] may raise. *)
Definition exit_or_plain (e : exc) : Prop :=
  is_Exception e = true \/ e = SystemExit 0 \/ e = SystemExit 1.

(** Runs a call whose exceptions are known, and goes on with its value. *)
Ltac sub_op H HQ :=
  eapply wp_keeps; [apply H|];
  let r := fresh "r" in let He := fresh "He" in
  intros [r|r] ? ? He; [|apply HQ; by apply He].

Lemma run_command_raises
  (json_dumps : list (gmap string scalar) + gmap string scalar -> string)
  (a : args) (s : state) :
  wp (run_command json_dumps a) s
     (fun r _ _ => exists e, r = Err e /\ exit_or_plain e).
Proof.
  set (Q := fun (r : res unit) (s' : state) (evs : list event) => _).
  assert (HQ : forall (s' : state) (evs : list event) e,
    exit_or_plain e -> Q (Err e) s' evs).
  { intros s' evs e He. by exists e. }
  assert (Hplain : forall e, plain e -> exit_or_plain e) by (intros e He; by left).
  assert (Hzones : forall d,
    keeps (fun _ => True) (fun _ => true) exit_or_plain (get_zones d)).
  { intros d. apply keeps_get_zones; try done.
    - by apply login_keeps.
    - destruct d; [|done]. right. by right. }
  assert (Hgetitem : forall z,
    keeps (fun _ => True) (fun _ => true) exit_or_plain (zone_getitem z)).
  { intros [l|z]; [by apply keeps_raise, Hplain|by apply keeps_getitem]. }
  assert (Hweak : forall A (m : M A),
    keeps (fun _ => True) (fun _ => true) plain m ->
    keeps (fun _ => True) (fun _ => true) exit_or_plain m).
  { intros A m Hm s0 Hs0. eapply wp_mono; [by apply Hm|].
    intros r s' evs (H1 & H2 & H3). repeat split; [done|].
    intros e He. by apply Hplain, H3. }
  pose proof (fun z => Hweak _ _ (plain_zone_id_or_none z)) as Hzid.
  pose proof (fun z => Hweak _ _ (keeps_get_records _ _ _
                (fun _ _ _ _ => I) (fun _ => eq_refl) (fun _ _ => eq_refl)
                (fun _ H => H) plain_login z)) as Hrecords.
  pose proof (fun z d c t l subs n =>
                Hweak _ _ (plain_add_loop z d c t l subs n)) as Hadd.
  pose proof (fun z d t f subs n =>
                Hweak _ _ (plain_delete_loop z d t f subs n)) as Hdel.
  unfold run_command. wp_step. wp_step.
  1: { wp_step. sub_op Hzones HQ. wp_step. sub_op Hgetitem HQ.
       wp_step. wp_step. wp_step.
       destruct (arg_command a) as [| |subs content type ttl|subs type];
         cbn [negb];
         repeat first
           [ wp_step
           | sub_op Hzones HQ | sub_op Hzid HQ | sub_op Hrecords HQ
           | sub_op Hadd HQ | sub_op Hdel HQ ];
         apply HQ; right; first [by left|by right]. }
  wp_step.
  destruct (arg_command a) as [| |subs content type ttl|subs type];
    cbn [negb];
    repeat first
      [ wp_step
      | sub_op Hzones HQ | sub_op Hzid HQ | sub_op Hrecords HQ
      | sub_op Hadd HQ | sub_op Hdel HQ ];
    apply HQ; right; first [by left|by right].
Qed.

(** Whatever the command, its arguments and the provider do, [main] ends
    its [try] by leaving the process with status 0 or 1: it never falls
    through, and no exception escapes. *)
Theorem main_exit_status
  (json_dumps : list (gmap string scalar) + gmap string scalar -> string)
  (a : args) (s : state) :
  exists code s' evs,
    main_try json_dumps a s = (Err (SystemExit code), s', evs)
    /\ (code = 0 \/ code = 1)%Z.
Proof.
  cut (wp (main_try json_dumps a) s
         (fun r _ _ => exists code, r = Err (SystemExit code)
                                    /\ (code = 0 \/ code = 1)%Z)).
  { unfold wp. destruct (main_try json_dumps a s) as [[r s'] evs]. cbn.
    intros (code & -> & H). by exists code, s', evs. }
  unfold main_try. apply wp_try_except.
  eapply wp_mono; [apply run_command_raises|].
  intros r s' evs (e & -> & He). cbn beta iota.
  destruct He as [He|[->| ->]].
  - rewrite He. wp_step. wp_step. wp_step. exists 1%Z. by split; [|right].
  - cbn. exists 0%Z. by split; [|left].
  - cbn. exists 1%Z. by split; [|right].
Qed.
(** *** Counting the mutating requests of a batch *)

(** The number of events that [p] accepts. *)
Definition count (p : event -> bool) (evs : list event) : nat :=
  length (List.filter p evs).

Lemma steady_filter_add (s s' : state) (evs : list event) :
  steady s s' evs -> List.filter is_add_post evs = [].
Proof.
  intros [H _]. induction evs as [|ev evs IH]; [done|].
  simpl in *. apply andb_true_iff in H as [Hc H]. rewrite (IH H).
  unfold calm in Hc. destruct (is_add_post ev); [|done].
  by rewrite andb_false_r in Hc.
Qed.

Lemma steady_filter_delete (s s' : state) (evs : list event) :
  steady s s' evs -> List.filter is_delete_post evs = [].
Proof.
  intros [H _]. induction evs as [|ev evs IH]; [done|].
  simpl in *. apply andb_true_iff in H as [Hc H]. rewrite (IH H).
  unfold calm in Hc. by destruct (is_delete_post ev).
Qed.

Lemma prints_filter (p : event -> bool) (evs : list event) :
  (forall line, p (EvPrint line) = false) ->
  forallb is_print evs = true -> List.filter p evs = [].
Proof.
  intros Hp. induction evs as [|ev evs IH]; [done|]. simpl.
  intros H. apply andb_true_iff in H as [Hev H].
  destruct ev; try done. by rewrite Hp, (IH H).
Qed.

(** Computes [count p] of a list of events built by a run, for [p] one of
    the two mutating POSTs. *)
Ltac counts p steady_filter :=
  repeat match goal with
    | H : forallb is_print ?e = true |- _ =>
        apply (prints_filter p e (fun _ => eq_refl)) in H
    end;
  repeat match goal with
    | H : steady _ _ ?e |- _ =>
        apply steady_filter in H
    end;
  unfold count;
  repeat first
    [ rewrite List.filter_app
    | match goal with
      | H : List.filter _ ?e = [] |- _ => rewrite H
      end
    | progress cbn [List.filter is_add_post is_delete_post app length] ].

(** Closes a goal at the end of a run: one POST was counted, or none and
    the result is not true. *)
Ltac leafc p steady_filter HQ0 HQ1 :=
  cbn beta iota; try destruct (is_Exception _);
  first [ apply HQ1; by counts p steady_filter
        | apply HQ0; [by counts p steady_filter | done] ].

(** A call of [add_record] sends the add POST at most once, and exactly
    once when it returns true. *)
Lemma add_record_posts_once (zone : pyval) (record_type name content : string)
  (ttl : Z) (check_exists : bool) (s : state) :
  wp (add_record zone record_type name content ttl check_exists) s
     (fun r _ evs =>
        count is_add_post evs <= 1
        /\ (r = Ok true -> count is_add_post evs = 1)).
Proof.
  set (Q := fun (r : res bool) (s' : state) (evs : list event) => _).
  assert (HQ0 : forall r s' evs,
    count is_add_post evs = 0 -> r <> Ok true -> Q r s' evs).
  { intros r s' evs H0 Hr. split; [lia|done]. }
  assert (HQ1 : forall r s' evs, count is_add_post evs = 1 -> Q r s' evs).
  { intros r s' evs H1. split; [lia|done]. }
  unfold add_record. wp_step.
  apply wp_calm; [apply calm_login|]. intros [[|]|e] s0 e0 H0; cbn [negb];
    [|wp_step; by leafc is_add_post steady_filter_add HQ0 HQ1|by leafc is_add_post steady_filter_add HQ0 HQ1].
  wp_step; [wp_step; by leafc is_add_post steady_filter_add HQ0 HQ1|].
  wp_step. wp_step.
  apply wp_calm; [apply calm_resolve_zone_id|].
  intros [zone_id|e] s1 e1 H1; [|by leafc is_add_post steady_filter_add HQ0 HQ1].
  cbv zeta. destruct check_exists.
  - wp_step. apply wp_calm; [apply calm_record_exists|].
    intros [[existing|]|e] s2 e2 H2; [| |by leafc is_add_post steady_filter_add HQ0 HQ1].
    + wp_step.
      * wp_step. wp_step.
        destruct (existing !! "content");
          repeat wp_step; by leafc is_add_post steady_filter_add HQ0 HQ1.
      * repeat wp_step; try destruct out; repeat wp_step;
          by leafc is_add_post steady_filter_add HQ0 HQ1.
    + repeat wp_step; try destruct out; repeat wp_step;
        by leafc is_add_post steady_filter_add HQ0 HQ1.
  - repeat wp_step; try destruct out; repeat wp_step;
      by leafc is_add_post steady_filter_add HQ0 HQ1.
Qed.

(** A call of [delete_record] sends the deletion POST at most once, and
    exactly once when it returns true. *)
Lemma delete_record_posts_once (zone : pyval) (record_id : scalar)
  (record_name : option string) (record_type : string) (force_delete : bool)
  (s : state) :
  wp (delete_record zone record_id record_name record_type force_delete) s
     (fun r _ evs =>
        count is_delete_post evs <= 1
        /\ (r = Ok true -> count is_delete_post evs = 1)).
Proof.
  set (Q := fun (r : res bool) (s' : state) (evs : list event) => _).
  assert (HQ0 : forall r s' evs,
    count is_delete_post evs = 0 -> r <> Ok true -> Q r s' evs).
  { intros r s' evs H0 Hr. split; [lia|done]. }
  assert (HQ1 : forall r s' evs, count is_delete_post evs = 1 -> Q r s' evs).
  { intros r s' evs H1. split; [lia|done]. }
  unfold delete_record. wp_step.
  apply wp_calm; [apply calm_login|]. intros [[|]|e] s0 e0 H0; cbn [negb];
    [|wp_step; by leafc is_delete_post steady_filter_delete HQ0 HQ1|by leafc is_delete_post steady_filter_delete HQ0 HQ1].
  wp_step; [wp_step; by leafc is_delete_post steady_filter_delete HQ0 HQ1|].
  wp_step. wp_step.
  apply wp_calm; [apply calm_resolve_zone_id|].
  intros [zone_id|e] s1 e1 H1; [|by leafc is_delete_post steady_filter_delete HQ0 HQ1].
  cbv zeta. wp_step.
  - wp_step. apply wp_calm; [apply calm_record_exists|].
    intros [[existing|]|e] s2 e2 H2;
      [|repeat wp_step; by leafc is_delete_post steady_filter_delete HQ0 HQ1
       |by leafc is_delete_post steady_filter_delete HQ0 HQ1].
    wp_step; [|repeat wp_step; by leafc is_delete_post steady_filter_delete HQ0 HQ1].
    wp_step. wp_step.
    destruct (existing !! "id") as [id|]; [|by leafc is_delete_post steady_filter_delete HQ0 HQ1].
    repeat wp_step;
      try (destruct (stdin _); cbn beta iota; repeat wp_step);
      try (destruct out; repeat wp_step);
      by leafc is_delete_post steady_filter_delete HQ0 HQ1.
  - repeat wp_step;
      try (destruct (stdin _); cbn beta iota; repeat wp_step);
      try (destruct out; repeat wp_step);
      by leafc is_delete_post steady_filter_delete HQ0 HQ1.
Qed.
Lemma count_app (p : event -> bool) (e1 e2 : list event) :
  count p (e1 ++ e2) = count p e1 + count p e2.
Proof. unfold count. by rewrite List.filter_app, length_app. Qed.

Lemma zone_id_or_none_pure (zone : option zones_result) (s : state) :
  exists r, zone_id_or_none zone s = (r, s, []).
Proof.
  unfold zone_id_or_none. destruct zone as [z|]; [|by eexists].
  destruct (zone_truthy _); [|by eexists].
  destruct z as [l|z]; [by eexists|].
  unfold zone_getitem, getitem. destruct (z !! "id"); by eexists.
Qed.

Lemma add_loop_counts (zone : option zones_result)
  (domain content type : string) (ttl : Z) (subdomains : list string)
  (n : nat) (s : state) :
  wp (add_loop zone domain content type ttl subdomains n) s
     (fun r _ evs =>
        count is_add_post evs <= length subdomains
        /\ forall k, r = Ok k -> k <= n + count is_add_post evs).
Proof.
  revert n s. induction subdomains as [|sub rest IH]; intros n s; cbn [add_loop].
  - apply wp_ret. split; [done|]. intros k [= <-]. cbn. lia.
  - apply wp_bind. destruct (zone_id_or_none_pure zone s) as [r Hr].
    apply (wp_run _ _ _ _ _ _ Hr). destruct r as [zone_id|e].
    2: { split; [cbn; lia|done]. }
    apply wp_bind. eapply wp_mono; [apply add_record_posts_once|].
    intros [b|e] s1 e1 [Hle Hone].
    2: { rewrite app_nil_l. split; [cbn [length]; lia|done]. }
    eapply wp_mono; [apply IH|]. intros r2 s2 e2 [H1 H2].
    rewrite app_nil_l, count_app. cbn [length]. split; [lia|].
    intros k Hk. specialize (H2 k Hk). destruct b; [|lia].
    rewrite (Hone eq_refl). lia.
Qed.

Lemma delete_loop_counts (zone : option zones_result) (domain type : string)
  (force_delete : bool) (subdomains : list string) (n : nat) (s : state) :
  wp (delete_loop zone domain type force_delete subdomains n) s
     (fun r _ evs =>
        count is_delete_post evs <= length subdomains
        /\ forall k, r = Ok k -> k <= n + count is_delete_post evs).
Proof.
  revert n s. induction subdomains as [|sub rest IH]; intros n s;
    cbn [delete_loop].
  - apply wp_ret. split; [done|]. intros k [= <-]. cbn. lia.
  - apply wp_bind. destruct (zone_id_or_none_pure zone s) as [r Hr].
    apply (wp_run _ _ _ _ _ _ Hr). destruct r as [zone_id|e].
    2: { split; [cbn; lia|done]. }
    apply wp_bind. eapply wp_mono; [apply delete_record_posts_once|].
    intros [b|e] s1 e1 [Hle Hone].
    2: { rewrite app_nil_l. split; [cbn [length]; lia|done]. }
    eapply wp_mono; [apply IH|]. intros r2 s2 e2 [H1 H2].
    rewrite app_nil_l, count_app. cbn [length]. split; [lia|].
    intros k Hk. specialize (H2 k Hk). destruct b; [|lia].
    rewrite (Hone eq_refl). lia.
Qed.

(** The events of the zone lookup that [main] starts with are calm, and
    it reads no input. *)
Lemma main_zone_calm (a : args) :
  calm_op
    (if given (arg_domain a) then
       bind (get_zones (arg_domain a))
         (fun z =>
            bind (zone_getitem z)
              (fun id =>
                 bind (print ("Working with domain: " +:+ default "" (arg_domain a)
                              +:+ " (Zone ID: " +:+ py_str id +:+ ")"))
                   (fun _ => ret (Some z))))
     else ret None).
Proof.
  destruct (given (arg_domain a)); [|apply calm_ret].
  apply calm_bind; [apply calm_get_zones|]. intros z.
  apply calm_bind; [|intros id; repeat calm_step].
  destruct z; [apply calm_raise|apply calm_getitem].
Qed.

Lemma main_zone_raises (a : args) :
  keeps (fun _ => True) (fun _ => true)
    (fun e => is_Exception e = true \/ e = SystemExit 1)
    (if given (arg_domain a) then
       bind (get_zones (arg_domain a))
         (fun z =>
            bind (zone_getitem z)
              (fun id =>
                 bind (print ("Working with domain: " +:+ default "" (arg_domain a)
                              +:+ " (Zone ID: " +:+ py_str id +:+ ")"))
                   (fun _ => ret (Some z))))
     else ret None).
Proof.
  destruct (given (arg_domain a)); [|by apply keeps_ret].
  apply keeps_bind.
  { apply keeps_get_zones; try done.
    - intros e He. by left.
    - by apply login_keeps.
    - destruct (arg_domain a); [by right|done]. }
  intros z. apply keeps_bind.
  { destruct z; [apply keeps_raise; by left|apply keeps_getitem].
    intros e He. by left. }
  intros id. apply keeps_bind; [by apply keeps_print|].
  intros _. by apply keeps_ret.
Qed.

Lemma wp_conj {A} (m : M A) (s : state) (Q1 Q2 : res A -> state -> list event -> Prop) :
  wp m s Q1 -> wp m s Q2 -> wp m s (fun r s' evs => Q1 r s' evs /\ Q2 r s' evs).
Proof. unfold wp. auto. Qed.

Lemma steady_count_add (s s' : state) (evs : list event) :
  steady s s' evs -> count is_add_post evs = 0.
Proof. intros H. unfold count. by rewrite (steady_filter_add _ _ _ H). Qed.

Lemma steady_count_delete (s s' : state) (evs : list event) :
  steady s s' evs -> count is_delete_post evs = 0.
Proof. intros H. unfold count. by rewrite (steady_filter_delete _ _ _ H). Qed.

(** When [add-subdomain] leaves with status 0, one add POST and only one
    was sent for each subdomain of the batch; when [delete-subdomain]
    leaves with status 0, one deletion POST for each. *)
Theorem batch_exit_zero
  (json_dumps : list (gmap string scalar) + gmap string scalar -> string)
  (a : args) (s s' : state) (evs : list event) :
  main_try json_dumps a s = (Err (SystemExit 0), s', evs) ->
  (forall subdomains content type ttl,
     arg_command a = AddSubdomain subdomains content type ttl ->
     count is_add_post evs = length subdomains)
  /\ (forall subdomains type,
        arg_command a = DeleteSubdomain subdomains type ->
        count is_delete_post evs = length subdomains).
Proof.
  intros E.
  cut (wp (main_try json_dumps a) s
         (fun r _ evs =>
            r = Err (SystemExit 0) ->
            (forall subdomains content type ttl,
               arg_command a = AddSubdomain subdomains content type ttl ->
               count is_add_post evs = length subdomains)
            /\ (forall subdomains type,
                  arg_command a = DeleteSubdomain subdomains type ->
                  count is_delete_post evs = length subdomains))).
  { intros H. by apply (wp_elim _ _ _ _ _ _ E H). }
  clear E s' evs.
  set (Q := fun (r : res unit) (s' : state) (evs : list event) => _).
  assert (HQ1 : forall (r : res unit) s' evs,
    r <> Err (SystemExit 0) -> Q r s' evs).
  { intros r s' evs Hr H. done. }
  unfold main_try. apply wp_try_except. unfold run_command.
  apply wp_bind.
  eapply wp_mono;
    [exact (wp_conj _ _ _ _ (main_zone_calm a s) (main_zone_raises a s I))|].
  intros [zone|e] s0 e0 [H0 (_ & _ & He0)].
  2: { destruct (He0 e eq_refl) as [He| ->].
       - rewrite He. repeat wp_step. by apply HQ1.
       - cbn. by apply HQ1. }
  assert (Hother : (forall r' s' evs, Q r' s' evs) ->
    forall (r : res unit) (s2 : state) (e2 : list event),
      match r with
      | Ok a0 => Q (Ok a0) s2 (e0 ++ e2)
      | Err e =>
          if is_Exception e
          then wp (bind (print ("Error: " +:+ exc_str e))
                     (fun _ => raise (SystemExit 1))) s2
                 (fun r0 s1 e1 => Q r0 s1 ((e0 ++ e2) ++ e1))
          else Q (Err e) s2 (e0 ++ e2)
      end).
  { intros Hall r s2 e2. destruct r as [u|e]; [apply Hall|].
    destruct (is_Exception e); [|apply Hall]. repeat wp_step. apply Hall. }
  destruct (arg_command a) as [| |subs content type ttl|subs type] eqn:Hc.
  - apply wp_any. intros r s2 e2. apply Hother.
    intros r' s' evs _. split; intros; discriminate.
  - apply wp_any. intros r s2 e2. apply Hother.
    intros r' s' evs _. split; intros; discriminate.
  - wp_step; [repeat wp_step; by apply HQ1|].
    wp_step; [repeat wp_step; by apply HQ1|].
    apply wp_bind.
    eapply wp_mono;
      [exact (wp_conj _ _ _ _
                (add_loop_counts zone _ _ type ttl subs 0 s0)
                (plain_add_loop zone _ _ type ttl subs 0 s0 I))|].
    intros [k|e] s1 e1 [[Hle Hk] (_ & _ & He1)].
    2: { rewrite (He1 e eq_refl). repeat wp_step. by apply HQ1. }
    wp_step; [|repeat wp_step; by apply HQ1].
    repeat wp_step. cbn [is_Exception]. intros _. split; [|intros; discriminate].
    intros subs' content' type' ttl' [= <- <- <- <-].
    apply Nat.eqb_eq in Heqb1. specialize (Hk k eq_refl).
    rewrite !count_app, (steady_count_add _ _ _ H0). cbn. lia.
  - wp_step; [repeat wp_step; by apply HQ1|].
    apply wp_bind.
    eapply wp_mono;
      [exact (wp_conj _ _ _ _
                (delete_loop_counts zone _ type (arg_force_delete a) subs 0 s0)
                (plain_delete_loop zone _ type (arg_force_delete a) subs 0 s0 I))|].
    intros [k|e] s1 e1 [[Hle Hk] (_ & _ & He1)].
    2: { rewrite (He1 e eq_refl). repeat wp_step. by apply HQ1. }
    wp_step; [|repeat wp_step; by apply HQ1].
    repeat wp_step. cbn [is_Exception]. intros _. split; [intros; discriminate|].
    intros subs' type' [= <- <-].
    apply Nat.eqb_eq in Heqb0. specialize (Hk k eq_refl).
    rewrite !count_app, (steady_count_delete _ _ _ H0). cbn. lia.
Qed.
(** A batch stops at the first subdomain whose [add_record] raises: the
    exception is printed, [main] leaves with status 1, and the
    subdomains that follow are never tried (the events end with the
    failed call and the error line). *)
Theorem add_batch_stops
  (json_dumps : list (gmap string scalar) + gmap string scalar -> string)
  (a : args) (d c t sub : string) (rest : list string) (ttl : Z)
  (z : gmap string scalar) (id : scalar) (s s1 s2 : state)
  (e1 e2 : list event) (e : exc) :
  arg_domain a = Some d -> d <> "" ->
  arg_command a = AddSubdomain (sub :: rest) (Some c) t ttl -> c <> "" ->
  get_zones (Some d) s = (Ok (OneZone z), s1, e1) ->
  z !! "id" = Some id ->
  add_record (Scalar id) t (full_name sub d) c ttl true s1 = (Err e, s2, e2) ->
  main_try json_dumps a s
  = (Err (SystemExit 1), s2,
     (e1 ++ [EvPrint ("Working with domain: " +:+ d +:+ " (Zone ID: "
                      +:+ py_str id +:+ ")")] ++ e2)
     ++ [EvPrint ("Error: " +:+ exc_str e)]).
Proof.
  intros Hd Hdne Hc Hcne Ez Hid Eadd.
  assert (He : is_Exception e = true).
  { assert (Hk : keeps (fun _ => True) (fun _ => true) plain
                   (add_record (Scalar id) t (full_name sub d) c ttl true)).
    { apply keeps_add_record; try done. apply plain_login. }
    destruct (keeps_elim _ _ _ _ _ _ _ _ Hk I Eadd) as (_ & _ & H).
    by apply H. }
  assert (Hgd : given (Some d) = true).
  { cbn. apply negb_true_iff. by apply String.eqb_neq. }
  assert (Hgc : given (Some c) = true).
  { cbn. apply negb_true_iff. by apply String.eqb_neq. }
  unfold main_try, run_command, try_except, bind.
  rewrite Hd, Hgd, Ez. cbn [zone_getitem]. unfold getitem at 1. rewrite Hid.
  cbn [ret print emit]. rewrite Hc. cbn [negb]. rewrite ?Hgd, ?Hgc. cbn [negb].
  cbn [add_loop]. unfold bind. cbn [zone_id_or_none zone_truthy].
  rewrite (dict_with_key_truthy _ _ _ Hid). cbn [zone_getitem].
  unfold getitem. rewrite Hid. cbn [ret from_option Datatypes.id]. rewrite Eadd, He.
  cbn. by rewrite ?app_nil_r, <- ?app_assoc.
Qed.
End Client.

(** ** A concrete provider *)

Module Example.

(** The zone listing: three zones; the name of the first differs from the
    others by case only, and the last two share their name. *)
Definition zones_html : string :=
  "<table id='domains_table'>" +:+
  "<tr><td></td><td><img alt='edit' onclick='go(hosted_dns_zoneid=777)'/></td><td>Example.com</td></tr>" +:+
  "<tr><td></td><td><img alt='edit' onclick='go(hosted_dns_zoneid=12345)'/></td><td>example.com</td></tr>" +:+
  "<tr><td></td><td><img alt='edit' onclick='go(hosted_dns_zoneid=999)'/></td><td>example.com</td></tr>" +:+
  "</table>".

Definition td (s : string) : node := Elem "td" [] ∅ [Text s].

Definition zone_row (id name : string) : node :=
  Elem "tr" [] ∅
    [td "";
     Elem "td" [] ∅
       [Elem "img" []
          {[ "alt" := "edit";
             "onclick" := "go(hosted_dns_zoneid=" +:+ id +:+ ")" ]} []];
     td name].

Definition zones_page : node :=
  Elem "[document]" [] ∅
    [Elem "table" [] {[ "id" := "domains_table" ]}
       [zone_row "777" "Example.com";
        zone_row "12345" "example.com";
        zone_row "999" "example.com"]].

(** A zone page with a CNAME row and two A rows; the first cell of the
    second row has a link whose [onclick] names another id, and the last
    row is too short. *)
Definition zone_html : string :=
  "<table>" +:+
  "<tr class='dns_tr'><td>12345</td><td>100</td><td>ftp.example.com</td><td>CNAME</td><td>300</td></tr>" +:+
  "<tr class='dns_tr_alt'><td><a onclick='delete_record(999)'>x</a></td><td> 101 </td><td>www.example.com</td><td>A</td><td>300</td></tr>" +:+
  "<tr class='dns_tr'><td>12345</td><td>102</td><td>mail.example.com</td><td>A</td><td>1 hour</td></tr>" +:+
  "<tr class='dns_tr'><td>short</td></tr>" +:+
  "</table>".

Definition www_row : node :=
  Elem "tr" ["dns_tr_alt"] ∅
    [Elem "td" [] ∅
       [Elem "a" [] {[ "onclick" := "delete_record(999)" ]} [Text "x"]];
     td " 101 "; td "www.example.com"; td "A"; td "300"].

Definition zone_page : node :=
  Elem "[document]" [] ∅
    [Elem "table" [] ∅
       [Elem "tr" ["dns_tr"] ∅
          [td "12345"; td "100"; td "ftp.example.com"; td "CNAME"; td "300"];
        www_row;
        Elem "tr" ["dns_tr"] ∅
          [td "12345"; td "102"; td "mail.example.com"; td "A"; td "1 hour"];
        Elem "tr" ["dns_tr"] ∅ [td "short"]]].

(** The parser on the two pages above. *)
Definition parse (text : string) : node :=
  if String.eqb text zones_html then zones_page
  else if String.eqb text zone_html then zone_page
  else Elem "[document]" [] ∅ [Text text].

Definition session_cookie : list (string * string) := [("CGISESSID", "0a1b2c")].

(** A provider that accepts every login, sets a session cookie and serves
    the two pages above. *)
Definition http (w : unit) (jar : list (string * string)) (r : request)
  : (string + response) * list (string * string) * unit :=
  match req_url r with
  | UrlLogin => (inr (mkResponse 200 "<html>Welcome</html>"), session_cookie, w)
  | UrlIndex =>
      match req_method r with
      | GET => (inr (mkResponse 200 zones_html), jar, w)
      | POST => (inr (mkResponse 200 "<html>Successfully removed record.</html>"), jar, w)
      end
  | UrlRecords _ => (inr (mkResponse 200 zone_html), jar, w)
  | UrlEditZone _ => (inr (mkResponse 200 "<html>Successfully added new record</html>"), jar, w)
  end.

(** A provider that rejects the login. *)
Definition http_reject (w : unit) (jar : list (string * string)) (r : request)
  : (string + response) * list (string * string) * unit :=
  (inr (mkResponse 200 "<html>Incorrect login</html>"), session_cookie, w).

Definition fresh : state unit :=
  mkState unit "user" "secret" false false [] tt [].

Definition authenticated : state unit :=
  mkState unit "user" "secret" false true session_cookie tt [].

(** Authenticated, with the operator's answer [n] waiting. *)
Definition answering_no : state unit :=
  mkState unit "user" "secret" false true session_cookie tt ["n"].

Definition zone_12345 : gmap string scalar :=
  {[ "id" := SStr "12345"; "name" := SStr "example.com" ]}.

Definition www_record : gmap string scalar :=
  {[ "id" := SStr "101"; "name" := SStr "www.example.com";
     "type" := SStr "A"; "ttl" := SStr "300" ]}.

Definition mail_record : gmap string scalar :=
  {[ "id" := SStr "102"; "name" := SStr "mail.example.com";
     "type" := SStr "A"; "ttl" := SStr "1 hour" ]}.

Definition zone_ref : pyval := Scalar (SStr "12345").

(** The state and the events of a login that the provider rejects. *)
Definition rejected : state unit :=
  mkState unit "user" "secret" false false session_cookie tt [].

Definition rejected_events : list event :=
  [EvHttp (mkRequest GET UrlLogin []);
   EvHttp (mkRequest POST UrlLogin
             [("email", Scalar (SStr "user")); ("pass", Scalar (SStr "secret"));
              ("submit", Scalar (SStr "Login!"))]);
   EvPrint "Login failed. Response excerpt:";
   EvPrint "<html>Incorrect login</html>"].

Definition records_request : request := mkRequest GET (UrlRecords zone_ref) [].

End Example.

(** ** A provider that sets a cookie with an empty value *)

Module EmptyCookie.

(** What [Set-Cookie: lang=] leaves in the jar. *)
Definition lang_cookie : string * string := ("lang", "").

Definition jar : list (string * string) :=
  Example.session_cookie ++ [lang_cookie].

(** As [Example.http], but the answer to the login form sets the empty
    cookie beside the session cookie. *)
Definition http_login (w : unit) (cookies : list (string * string)) (r : request)
  : (string + response) * list (string * string) * unit :=
  match req_url r, req_method r with
  | UrlLogin, POST => (inr (mkResponse 200 "<html>Welcome</html>"), jar, w)
  | _, _ => Example.http w cookies r
  end.

(** As [Example.http], but the zone page sets the empty cookie. *)
Definition http_records (w : unit) (cookies : list (string * string)) (r : request)
  : (string + response) * list (string * string) * unit :=
  match req_url r with
  | UrlRecords _ => (inr (mkResponse 200 Example.zone_html), cookies ++ [lang_cookie], w)
  | _ => Example.http w cookies r
  end.

(** What [dict(self.session.cookies)] raises on that jar, and its [str]:
    the message between double quotes. *)
Definition key_error : exc := KeyError "name='lang', domain=None, path=None".

Definition key_error_str : string :=
  String PyStr.double_quote
    ("name='lang', domain=None, path=None"
     +:+ String PyStr.double_quote EmptyString).

(** A new client with the answer [n] waiting on standard input. *)
Definition fresh_no : state unit :=
  mkState unit "user" "secret" false false [] tt ["n"].

(** The client after the login and the zone page. *)
Definition listed_no : state unit :=
  mkState unit "user" "secret" false true jar tt ["n"].

End EmptyCookie.

(** ** The client on the concrete provider *)

(** The row filter on the example page: the CNAME row and the short row are
    dropped, the two A rows are kept in page order. *)
Example get_records_example :
  (get_records unit Example.http Example.parse Example.zone_ref Example.authenticated).1.1
  = Ok [Example.www_record; Example.mail_record].
Proof. vm_compute. reflexivity. Qed.

(** The first loop does find an id in the example row. *)
Example onclick_record_id_example :
  Scrape.onclick_record_id
    (Soup.find_all "a" Soup.any (hd (Text "") (Scrape.cells Example.www_row)))
  = Some "999".
Proof. vm_compute. reflexivity. Qed.

(** *** Instances of the theorems *)

Lemma login_idempotent_witness :
  logged_in unit Example.authenticated = true
  /\ login unit Example.http Example.authenticated
     = (Ok true, Example.authenticated, []).
Proof.
  split; [reflexivity|].
  apply (login_idempotent unit Example.http Example.authenticated).
  reflexivity.
Defined.

Lemma login_failure_raises_witness :
  login unit Example.http_reject Example.fresh
  = (Ok false, Example.rejected, Example.rejected_events)
  /\ get_zones unit Example.http_reject Example.parse None Example.fresh
     = (Err (Exception "Login failed"), Example.rejected, Example.rejected_events)
  /\ delete_record unit Example.http_reject Example.parse Example.zone_ref
       SNone (Some "www.example.com") "A" true Example.fresh
     = (Err (Exception "Login failed"), Example.rejected, Example.rejected_events).
Proof.
  assert (H : login unit Example.http_reject Example.fresh
              = (Ok false, Example.rejected, Example.rejected_events)).
  { vm_compute. reflexivity. }
  destruct (login_failure_raises unit Example.http_reject Example.parse
              Example.fresh Example.rejected Example.rejected_events H)
    as (Hz & _ & _ & Hd).
  split; [exact H|]. split; [apply Hz|apply Hd].
Defined.

Lemma login_success_iff_witness :
  logged_in unit Example.fresh = false
  /\ exists b s' evs,
       login unit Example.http Example.fresh = (Ok b, s', evs)
       /\ logged_in unit s' = b
       /\ (b = true <->
           exists r1 jar1 w1 r2 jar2 w2,
             Example.http (world unit Example.fresh) (cookies unit Example.fresh)
               login_get = (inr r1, jar1, w1)
             /\ Jar.convertible jar1 = true
             /\ Example.http w1 jar1 (login_post unit Example.fresh)
                = (inr r2, jar2, w2)
             /\ Jar.convertible jar2 = true
             /\ cookies unit s' = jar2
             /\ PyStr.contains "Incorrect login" (text r2) = false
             /\ (0 < length jar2)%nat).
Proof.
  split; [reflexivity|].
  apply (login_success_iff unit Example.http Example.fresh). reflexivity.
Defined.

Lemma get_zones_filter_witness :
  "example.com" <> ""
  /\ "nonexistent.example.com" <> ""
  /\ login unit Example.http Example.authenticated
     = (Ok true, Example.authenticated, [])
  /\ Jar.convertible Example.session_cookie = true
  /\ Example.http tt Example.session_cookie (mkRequest GET UrlIndex [])
     = (inr (mkResponse 200 Example.zones_html), Example.session_cookie, tt)
  /\ (get_zones unit Example.http Example.parse (Some "example.com")
        Example.authenticated).1.1
     = Ok (OneZone Example.zone_12345)
  /\ (get_zones unit Example.http Example.parse (Some "nonexistent.example.com")
        Example.authenticated).1.1
     = Err (SystemExit 1).
Proof.
  assert (H1 : "example.com" <> "") by discriminate.
  assert (H2 : "nonexistent.example.com" <> "") by discriminate.
  assert (H3 : login unit Example.http Example.authenticated
               = (Ok true, Example.authenticated, [])) by reflexivity.
  assert (Hc : Jar.convertible Example.session_cookie = true) by reflexivity.
  assert (H4 : Example.http tt Example.session_cookie (mkRequest GET UrlIndex [])
               = (inr (mkResponse 200 Example.zones_html),
                  Example.session_cookie, tt)) by reflexivity.
  split; [exact H1|]. split; [exact H2|]. split; [exact H3|]. split; [exact Hc|].
  split; [exact H4|].
  split.
  - apply (proj1 (get_zones_filter unit Example.http Example.parse
                    Example.authenticated Example.authenticated "example.com"
                    [] _ _ _ H1 H3 Hc H4 Hc)
             [{[ "id" := SStr "777"; "name" := SStr "Example.com" ]}]
             Example.zone_12345
             [{[ "id" := SStr "999"; "name" := SStr "example.com" ]}]).
    + vm_compute. reflexivity.
    + constructor; [|constructor]. vm_compute. discriminate.
    + vm_compute. reflexivity.
  - apply (proj2 (get_zones_filter unit Example.http Example.parse
                    Example.authenticated Example.authenticated
                    "nonexistent.example.com" [] _ _ _ H2 H3 Hc H4 Hc)).
    repeat constructor; vm_compute; discriminate.
Defined.

Lemma get_records_rows_witness :
  get_records unit Example.http Example.parse Example.zone_ref
    Example.authenticated
  = (Ok [Example.www_record; Example.mail_record], Example.authenticated,
     [EvHttp Example.records_request])
  /\ (exists zone_id s0 e0 s1 e1 resp,
        login unit Example.http Example.authenticated = (Ok true, s0, e0)
        /\ resolve_zone_id unit Example.http Example.parse Example.zone_ref s0
           = (Ok zone_id, s1, e1)
        /\ Example.http (world unit s1) (cookies unit s1)
             (mkRequest GET (UrlRecords zone_id) [])
           = (inr resp, cookies unit Example.authenticated,
              world unit Example.authenticated)
        /\ [Example.www_record; Example.mail_record]
           = Scrape.records_spec (Example.parse (text resp)))
  /\ Jar.convertible Example.session_cookie = true
  /\ (get_records unit Example.http Example.parse Example.zone_ref
        Example.authenticated).1.1
     = Ok (Scrape.records_spec
             (Example.parse (text (mkResponse 200 Example.zone_html)))).
Proof.
  assert (H : get_records unit Example.http Example.parse Example.zone_ref
                Example.authenticated
              = (Ok [Example.www_record; Example.mail_record],
                 Example.authenticated, [EvHttp Example.records_request])).
  { vm_compute. reflexivity. }
  assert (H1 : login unit Example.http Example.authenticated
               = (Ok true, Example.authenticated, [])) by reflexivity.
  assert (H2 : resolve_zone_id unit Example.http Example.parse Example.zone_ref
                 Example.authenticated
               = (Ok Example.zone_ref, Example.authenticated, [])) by reflexivity.
  assert (Hc : Jar.convertible Example.session_cookie = true) by reflexivity.
  assert (H3 : Example.http tt Example.session_cookie Example.records_request
               = (inr (mkResponse 200 Example.zone_html),
                  Example.session_cookie, tt)) by reflexivity.
  destruct (get_records_rows unit Example.http Example.parse Example.zone_ref
              Example.authenticated) as [Hret Hdoes].
  split; [exact H|]. split; [exact (Hret _ _ _ H)|]. split; [exact Hc|].
  exact (Hdoes Example.zone_ref Example.authenticated [] Example.authenticated
           [] _ _ _ H1 H2 Hc H3).
Defined.


Lemma record_id_is_column_witness :
  get_records unit Example.http Example.parse Example.zone_ref
    Example.authenticated
  = (Ok [Example.www_record; Example.mail_record], Example.authenticated,
     [EvHttp Example.records_request])
  /\ In Example.www_record [Example.www_record; Example.mail_record]
  /\ exists resp tr,
       In tr (Scrape.record_rows (Example.parse (text resp)))
       /\ Scrape.record_of_row tr = Some Example.www_record
       /\ Example.www_record = Scrape.row_fields tr
       /\ Example.www_record !! "id"
          = Some (SStr (PyStr.strip (Soup.text (Scrape.cells tr !!! 1%nat)))).
Proof.
  assert (H : get_records unit Example.http Example.parse Example.zone_ref
                Example.authenticated
              = (Ok [Example.www_record; Example.mail_record],
                 Example.authenticated, [EvHttp Example.records_request])).
  { vm_compute. reflexivity. }
  assert (Hin : In Example.www_record [Example.www_record; Example.mail_record]).
  { left. reflexivity. }
  split; [exact H|]. split; [exact Hin|].
  exact (record_id_is_column unit Example.http Example.parse Example.zone_ref
           Example.authenticated Example.authenticated _ _ _ H Hin).
Defined.

Lemma unsupported_type_rejected_witness :
  "CNAME" <> "A"
  /\ "CNAME" <> "AAAA"
  /\ record_exists unit Example.http Example.parse Example.zone_ref
       "ftp.example.com" "CNAME" Example.fresh
     = (Err (ValueError (unsupported_msg "CNAME")), Example.fresh, [])
  /\ add_record unit Example.http Example.parse Example.zone_ref "CNAME"
       "ftp.example.com" "www.example.com" 300 true Example.authenticated
     = (Err (ValueError (unsupported_msg "CNAME")), Example.authenticated, []).
Proof.
  assert (H1 : "CNAME" <> "A") by discriminate.
  assert (H2 : "CNAME" <> "AAAA") by discriminate.
  destruct (unsupported_type_rejected unit Example.http Example.parse "CNAME" H1 H2)
    as (Hex & _ & _ & Hadd & _).
  split; [exact H1|]. split; [exact H2|]. split; [apply Hex|].
  apply Hadd. reflexivity.
Defined.

Lemma delete_confirmation_gate_witness :
  stdin unit Example.answering_no = ["n"]
  /\ PyStr.lower "n" <> "y"
  /\ (delete_record unit Example.http Example.parse Example.zone_ref SNone
        (Some "www.example.com") "A" false Example.answering_no).1.1
     = Ok false
  /\ existsb is_delete_post
       (delete_record unit Example.http Example.parse Example.zone_ref SNone
          (Some "www.example.com") "A" false Example.answering_no).2
     = false
  /\ existsb is_input
       (delete_record unit Example.http Example.parse Example.zone_ref SNone
          (Some "www.example.com") "A" true Example.answering_no).2
     = false.
Proof.
  assert (H1 : stdin unit Example.answering_no = ["n"]) by reflexivity.
  assert (H2 : PyStr.lower "n" <> "y") by discriminate.
  destruct (delete_confirmation_gate unit Example.http Example.parse
              Example.zone_ref SNone (Some "www.example.com") "A"
              Example.answering_no) as [Hno Hforce].
  assert (Hprompt : existsb is_input
            (delete_record unit Example.http Example.parse Example.zone_ref SNone
               (Some "www.example.com") "A" false Example.answering_no).2 = true).
  { vm_compute. reflexivity. }
  split; [exact H1|]. split; [exact H2|].
  destruct (delete_record unit Example.http Example.parse Example.zone_ref SNone
              (Some "www.example.com") "A" false Example.answering_no)
    as [[r s'] evs] eqn:E.
  destruct (Hno "n" [] r s' evs H1 H2 eq_refl) as (Hpost & _ & Hfalse).
  split; [exact (Hfalse Hprompt)|]. split; [exact Hpost|].
  destruct (delete_record unit Example.http Example.parse Example.zone_ref SNone
              (Some "www.example.com") "A" true Example.answering_no)
    as [[r' s''] evs'] eqn:E'.
  exact (Hforce r' s'' evs' eq_refl).
Defined.

(** C1. On a zone that has an [A] record for the name, [add_record] with
    the existence check finds the record and then fails: the record has no
    [content] key, so reading it raises [KeyError('content')] in place of
    the intended report and [return False]. Only the listing GET was
    sent. *)
Theorem add_record_existing_raises_KeyError :
  (record_exists unit Example.http Example.parse Example.zone_ref
     "www.example.com" "A" Example.authenticated).1.1
  = Ok (Some Example.www_record)
  /\ add_record unit Example.http Example.parse Example.zone_ref "A"
       "www.example.com" "192.0.2.1" 300 true Example.authenticated
     = (Err (KeyError "content"), Example.authenticated,
        [EvHttp Example.records_request;
         EvPrint "Error in add_record: 'content'"]).
Proof. split; vm_compute; reflexivity. Qed.

(** C9. When the answer to the login form leaves a cookie whose value is
    empty in the jar, the body has no [Incorrect login] and the session
    holds two cookies, yet [login] returns false and leaves the flag unset:
    formatting the jar for the debug line raises [KeyError], which the
    [except] clause of [login] turns into [return False]. *)
Theorem login_empty_cookie_returns_false :
  EmptyCookie.http_login tt Example.session_cookie (login_post unit Example.fresh)
  = (inr (mkResponse 200 "<html>Welcome</html>"), EmptyCookie.jar, tt)
  /\ PyStr.contains "Incorrect login" "<html>Welcome</html>" = false
  /\ (0 < length EmptyCookie.jar)%nat
  /\ Jar.dict EmptyCookie.jar = Err EmptyCookie.key_error
  /\ login unit EmptyCookie.http_login Example.fresh
     = (Ok false,
        mkState unit "user" "secret" false false EmptyCookie.jar tt [],
        [EvHttp login_get;
         EvHttp (login_post unit Example.fresh);
         EvPrint ("Login error: " +:+ EmptyCookie.key_error_str)]).
Proof.
  split; [reflexivity|]. split; [reflexivity|]. split; [vm_compute; lia|].
  split; vm_compute; reflexivity.
Qed.

(** C4. When the zone page leaves a cookie whose value is empty in the
    jar, [delete_record] with [force_delete] finds the record and shows no
    prompt, but sends no deletion POST: formatting the jar for the debug
    line before the POST raises [KeyError], which is logged and raised
    again. The same call without [force_delete] reaches the prompt. *)
Theorem forced_delete_empty_cookie_raises :
  delete_record unit EmptyCookie.http_records Example.parse Example.zone_ref
    SNone (Some "www.example.com") "A" true EmptyCookie.fresh_no
  = (Err EmptyCookie.key_error, EmptyCookie.listed_no,
     [EvHttp login_get;
      EvHttp (login_post unit EmptyCookie.fresh_no);
      EvHttp Example.records_request;
      EvPrint ("Error in delete_record: " +:+ EmptyCookie.key_error_str)])
  /\ existsb is_delete_post
       (delete_record unit EmptyCookie.http_records Example.parse
          Example.zone_ref SNone (Some "www.example.com") "A" true
          EmptyCookie.fresh_no).2
     = false
  /\ (delete_record unit EmptyCookie.http_records Example.parse
        Example.zone_ref SNone (Some "www.example.com") "A" false
        EmptyCookie.fresh_no).2
     = [EvHttp login_get;
        EvHttp (login_post unit EmptyCookie.fresh_no);
        EvHttp Example.records_request;
        EvInput "Are you sure you want to delete record ID 101? (y/N): ";
        EvPrint "Deletion cancelled."].
Proof. split; [|split]; vm_compute; reflexivity. Qed.

(** C5 as stated fails: with the empty string as the filter name, no zone
    of the listing has that name, and [get_zones] neither ends the process
    nor returns one zone: it returns the whole list. *)
Lemma empty_filter_returns_every_zone :
  get_zones unit Example.http Example.parse (Some "") Example.authenticated
  = (Ok (AllZones
           [{[ "id" := SStr "777"; "name" := SStr "Example.com" ]};
            Example.zone_12345;
            {[ "id" := SStr "999"; "name" := SStr "example.com" ]}]),
     Example.authenticated, [EvHttp (mkRequest GET UrlIndex [])])
  /\ Forall (fun z : gmap string scalar => z !! "name" <> Some (SStr ""))
       [{[ "id" := SStr "777"; "name" := SStr "Example.com" ]};
        Example.zone_12345;
        {[ "id" := SStr "999"; "name" := SStr "example.com" ]}].
Proof.
  split; [vm_compute; reflexivity|].
  repeat constructor; vm_compute; discriminate.
Qed.

(** C2 as stated fails: [add_record] with the type [CNAME] on a session
    that is not authenticated yet sends the two login requests before it
    raises [ValueError]. *)
Lemma unsupported_add_after_login_requests :
  "CNAME" <> "A"
  /\ "CNAME" <> "AAAA"
  /\ add_record unit Example.http Example.parse Example.zone_ref "CNAME"
       "ftp.example.com" "www.example.com" 300 true Example.fresh
     = (Err (ValueError (unsupported_msg "CNAME")), Example.authenticated,
        [EvHttp (mkRequest GET UrlLogin []);
         EvHttp (mkRequest POST UrlLogin
                   [("email", Scalar (SStr "user"));
                    ("pass", Scalar (SStr "secret"));
                    ("submit", Scalar (SStr "Login!"))])])
  /\ existsb is_http
       (add_record unit Example.http Example.parse Example.zone_ref "CNAME"
          "ftp.example.com" "www.example.com" 300 true Example.fresh).2
     = true.
Proof.
  split; [discriminate|]. split; [discriminate|].
  split; vm_compute; reflexivity.
Qed.


(** ** Further instances on the concrete provider *)

Module Batch.

Definition zone_777 : gmap string scalar :=
  {[ "id" := SStr "777"; "name" := SStr "Example.com" ]}.

Definition zone_999 : gmap string scalar :=
  {[ "id" := SStr "999"; "name" := SStr "example.com" ]}.

Definition zones : list (gmap string scalar) :=
  [zone_777; Example.zone_12345; zone_999].

Definition zones_request : request := mkRequest GET UrlIndex [].

(** A [json.dumps] that prints nothing of its argument. *)
Definition json_dumps
  (x : list (gmap string scalar) + gmap string scalar) : string := "[]".

(** [--domain example.com add-subdomain new --content 192.0.2.7] *)
Definition add_new : args :=
  mkArgs (Some "example.com") None false
    (AddSubdomain ["new"] (Some "192.0.2.7") "A" 300).

(** [--domain example.com add-subdomain www new --content 192.0.2.7]: the
    first name is already in the zone. *)
Definition add_www_new : args :=
  mkArgs (Some "example.com") None false
    (AddSubdomain ["www"; "new"] (Some "192.0.2.7") "A" 300).

(** [add-subdomain new --content 192.0.2.7] with no [--domain]. *)
Definition add_no_domain : args :=
  mkArgs None None false (AddSubdomain ["new"] (Some "192.0.2.7") "A" 300).

Definition working_line : event :=
  EvPrint "Working with domain: example.com (Zone ID: 12345)".

End Batch.

Lemma get_zones_zone_shape_witness :
  get_zones unit Example.http Example.parse None Example.authenticated
  = (Ok (AllZones Batch.zones), Example.authenticated,
     [EvHttp Batch.zones_request])
  /\ Forall zone_shape Batch.zones.
Proof.
  assert (H : get_zones unit Example.http Example.parse None
                Example.authenticated
              = (Ok (AllZones Batch.zones), Example.authenticated,
                 [EvHttp Batch.zones_request])).
  { vm_compute. reflexivity. }
  split; [exact H|].
  exact (get_zones_zone_shape unit Example.http Example.parse None
           Example.authenticated Example.authenticated _ _ H).
Defined.

Lemma listed_zone_resolves_witness :
  In Example.zone_12345 Batch.zones
  /\ exists id,
       Example.zone_12345 !! "id" = Some (SStr id)
       /\ forall s : state unit,
            resolve_zone_id unit Example.http Example.parse
              (Dict Example.zone_12345) s
            = (Ok (Scalar (SStr id)), s, [])
            /\ resolve_zone_id unit Example.http Example.parse
                 (Scalar (SStr id)) s
               = (Ok (Scalar (SStr id)), s, []).
Proof.
  assert (H : get_zones unit Example.http Example.parse None
                Example.authenticated
              = (Ok (AllZones Batch.zones), Example.authenticated,
                 [EvHttp Batch.zones_request])).
  { vm_compute. reflexivity. }
  assert (Hin : In Example.zone_12345 Batch.zones).
  { right. left. reflexivity. }
  split; [exact Hin|].
  exact (listed_zone_resolves unit Example.http Example.parse None
           Example.authenticated Example.authenticated _ _ _ H Hin).
Defined.

Lemma resolve_zone_name_witness :
  PyStr.isdigit "example.com" = false
  /\ resolve_zone_id unit Example.http Example.parse
       (Scalar (SStr "example.com")) Example.authenticated
     = (Ok (Scalar (SStr "12345")), Example.authenticated,
        [EvHttp Batch.zones_request])
  /\ resolve_zone_id unit Example.http Example.parse
       (Scalar (SStr "unknown.org")) Example.authenticated
     = (Ok (Scalar (SStr "unknown.org")), Example.authenticated,
        [EvHttp Batch.zones_request]).
Proof.
  assert (H : get_zones unit Example.http Example.parse None
                Example.authenticated
              = (Ok (AllZones Batch.zones), Example.authenticated,
                 [EvHttp Batch.zones_request])).
  { vm_compute. reflexivity. }
  split; [reflexivity|]. split.
  - apply (proj1 (resolve_zone_name unit Example.http Example.parse
                    "example.com" Example.authenticated Example.authenticated
                    _ _ eq_refl H)
             [Batch.zone_777] Example.zone_12345 [Batch.zone_999] (SStr "12345")).
    + reflexivity.
    + constructor; [|constructor]. vm_compute. discriminate.
    + vm_compute. reflexivity.
    + vm_compute. reflexivity.
  - apply (proj2 (resolve_zone_name unit Example.http Example.parse
                    "unknown.org" Example.authenticated Example.authenticated
                    _ _ eq_refl H)).
    repeat constructor; vm_compute; discriminate.
Defined.

Lemma record_exists_first_match_witness :
  Scrape.supported "A" = true
  /\ record_exists unit Example.http Example.parse Example.zone_ref
       "mail.example.com" "A" Example.authenticated
     = (Ok (List.find (record_matches "mail.example.com" "A")
              [Example.www_record; Example.mail_record]),
        Example.authenticated, [EvHttp Example.records_request]).
Proof.
  assert (H : get_records unit Example.http Example.parse Example.zone_ref
                Example.authenticated
              = (Ok [Example.www_record; Example.mail_record],
                 Example.authenticated, [EvHttp Example.records_request])).
  { vm_compute. reflexivity. }
  split; [reflexivity|].
  exact (record_exists_first_match unit Example.http Example.parse
           Example.zone_ref "mail.example.com" "A" Example.authenticated
           Example.authenticated _ _ eq_refl H).
Defined.

Lemma add_record_submits_witness :
  (add_record unit Example.http Example.parse Example.zone_ref "A"
     "new.example.com" "192.0.2.7" 300 true Example.authenticated).1.1
  = Ok (added_marker "<html>Successfully added new record</html>")
  /\ requests
       (add_record unit Example.http Example.parse Example.zone_ref "A"
          "new.example.com" "192.0.2.7" 300 true Example.authenticated).2
     = requests ([] ++ [] ++ [EvHttp Example.records_request])
       ++ [EvHttp (mkRequest POST (UrlEditZone Example.zone_ref)
                     (add_form Example.zone_ref "A" "new.example.com"
                        "192.0.2.7" 300))].
Proof.
  destruct (add_record unit Example.http Example.parse Example.zone_ref "A"
              "new.example.com" "192.0.2.7" 300 true Example.authenticated)
    as [[r s'] evs] eqn:E.
  refine (add_record_submits unit Example.http Example.parse Example.zone_ref
            Example.zone_ref "A" "new.example.com" "192.0.2.7" 300 true
            Example.authenticated Example.authenticated Example.authenticated
            Example.authenticated [] [] [EvHttp Example.records_request]
            (mkResponse 200 "<html>Successfully added new record</html>")
            Example.session_cookie tt _ _ _ _ _ _ r s' evs E).
  - reflexivity.
  - reflexivity.
  - reflexivity.
  - vm_compute. reflexivity.
  - reflexivity.
  - reflexivity.
Defined.

Lemma delete_record_submits_witness :
  (delete_record unit Example.http Example.parse Example.zone_ref SNone
     (Some "www.example.com") "A" true Example.authenticated).1.1
  = Ok (deleted_marker "<html>Successfully removed record.</html>")
  /\ requests
       (delete_record unit Example.http Example.parse Example.zone_ref SNone
          (Some "www.example.com") "A" true Example.authenticated).2
     = requests ([] ++ [] ++ [EvHttp Example.records_request])
       ++ [EvHttp (mkRequest POST UrlIndex
                     (delete_form Example.zone_ref (SStr "101")))].
Proof.
  destruct (delete_record unit Example.http Example.parse Example.zone_ref
              SNone (Some "www.example.com") "A" true Example.authenticated)
    as [[r s'] evs] eqn:E.
  refine (delete_record_submits unit Example.http Example.parse
            Example.zone_ref Example.zone_ref SNone (SStr "101")
            (Some "www.example.com") "A" true Example.authenticated
            Example.authenticated
            ([] ++ [] ++ [EvHttp Example.records_request])
            (mkResponse 200 "<html>Successfully removed record.</html>")
            Example.session_cookie tt _ I _ _ r s' evs E).
  - exists Example.authenticated, [], Example.authenticated, [].
    split; [reflexivity|]. split; [reflexivity|]. split; [reflexivity|].
    right. split; [reflexivity|].
    exists Example.www_record, [EvHttp Example.records_request].
    split; [vm_compute; reflexivity|]. split; reflexivity.
  - reflexivity.
  - reflexivity.
Defined.

Lemma delete_record_not_found_witness :
  delete_record unit Example.http Example.parse Example.zone_ref SNone
    (Some "gone.example.com") "A" true Example.authenticated
  = (Ok false, Example.authenticated,
     [] ++ [] ++ [EvHttp Example.records_request]
     ++ [EvPrint "Record 'gone.example.com' not found."]).
Proof.
  apply (delete_record_not_found unit Example.http Example.parse
           Example.zone_ref Example.zone_ref SNone (Some "gone.example.com")
           "A" true Example.authenticated Example.authenticated
           Example.authenticated Example.authenticated
           [] [] [EvHttp Example.records_request]).
  - reflexivity.
  - reflexivity.
  - reflexivity.
  - reflexivity.
  - vm_compute. reflexivity.
Defined.

Lemma delete_record_eof_witness :
  delete_record unit Example.http Example.parse Example.zone_ref (SStr "101")
    None "A" false Example.authenticated
  = (Err EOFError, Example.authenticated,
     ([] ++ [])
     ++ [EvInput "Are you sure you want to delete record ID 101? (y/N): ";
         EvPrint "Error in delete_record: EOF when reading a line"]).
Proof.
  apply (delete_record_eof unit Example.http Example.parse Example.zone_ref
           Example.zone_ref (SStr "101") (SStr "101") None "A"
           Example.authenticated Example.authenticated ([] ++ [])).
  - exists Example.authenticated, [], Example.authenticated, [].
    split; [reflexivity|]. split; [reflexivity|]. split; [reflexivity|].
    left. split; [reflexivity|]. split; [reflexivity|]. split; reflexivity.
  - reflexivity.
Defined.

Lemma login_requests_witness :
  logged_in unit Example.fresh = false
  /\ Jar.convertible Example.session_cookie = true
  /\ requests (login unit Example.http Example.fresh).2
     = [EvHttp login_get; EvHttp (login_post unit Example.fresh)].
Proof.
  split; [reflexivity|]. split; [reflexivity|].
  destruct (login unit Example.http Example.fresh) as [[r s'] evs] eqn:E.
  exact (proj2 (login_requests unit Example.http Example.fresh s' r evs
                  eq_refl E)
           (mkResponse 200 "<html>Welcome</html>") Example.session_cookie tt
           eq_refl).
Defined.

Lemma login_comes_first_witness :
  logged_in unit Example.fresh = false
  /\ exists rest,
       requests (get_records unit Example.http Example.parse Example.zone_ref
                   Example.fresh).2
       = EvHttp login_get :: rest.
Proof.
  split; [reflexivity|].
  destruct (get_records unit Example.http Example.parse Example.zone_ref
              Example.fresh) as [[r s'] evs] eqn:E.
  exact (proj1 (proj2 (login_comes_first unit Example.http Example.parse
                         Example.fresh eq_refl))
           Example.zone_ref r s' evs E).
Defined.

Lemma missing_zone_exits_witness :
  given (arg_domain Batch.add_no_domain) = false
  /\ main_try unit Example.http Example.parse Batch.json_dumps
       Batch.add_no_domain Example.authenticated
     = (Err (SystemExit 1), Example.authenticated,
        [EvPrint "Error: For adding subdomains, you must provide --domain"]).
Proof.
  split; [reflexivity|].
  exact (proj1 (missing_zone_exits unit Example.http Example.parse
                  Batch.json_dumps Batch.add_no_domain Example.authenticated
                  eq_refl)
           ["new"] (Some "192.0.2.7") "A" 300%Z eq_refl).
Defined.

Lemma batch_exit_zero_witness :
  (main_try unit Example.http Example.parse Batch.json_dumps Batch.add_new
     Example.authenticated).1.1 = Err (SystemExit 0)
  /\ count is_add_post
       (main_try unit Example.http Example.parse Batch.json_dumps
          Batch.add_new Example.authenticated).2
     = 1.
Proof.
  destruct (main_try unit Example.http Example.parse Batch.json_dumps
              Batch.add_new Example.authenticated) as [[r s'] evs] eqn:E.
  assert (Hr : r = Err (SystemExit 0)).
  { vm_compute in E. congruence. }
  split; [exact Hr|]. subst r.
  exact (proj1 (batch_exit_zero unit Example.http Example.parse
                  Batch.json_dumps Batch.add_new Example.authenticated s' evs
                  E)
           ["new"] (Some "192.0.2.7") "A" 300%Z eq_refl).
Defined.

Lemma add_batch_stops_witness :
  main_try unit Example.http Example.parse Batch.json_dumps Batch.add_www_new
    Example.authenticated
  = (Err (SystemExit 1), Example.authenticated,
     ([EvHttp Batch.zones_request]
      ++ [EvPrint "Working with domain: example.com (Zone ID: 12345)"]
      ++ [EvHttp Example.records_request;
          EvPrint "Error in add_record: 'content'"])
     ++ [EvPrint "Error: 'content'"]).
Proof.
  apply (add_batch_stops unit Example.http Example.parse Batch.json_dumps
           Batch.add_www_new "example.com" "192.0.2.7" "A" "www" ["new"]
           300%Z Example.zone_12345 (SStr "12345") Example.authenticated
           Example.authenticated Example.authenticated
           [EvHttp Batch.zones_request]
           [EvHttp Example.records_request;
            EvPrint "Error in add_record: 'content'"]
           (KeyError "content")).
  - reflexivity.
  - discriminate.
  - reflexivity.
  - discriminate.
  - vm_compute. reflexivity.
  - reflexivity.
  - vm_compute. reflexivity.
Defined.

Lemma only_zone_filter_exits_witness :
  add_record unit Example.http Example.parse Example.zone_ref "A"
    "www.example.com" "192.0.2.1" 300 true Example.authenticated
  = (Err (KeyError "content"), Example.authenticated,
     [EvHttp Example.records_request;
      EvPrint "Error in add_record: 'content'"])
  /\ is_Exception (KeyError "content") = true.
Proof.
  assert (H : add_record unit Example.http Example.parse Example.zone_ref "A"
                "www.example.com" "192.0.2.1" 300 true Example.authenticated
              = (Err (KeyError "content"), Example.authenticated,
                 [EvHttp Example.records_request;
                  EvPrint "Error in add_record: 'content'"])).
  { vm_compute. reflexivity. }
  split; [exact H|].
  exact (proj1 (proj2 (proj2 (proj2 (proj2
           (only_zone_filter_exits unit Example.http Example.parse)))))
           Example.zone_ref "A" "www.example.com" "192.0.2.1" 300%Z true
           Example.authenticated _ _ _ _ H eq_refl).
Defined.

Lemma authenticated_session_kept_witness :
  logged_in unit Example.authenticated = true
  /\ logged_in unit
       (add_record unit Example.http Example.parse Example.zone_ref "A"
          "new.example.com" "192.0.2.7" 300 true Example.authenticated).1.2
     = true
  /\ existsb is_login_request
       (add_record unit Example.http Example.parse Example.zone_ref "A"
          "new.example.com" "192.0.2.7" 300 true Example.authenticated).2
     = false.
Proof.
  split; [reflexivity|].
  destruct (add_record unit Example.http Example.parse Example.zone_ref "A"
              "new.example.com" "192.0.2.7" 300 true Example.authenticated)
    as [[r s'] evs] eqn:E.
  exact (proj1 (proj2 (proj2 (proj2
           (authenticated_session_kept unit Example.http Example.parse))))
           Example.zone_ref "A" "new.example.com" "192.0.2.7" 300%Z true
           Example.authenticated r s' evs eq_refl E).
Defined.

Lemma listings_read_only_witness :
  forallb is_read
    (record_exists unit Example.http Example.parse
       (Scalar (SStr "example.com")) "www.example.com" "A" Example.fresh).2
  = true.
Proof.
  destruct (record_exists unit Example.http Example.parse
              (Scalar (SStr "example.com")) "www.example.com" "A"
              Example.fresh) as [[r s'] evs] eqn:E.
  exact (proj2 (proj2 (listings_read_only unit Example.http Example.parse))
           (Scalar (SStr "example.com")) "www.example.com" "A" Example.fresh
           r s' evs E).
Defined.

Lemma mutations_stay_apart_witness :
  existsb is_add_post
    (delete_record unit Example.http Example.parse Example.zone_ref SNone
       (Some "www.example.com") "A" true Example.authenticated).2
  = false.
Proof.
  destruct (delete_record unit Example.http Example.parse Example.zone_ref
              SNone (Some "www.example.com") "A" true Example.authenticated)
    as [[r s'] evs] eqn:E.
  exact (proj2 (mutations_stay_apart unit Example.http Example.parse)
           Example.zone_ref SNone (Some "www.example.com") "A" true
           Example.authenticated r s' evs E).
Defined.
